(** * SystemReporter: the data-collection layer of [SystemReporter.py]

    A shallow embedding of the nine probes of [SystemReporter.py] and of
    the aggregation step of [main], followed by the properties of the
    specification that concern them.

    Conventions of the embedding.
    - A Python [str] is a [string]; its characters are the code points
      below 256.  A [bytes] object is a [list byte]; a Python [int] is a [Z].
    - A Python [dict] with string keys is a [gmap string _].
    - A call that may raise returns a [result]; a [try]/[except] is a
      [match] on it.  A bare [except:] and [except Exception] catch every
      exception the model can raise. *)

From Stdlib Require Import ZArith QArith String Ascii List Lia.
From Stdlib.Strings Require Import Byte.
From stdpp Require Import gmap strings list sorting.

Set Warnings "-register-all".
Local Open Scope string_scope.
Local Open Scope Z_scope.

(** ** Exceptions and fallible calls *)

Inductive exn_class : Type :=
| OSError | FileNotFoundError | PermissionError | GaiError
| IndexError | KeyError | TypeError | OverflowError
| NoSuchProcess | AccessDenied | ZombieProcess.

Record exn : Type := Exn { exn_cls : exn_class; exn_str : string }.

Inductive result (A : Type) : Type :=
| Ok (a : A)
| Raise (e : exn).
Arguments Ok {A} a.
Arguments Raise {A} e.

(** Sequencing of fallible calls outside any [try]: the first exception
    ends the computation.  Written [x ← r; k]. *)
#[global] Instance result_bind : MBind result := fun A B k r =>
  match r with
  | Ok a => k a
  | Raise e => Raise e
  end.

(** [for i in idx: s = body i s], leaving the loop at the first fault. *)
Fixpoint for_each {S I : Type} (body : I -> S -> option S) (idx : list I) (s : S)
  : option S :=
  match idx with
  | [] => Some s
  | i :: idx' =>
      match body i s with
      | None => None
      | Some s' => for_each body idx' s'
      end
  end.

(** ** Python sequence and string primitives *)

(** [l[lo:hi]] for [0 <= lo <= hi]. *)
Definition slice {A : Type} (lo hi : nat) (l : list A) : list A :=
  take (hi - lo) (drop lo l).

(** [s[lo:hi]] for [0 <= lo <= hi]. *)
Definition str_slice (lo hi : nat) (s : string) : string :=
  substring lo (hi - lo) s.

(** [s[-n:]]. *)
Definition str_last (n : nat) (s : string) : string :=
  let len := String.length s in
  substring (len - n) n s.

(** [s[k]], with Python's negative indices; [None] is [IndexError]. *)
Definition str_index (s : string) (k : Z) : option ascii :=
  let n := Z.of_nat (String.length s) in
  if (0 <=? k) && (k <? n) then String.get (Z.to_nat k) s
  else if (- n <=? k) && (k <? 0) then String.get (Z.to_nat (n + k)) s
  else None.

(** [range(start, -1, -1)]. *)
Definition range_desc (start : nat) : list nat := rev (seq 0 (S start)).

(** [range(0, stop, step)] for a positive [step]. *)
Definition range_step (stop step : nat) : list nat :=
  map (fun q => (q * step)%nat) (seq 0 ((stop + step - 1) / step)%nat).

(** [''.join(cs)] for a list of one-character strings. *)
Definition join_chars (cs : list ascii) : string := string_of_list_ascii cs.

(** [str.isspace] on one character. *)
Definition is_space (c : ascii) : bool :=
  let n := nat_of_ascii c in
  ((9 <=? n) && (n <=? 13) || (28 <=? n) && (n <=? 32)
   || (n =? 133) || (n =? 160))%nat.

Fixpoint lstrip_chars (cs : list ascii) : list ascii :=
  match cs with
  | c :: cs' => if is_space c then lstrip_chars cs' else cs
  | [] => []
  end.

(** [s.strip()]. *)
Definition strip (s : string) : string :=
  string_of_list_ascii
    (rev (lstrip_chars (rev (lstrip_chars (list_ascii_of_string s))))).

(** [s.split(sep)] for a one-character separator: the current piece is
    kept reversed in [cur]. *)
Fixpoint split_on_aux (sep : ascii) (cur : list ascii) (cs : list ascii)
  : list string :=
  match cs with
  | [] => [string_of_list_ascii (rev cur)]
  | c :: cs' =>
      if Ascii.eqb c sep
      then string_of_list_ascii (rev cur) :: split_on_aux sep [] cs'
      else split_on_aux sep (c :: cur) cs'
  end.

Definition split_on (sep : ascii) (s : string) : list string :=
  split_on_aux sep [] (list_ascii_of_string s).

(** [s.split(sep, 1)]. *)
Fixpoint split_once_aux (sep : ascii) (cur : list ascii) (cs : list ascii)
  : list string :=
  match cs with
  | [] => [string_of_list_ascii (rev cur)]
  | c :: cs' =>
      if Ascii.eqb c sep
      then [string_of_list_ascii (rev cur); string_of_list_ascii cs']
      else split_once_aux sep (c :: cur) cs'
  end.

Definition split_once (sep : ascii) (s : string) : list string :=
  split_once_aux sep [] (list_ascii_of_string s).

(** [s.split()]: the maximal runs of non-space characters. *)
Fixpoint split_ws_aux (cur : list ascii) (cs : list ascii) : list string :=
  match cs with
  | [] =>
      match cur with
      | [] => []
      | _ => [string_of_list_ascii (rev cur)]
      end
  | c :: cs' =>
      if is_space c
      then match cur with
           | [] => split_ws_aux [] cs'
           | _ => string_of_list_ascii (rev cur) :: split_ws_aux [] cs'
           end
      else split_ws_aux (c :: cur) cs'
  end.

Definition split_ws (s : string) : list string :=
  split_ws_aux [] (list_ascii_of_string s).

(** [sub in s]. *)
Definition str_contains (sub s : string) : bool :=
  match index 0 sub s with
  | Some _ => true
  | None => String.eqb sub EmptyString
  end.

Definition newline : ascii := ascii_of_nat 10.

(** The digits of [n >= 0] in base [base <= 16], most significant
    first, at least one; [fuel] bounds their number. *)
Definition digit_char (d : Z) : ascii :=
  match String.get (Z.to_nat d) "0123456789abcdef" with
  | Some c => c
  | None => "?"%char
  end.

Fixpoint digits_aux (base : Z) (fuel : nat) (n : Z) (acc : list ascii)
  : list ascii :=
  let acc' := digit_char (n mod base) :: acc in
  match fuel with
  | O => acc'
  | S fuel' =>
      if n / base =? 0 then acc'
      else digits_aux base fuel' (n / base) acc'
  end.

Definition digits (base : Z) (n : Z) : string :=
  string_of_list_ascii (digits_aux base (Z.to_nat (Z.log2 n)) n []).

(** [str(n)] for an [int]. *)
Definition str_of_int (n : Z) : string :=
  if n <? 0 then "-" ++ digits 10 (- n) else digits 10 n.

(** Left padding with ['0'] to [width] characters. *)
Definition zero_pad (width : nat) (s : string) : string :=
  string_of_list_ascii (replicate (width - String.length s) "0"%char) ++ s.

(** ['{:02x}'.format(n)] for [n >= 0]. *)
Definition format_02x (n : Z) : string := zero_pad 2 (digits 16 n).

(** ** Floating point

    A finite [float] is the rational it denotes, a [Q].  Two operations
    of the probes make floats from integers or print them; both are
    correctly rounded in CPython, which lets them be written exactly. *)

(** The integer nearest to [a / b], ties to the even one; [b > 0]. *)
Definition round_half_even (a b : Z) : Z :=
  let q := a / b in
  let r := a mod b in
  match 2 * r ?= b with
  | Lt => q
  | Gt => q + 1
  | Eq => if Z.even q then q else q + 1
  end.

(** The integer nearest to [a / (b * 2^e)]. *)
Definition scaled_quotient (a b e : Z) : Z :=
  if 0 <=? e then round_half_even a (b * 2 ^ e)
  else round_half_even (a * 2 ^ (- e)) b.

(** [m * 2^e] as a rational. *)
Definition dyadic (m e : Z) : Q :=
  if 0 <=? e then inject_Z (m * 2 ^ e)
  else Qmake m (Z.to_pos (2 ^ (- e))).

(** [a / b] on integers [a >= 0] and [b > 0]: the binary64 number nearest
    to the quotient, a 53-bit significand [m] at exponent [e >= -1074];
    [OverflowError] beyond the largest float. *)
Definition true_div (a b : Z) : result Q :=
  if a =? 0 then Ok (inject_Z 0)
  else
    let d := Z.log2 a - Z.log2 b in
    let above := if 0 <=? d then b * 2 ^ d <=? a else b <=? a * 2 ^ (- d) in
    let e := Z.max (if above then d - 52 else d - 53) (-1074) in
    let m := scaled_quotient a b e in
    if 2 ^ 1024 <=? m * 2 ^ e
    then Raise (Exn OverflowError "integer division result too large for a float")
    else Ok (dyadic m e).

(** [f"{x:.2f}"]: [x] rounded to the nearest hundredth, ties to even. *)
Definition format_2f (x : Q) : string :=
  let h := round_half_even (100 * Z.abs (Qnum x)) (Zpos (Qden x)) in
  (if Qnum x <? 0 then "-" else EmptyString)
  ++ digits 10 (h / 100) ++ "." ++ zero_pad 2 (digits 10 (h mod 100)).

(** [f"{x}"] for a float that psutil has rounded to one decimal: the
    shortest representation of such a float is that decimal. *)
Definition repr_1 (x : Q) : string :=
  let t := round_half_even (10 * Z.abs (Qnum x)) (Zpos (Qden x)) in
  (if Qnum x <? 0 then "-" else EmptyString)
  ++ digits 10 (t / 10) ++ "." ++ digits 10 (t mod 10).

(** ** Values and dictionaries *)

(** The values the probes store in their results. *)
Inductive value : Type :=
| VNone
| VBool (b : bool)
| VInt (n : Z)
| VFloat (x : Q)
| VStr (s : string)
| VBytes (bs : list byte)
| VList (l : list value)
| VDict (d : gmap string value).

(** ** The host *)

(** A value read from the registry. *)
Inductive reg_value : Type :=
| REG_BINARY (bs : list byte)
| REG_SZ (s : string)
| REG_DWORD (n : Z).

(** The Python object [QueryValueEx] returns for a registry value. *)
Definition reg_data (v : reg_value) : value :=
  match v with
  | REG_BINARY bs => VBytes bs
  | REG_SZ s => VStr s
  | REG_DWORD n => VInt n
  end.

(** One registry key: the names [EnumKey] yields, in order, and the
    values [QueryValueEx] finds. *)
Record reg_key : Type := RegKey {
  subkeys : list string;
  values : gmap string reg_value
}.

(** What [subprocess.run(..., capture_output=True, text=True)] returns. *)
Record completed : Type := Completed {
  returncode : Z;
  stdout : string
}.

(** [psutil.virtual_memory()] and [psutil.swap_memory()]. *)
Record svmem : Type := Svmem {
  vm_total : Z; vm_available : Z; vm_used : Z; vm_percent : Q
}.
Record sswap : Type := Sswap { sw_total : Z; sw_used : Z; sw_percent : Q }.

(** [psutil.disk_partitions()], [disk_usage] and [disk_io_counters]. *)
Record sdiskpart : Type := Sdiskpart {
  device : string; mountpoint : string; fstype : string
}.
Record sdiskusage : Type := Sdiskusage {
  du_total : Z; du_used : Z; du_free : Z; du_percent : Q
}.
Record sdiskio : Type := Sdiskio {
  read_count : Z; write_count : Z; read_bytes : Z; write_bytes : Z
}.

(** [psutil.cpu_freq()]. *)
Record scpufreq : Type := Scpufreq { freq_current : Q; freq_max : Q }.

(** [psutil.net_if_addrs()], [net_if_stats()], [net_io_counters()]. *)
Record snicaddr : Type := Snicaddr {
  family_name : string; address : string; netmask : option string
}.
Record snicstats : Type := Snicstats { isup : bool; speed : Z }.
Record snetio : Type := Snetio {
  bytes_sent : Z; bytes_recv : Z; packets_sent : Z; packets_recv : Z
}.

(** The five attributes [process_iter] is asked for; each but the pid
    is [None] where psutil could not read it. *)
Record proc_attrs : Type := ProcAttrs {
  pid : Z;
  name : option string;
  username : option string;
  memory_percent : option Q;
  cpu_percent : option Q
}.

(** Everything the probes ask of the machine.  A field of type
    [result _] is a call that may raise. *)
Record host : Type := Host {
  platform_system : string;
  platform_node : string;
  platform_release : string;
  platform_version : string;
  platform_machine : string;
  platform_processor : string;
  platform_platform : string;
  platform_architecture : string * string;
  platform_win32_ver : result (string * string * string * string);
  socket_gethostname : result string;
  socket_gethostbyname : string -> result string;
  uuid_getnode : Z;
  (** [winreg.OpenKey(winreg.HKEY_LOCAL_MACHINE, path)] *)
  OpenKey : string -> result reg_key;
  (** [subprocess.run(cmd, capture_output=True, text=True, shell=True)] *)
  subprocess_run : string -> result completed;
  environ : gmap string string;
  path_exists : string -> bool;
  cpu_count_physical : result (option Z);
  cpu_count_logical : result (option Z);
  cpu_freq : result (option scpufreq);
  psutil_cpu_percent : result Q;
  virtual_memory : result svmem;
  swap_memory : result sswap;
  disk_partitions : result (list sdiskpart);
  disk_usage : string -> result sdiskusage;
  disk_io_counters : result (option sdiskio);
  net_if_addrs : result (list (string * list snicaddr));
  net_if_stats : result (gmap string snicstats);
  net_io_counters : result (list (string * snetio));
  (** what [process_iter] yields, each item with the outcome of reading
      its [info], and the exception that ends the iteration early *)
  process_iter : list (result proc_attrs) * option exn
}.

(** [winreg.QueryValueEx(key, name)]. *)
Definition QueryValueEx (key : reg_key) (name : string) : result reg_value :=
  match values key !! name with
  | Some v => Ok v
  | None => Raise (Exn FileNotFoundError "The system cannot find the file specified")
  end.

(** [with winreg.OpenKey(HKLM, path) as key: winreg.QueryValueEx(key, name)]. *)
Definition query_value (h : host) (path name : string) : result reg_value :=
  key ← OpenKey h path; QueryValueEx key name.

Definition backslash : string := string_of_list_ascii [ascii_of_nat 92].
Definition dquote : string := string_of_list_ascii [ascii_of_nat 34].

(** *** [os.path.join] on Windows

    [ntpath.join] and [ntpath.splitdrive], after [ntpath.py] of
    CPython 3.11, on strings taken as lists of code points below 256. *)

Definition nt_sep : ascii := ascii_of_nat 92.
Definition nt_altsep : ascii := "/"%char.
Definition nt_colon : ascii := ":"%char.

(** [c in seps]. *)
Definition in_seps (c : ascii) : bool :=
  Ascii.eqb c nt_sep || Ascii.eqb c nt_altsep.

Definition chars_eqb (a b : list ascii) : bool :=
  String.eqb (string_of_list_ascii a) (string_of_list_ascii b).

(** [str.upper] and [str.lower], one character at a time.  The three
    code points below 256 whose upper case is not one of them (181, 223
    and 255) are left as they are: their upper case holds no character
    of the prefix it is compared with. *)
Definition upper_char (c : ascii) : ascii :=
  let n := nat_of_ascii c in
  if ((97 <=? n) && (n <=? 122) || (224 <=? n) && (n <=? 254) && negb (n =? 247))%nat
  then ascii_of_nat (n - 32)
  else c.

Definition lower_char (c : ascii) : ascii :=
  let n := nat_of_ascii c in
  if ((65 <=? n) && (n <=? 90) || (192 <=? n) && (n <=? 222) && negb (n =? 215))%nat
  then ascii_of_nat (n + 32)
  else c.

(** [s.find(c, start)]; [None] is [-1]. *)
Fixpoint find_char (c : ascii) (cs : list ascii) : option nat :=
  match cs with
  | [] => None
  | x :: cs' =>
      if Ascii.eqb x c then Some 0%nat
      else match find_char c cs' with
           | Some i => Some (S i)
           | None => None
           end
  end.

Definition find_from (c : ascii) (start : nat) (cs : list ascii) : option nat :=
  match find_char c (drop start cs) with
  | Some i => Some (start + i)%nat
  | None => None
  end.

Definition unc_prefix : list ascii :=
  [ nt_sep; nt_sep; "?"%char; nt_sep; "U"%char; "N"%char; "C"%char; nt_sep ].

(** [ntpath.splitdrive(p)]. *)
Definition splitdrive (p : list ascii) : list ascii * list ascii :=
  if (2 <=? length p)%nat then
    let normp :=
      map (fun c => if Ascii.eqb c nt_altsep then nt_sep else c) p in
    if chars_eqb (take 2 normp) [nt_sep; nt_sep] then
      let start :=
        if chars_eqb (map upper_char (take 8 normp)) unc_prefix
        then 8%nat else 2%nat in
      match find_from nt_sep start normp with
      | None => (p, [])
      | Some index =>
          match find_from nt_sep (index + 1) normp with
          | None => (p, [])
          | Some index2 => (take index2 p, drop index2 p)
          end
      end
    else if chars_eqb (slice 1 2 normp) [nt_colon] then (take 2 p, drop 2 p)
    else ([], p)
  else ([], p).

Definition non_empty (cs : list ascii) : bool :=
  match cs with
  | [] => false
  | _ :: _ => true
  end.

(** [cs[0] in seps] and [cs[-1] in seps] for a non-empty [cs]. *)
Definition starts_with_sep (cs : list ascii) : bool :=
  match cs with
  | c :: _ => in_seps c
  | [] => false
  end.

Definition ends_with_sep (cs : list ascii) : bool := starts_with_sep (rev cs).

(** [ntpath.join(path, p)] on lists of characters. *)
Definition join_chars_nt (path p : list ascii) : list ascii :=
  let '(result_drive, result_path) := splitdrive path in
  let '(p_drive, p_path) := splitdrive p in
  let '(result_drive, result_path) :=
    if non_empty p_path && starts_with_sep p_path then
      (* the second path is absolute *)
      ((if non_empty p_drive || negb (non_empty result_drive)
        then p_drive else result_drive),
       p_path)
    else if non_empty p_drive && negb (chars_eqb p_drive result_drive)
            && negb (chars_eqb (map lower_char p_drive)
                               (map lower_char result_drive)) then
      (* different drives: the first path is ignored *)
      (p_drive, p_path)
    else
      let result_drive :=
        if non_empty p_drive && negb (chars_eqb p_drive result_drive)
        then p_drive else result_drive in
      let result_path :=
        if non_empty result_path && negb (ends_with_sep result_path)
        then (result_path ++ [nt_sep])%list else result_path in
      (result_drive, (result_path ++ p_path)%list) in
  if non_empty result_path && negb (starts_with_sep result_path)
     && non_empty result_drive
     && negb (chars_eqb (drop (length result_drive - 1) result_drive) [nt_colon])
  then (result_drive ++ nt_sep :: result_path)%list
  else (result_drive ++ result_path)%list.

(** [os.path.join(a, b)]. *)
Definition path_join (a b : string) : string :=
  string_of_list_ascii
    (join_chars_nt (list_ascii_of_string a) (list_ascii_of_string b)).

(** [d.get(k, default)] on the environment. *)
Definition environ_get (h : host) (k default : string) : string :=
  match environ h !! k with
  | Some v => v
  | None => default
  end.

(** ** OS/licensing probe: the product key *)

Definition key_map : string := "BCDFGHJKMPQRTVWXY2346789".

Definition byte_to_Z (b : byte) : Z := Z.of_N (Byte.to_N b).

(** The body of the inner loop of [get_windows_product_key] at index [j]:
    [k = (k << 8) | product_id[j]; product_id[j] = k // 24; k %= 24].
    [None] is the [IndexError] of [product_id[j]]. *)
Definition inner_body (j : nat) (st : Z * list Z) : option (Z * list Z) :=
  let '(k, product_id) := st in
  match product_id !! j with
  | None => None
  | Some b =>
      let k := Z.lor (Z.shiftl k 8) b in
      Some (k mod 24, <[j := k / 24]> product_id)
  end.

(** One iteration of the outer loop: [k = 0], the inner loop over
    [range(14, -1, -1)], then [key_chars.append(key_map[k])]. *)
Definition outer_body (i : nat) (st : list ascii * list Z)
  : option (list ascii * list Z) :=
  let '(key_chars, product_id) := st in
  match for_each inner_body (range_desc 14) (0, product_id) with
  | None => None
  | Some (k, product_id') =>
      match str_index key_map k with
      | None => None
      | Some c => Some ((key_chars ++ [c])%list, product_id')
      end
  end.

(** The two loops, from [key_chars = []]. *)
Definition decode_loop (product_id : list Z) : option (list ascii) :=
  match for_each outer_body (range_desc 24) ([], product_id) with
  | None => None
  | Some (key_chars, _) => Some key_chars
  end.

(** ['-'.join([key[i:i+5] for i in range(0, len(key), 5)])]. *)
Definition format_key (key : string) : string :=
  String.concat "-"
    (map (fun i => str_slice i (i + 5) key) (range_step (String.length key) 5)).

(** The decoding of [get_windows_product_key] from [product_id] on. *)
Definition decode_window (product_id : list Z) : option string :=
  match decode_loop product_id with
  | None => None
  | Some key_chars => Some (format_key (join_chars (rev key_chars)))
  end.

(** The same from the registry value on: [list(value[52:67])] of a
    [bytes] value lists its bytes as integers. *)
Definition decode_product_key (value : list byte) : option string :=
  decode_window (map byte_to_Z (slice 52 67 value)).

Definition current_version : string :=
  "SOFTWARE\Microsoft\Windows NT\CurrentVersion".

(** [get_windows_product_key]: the registry read, then the decoding;
    every fault ends in the bare [except] and gives [None].  A value
    that is not [bytes] faults at [(k << 8) | product_id[j]] or at the
    slice. *)
Definition get_windows_product_key (h : host) : option string :=
  match query_value h current_version "DigitalProductId" with
  | Raise _ => None
  | Ok (REG_BINARY value) => decode_product_key value
  | Ok _ => None
  end.

Definition key_mask : string := "XXXXX-XXXXX-XXXXX-XXXXX-".

(** ["XXXXX-XXXXX-XXXXX-XXXXX-" + key[-5:] if key else "Not available"],
    with [None] and the empty string the two falsy keys. *)
Definition masked_key (key : option string) : string :=
  match key with
  | Some key =>
      if String.eqb key EmptyString then "Not available"
      else key_mask ++ str_last 5 key
  | None => "Not available"
  end.

(** [get_windows_product_id]. *)
Definition get_windows_product_id (h : host) : value :=
  match query_value h current_version "ProductId" with
  | Ok v => reg_data v
  | Raise _ => VStr "Not available"
  end.

(** The loop of [get_last_update_time] over the output lines. *)
Fixpoint scan_installed_on (lines : list string) : option string :=
  match lines with
  | [] => None
  | line :: lines' =>
      if str_contains "InstalledOn" line then
        let parts := split_ws line in
        if (3 <=? length parts)%nat
        then Some (String.concat " " (drop 1 parts))
        else scan_installed_on lines'
      else scan_installed_on lines'
  end.

Definition last_update_cmd : string :=
  "powershell " ++ dquote
  ++ "Get-WmiObject -Class Win32_QuickFixEngineering | Sort-Object InstalledOn -Descending | Select-Object -First 1"
  ++ dquote.

(** [get_last_update_time]. *)
Definition get_last_update_time (h : host) : string :=
  match subprocess_run h last_update_cmd with
  | Raise _ => "Unknown"
  | Ok result =>
      if (returncode result =? 0)
         && negb (String.eqb (strip (stdout result)) EmptyString)
      then match scan_installed_on (split_on newline (stdout result)) with
           | Some s => s
           | None => "Unknown"
           end
      else "Unknown"
  end.

Definition install_date_cmd : string :=
  "systeminfo | find " ++ dquote ++ "Original Install Date" ++ dquote.

(** [get_windows_install_date]; an output without a colon faults at
    [[1]] and ends in the bare [except]. *)
Definition get_windows_install_date (h : host) : string :=
  match subprocess_run h install_date_cmd with
  | Raise _ => "Unknown"
  | Ok result =>
      if returncode result =? 0 then
        match split_once ":"%char (stdout result) !! 1%nat with
        | Some s => strip s
        | None => "Unknown"
        end
      else "Unknown"
  end.

(** [get_windows_info].  The inner [try] around the product key has
    nothing to catch: [get_windows_product_key] returns [None] on every
    fault of its own. *)
Definition get_windows_info (h : host) : gmap string value :=
  match platform_win32_ver h with
  | Raise e =>
      {[ "Error" := VStr ("Unable to retrieve Windows information: " ++ exn_str e) ]}
  | Ok (release, version, csd, ptype) =>
      let masked_key := masked_key (get_windows_product_key h) in
      let last_update := get_last_update_time h in
      list_to_map
        [ ("Windows Edition", VStr release);
          ("Windows Version", VStr version);
          ("Windows Build", VStr csd);
          ("Product ID", get_windows_product_id h);
          ("Product Key", VStr masked_key);
          ("Last Update", VStr last_update);
          ("Installation Date", VStr (get_windows_install_date h)) ]
  end.

(** ** Identity probe *)

(** The [MAC Address] expression of [get_system_info]. *)
Definition mac_address (node : Z) : string :=
  String.concat ":"
    (rev (map (fun elements =>
                 format_02x (Z.land (Z.shiftr node (Z.of_nat elements)) 255))
              (range_step (8 * 6) 8))).

(** [get_system_info]: no [try] here, the two socket calls raise into
    the caller.  The dictionary display evaluates its values in order. *)
Definition get_system_info (h : host) : result (gmap string value) :=
  hostname ← socket_gethostname h;
  hostname' ← socket_gethostname h;
  ip ← socket_gethostbyname h hostname';
  Ok (list_to_map
        [ ("System", VStr (platform_system h));
          ("Node Name", VStr (platform_node h));
          ("Release", VStr (platform_release h));
          ("Version", VStr (platform_version h));
          ("Machine", VStr (platform_machine h));
          ("Processor", VStr (platform_processor h));
          ("Platform", VStr (platform_platform h));
          ("Architecture", VStr (fst (platform_architecture h)));
          ("Hostname", VStr hostname);
          ("IP Address", VStr ip);
          ("MAC Address", VStr (mac_address (uuid_getnode h))) ]).

(** ** Hardware probe *)

(** The first [try] of [get_hardware_info]: enclosure manufacturer and
    model.  A fault leaves [hardware_info] as it was ([except: pass]). *)
Definition query_computersystem (h : host) (hardware_info : gmap string value)
  : gmap string value :=
  match subprocess_run h "wmic computersystem get model,manufacturer" with
  | Raise _ => hardware_info
  | Ok result =>
      if returncode result =? 0 then
        let lines := split_on newline (strip (stdout result)) in
        if (1 <? length lines)%nat then
          match lines !! 1%nat with
          | None => hardware_info
          | Some line =>
              let parts := split_ws (strip line) in
              if (2 <=? length parts)%nat then
                match parts !! 0%nat with
                | None => hardware_info
                | Some manufacturer =>
                    <["Model" := VStr (String.concat " " (drop 1 parts))]>
                      (<["Manufacturer" := VStr manufacturer]> hardware_info)
                end
              else hardware_info
          end
        else hardware_info
      else hardware_info
  end.

(** The second [try]: BIOS serial number. *)
Definition query_bios (h : host) (hardware_info : gmap string value)
  : gmap string value :=
  match subprocess_run h "wmic bios get serialnumber" with
  | Raise _ => hardware_info
  | Ok result =>
      if returncode result =? 0 then
        let lines := split_on newline (strip (stdout result)) in
        if (1 <? length lines)%nat then
          match lines !! 1%nat with
          | None => hardware_info
          | Some line => <["Serial Number" := VStr (strip line)]> hardware_info
          end
        else hardware_info
      else hardware_info
  end.

(** The third [try]: motherboard manufacturer and model. *)
Definition query_baseboard (h : host) (hardware_info : gmap string value)
  : gmap string value :=
  match subprocess_run h "wmic baseboard get product,manufacturer" with
  | Raise _ => hardware_info
  | Ok result =>
      if returncode result =? 0 then
        let lines := split_on newline (strip (stdout result)) in
        if (1 <? length lines)%nat then
          match lines !! 1%nat with
          | None => hardware_info
          | Some line =>
              let parts := split_ws (strip line) in
              if (2 <=? length parts)%nat then
                match parts !! 0%nat with
                | None => hardware_info
                | Some manufacturer =>
                    <["Motherboard Model" := VStr (String.concat " " (drop 1 parts))]>
                      (<["Motherboard Manufacturer" := VStr manufacturer]>
                         hardware_info)
                end
              else hardware_info
          end
        else hardware_info
      else hardware_info
  end.

(** [not d] for a dictionary. *)
Definition dict_is_empty (d : gmap string value) : bool :=
  bool_decide (d = ∅).

(** [get_hardware_info].  Nothing reaches the outer [except]: each of
    the three steps catches its own faults. *)
Definition get_hardware_info (h : host) : gmap string value :=
  let hardware_info := ∅ in
  let hardware_info := query_computersystem h hardware_info in
  let hardware_info := query_bios h hardware_info in
  let hardware_info := query_baseboard h hardware_info in
  if dict_is_empty hardware_info
  then {[ "Error" := VStr "Unable to retrieve hardware information" ]}
  else hardware_info.

(** ** Office-suite probe *)

Definition office_versions : gmap string string :=
  list_to_map
    [ ("16.0", "Office 2016/2019/2021/365");
      ("15.0", "Office 2013");
      ("14.0", "Office 2010");
      ("12.0", "Office 2007");
      ("11.0", "Office 2003") ].

Definition office_paths : list string :=
  [ "SOFTWARE\Microsoft\Office"; "SOFTWARE\Wow6432Node\Microsoft\Office" ].

(** The body of [if subkey_name in office_versions:] up to the [break]. *)
Definition office_details (h : host) (office_path subkey_name label : string)
    (office_info : gmap string value) : gmap string value :=
  let office_info := <["Version" := VStr label]> office_info in
  let office_info :=
    match query_value h
            (office_path ++ backslash ++ subkey_name ++ "\Common\InstallRoot")
            "Path" with
    | Ok path => <["Install Path" := reg_data path]> office_info
    | Raise _ => office_info
    end in
  match query_value h
          (office_path ++ backslash ++ subkey_name ++ "\Word\InstallRoot")
          "Path" with
  | Ok _ => <["Detected Via" := VStr "Word"]> office_info
  | Raise _ =>
      match query_value h
              (office_path ++ backslash ++ subkey_name ++ "\Excel\InstallRoot")
              "Path" with
      | Ok _ => <["Detected Via" := VStr "Excel"]> office_info
      | Raise _ => <["Detected Via" := VStr "Registry"]> office_info
      end
  end.

(** [for i in range(QueryInfoKey(key)[0]): subkey_name = EnumKey(key, i) ...],
    left by [break] at the first name found in [office_versions]. *)
Fixpoint scan_subkeys (h : host) (office_path : string) (names : list string)
    (office_info : gmap string value) : gmap string value :=
  match names with
  | [] => office_info
  | subkey_name :: names' =>
      match office_versions !! subkey_name with
      | Some label => office_details h office_path subkey_name label office_info
      | None => scan_subkeys h office_path names' office_info
      end
  end.

(** One turn of [for office_path in office_paths:]; a key that does not
    open is passed over ([except: continue]). *)
Definition scan_office_path (h : host) (office_info : gmap string value)
    (office_path : string) : gmap string value :=
  match OpenKey h office_path with
  | Raise _ => office_info
  | Ok key => scan_subkeys h office_path (subkeys key) office_info
  end.

Definition common_paths (h : host) : list string :=
  [ path_join (environ_get h "ProgramFiles" "C:\Program Files") "Microsoft Office";
    path_join (environ_get h "ProgramFiles(x86)" "C:\Program Files (x86)")
      "Microsoft Office" ].

(** [for path in common_paths: if os.path.exists(path): ...; break]. *)
Fixpoint scan_common_paths (h : host) (paths : list string)
    (office_info : gmap string value) : gmap string value :=
  match paths with
  | [] => office_info
  | path :: paths' =>
      if path_exists h path
      then <["Install Path" := VStr path]>
             (<["Version" := VStr "Office (detected via file system)"]> office_info)
      else scan_common_paths h paths' office_info
  end.

(** [get_office_info]; nothing reaches the outer [except]. *)
Definition get_office_info (h : host) : gmap string value :=
  let office_info := foldl (scan_office_path h) ∅ office_paths in
  let office_info :=
    if dict_is_empty office_info
    then scan_common_paths h (common_paths h) office_info
    else office_info in
  if dict_is_empty office_info
  then <["Status" := VStr "Not detected"]> office_info
  else office_info.

(** ** CPU, memory, disk and network probes *)

Definition opt_value {A : Type} (inj : A -> value) (o : option A) : value :=
  match o with
  | Some a => inj a
  | None => VNone
  end.

(** [f"{n / (1024**3):.2f} GB"] and [f"{n / (1024**2):.2f} MB"]. *)
Definition gb_field (n : Z) : result string :=
  x ← true_div n (1024 ^ 3); Ok (format_2f x ++ " GB").

Definition mb_field (n : Z) : result string :=
  x ← true_div n (1024 ^ 2); Ok (format_2f x ++ " MB").

(** The inner [try] of [get_cpu_info]: the display name. *)
Definition query_cpu_name (h : host) (cpu_info : gmap string value)
  : gmap string value :=
  match subprocess_run h "wmic cpu get name" with
  | Raise _ => cpu_info
  | Ok result =>
      if returncode result =? 0 then
        let lines := split_on newline (strip (stdout result)) in
        if (1 <? length lines)%nat then
          match lines !! 1%nat with
          | None => cpu_info
          | Some line => <["Name" := VStr (strip line)]> cpu_info
          end
        else cpu_info
      else cpu_info
  end.

Definition freq_field (freq : option scpufreq) (get : scpufreq -> Q) : string :=
  match freq with
  | Some f => format_2f (get f) ++ " MHz"
  | None => "N/A"
  end.

(** [get_cpu_info]. *)
Definition get_cpu_info (h : host) : gmap string value :=
  let body : result (gmap string value) :=
    physical ← cpu_count_physical h;
    logical ← cpu_count_logical h;
    freq ← cpu_freq h;
    usage ← psutil_cpu_percent h;
    Ok (query_cpu_name h
          (list_to_map
             [ ("Physical Cores", opt_value VInt physical);
               ("Total Cores", opt_value VInt logical);
               ("Max Frequency", VStr (freq_field freq freq_max));
               ("Current Frequency", VStr (freq_field freq freq_current));
               ("CPU Usage", VStr (repr_1 usage ++ "%")) ])) in
  match body with
  | Ok cpu_info => cpu_info
  | Raise _ => {[ "Error" := VStr "Unable to retrieve CPU information" ]}
  end.

(** [get_memory_info]. *)
Definition get_memory_info (h : host) : gmap string value :=
  let body : result (gmap string value) :=
    virtual_memory ← virtual_memory h;
    swap_memory ← swap_memory h;
    total_ram ← gb_field (vm_total virtual_memory);
    available_ram ← gb_field (vm_available virtual_memory);
    used_ram ← gb_field (vm_used virtual_memory);
    total_swap ← gb_field (sw_total swap_memory);
    used_swap ← gb_field (sw_used swap_memory);
    Ok (list_to_map
          [ ("Total RAM", VStr total_ram);
            ("Available RAM", VStr available_ram);
            ("Used RAM", VStr used_ram);
            ("RAM Usage", VStr (repr_1 (vm_percent virtual_memory) ++ "%"));
            ("Total Swap", VStr total_swap);
            ("Used Swap", VStr used_swap);
            ("Swap Usage", VStr (repr_1 (sw_percent swap_memory) ++ "%")) ]) in
  match body with
  | Ok memory_info => memory_info
  | Raise _ => {[ "Error" := VStr "Unable to retrieve memory information" ]}
  end.

(** The dictionary stored for one partition. *)
Definition partition_entry (partition : sdiskpart) (usage : sdiskusage)
  : result (gmap string value) :=
  total ← gb_field (du_total usage);
  used ← gb_field (du_used usage);
  free ← gb_field (du_free usage);
  Ok (list_to_map
        [ ("File System", VStr (fstype partition));
          ("Total Size", VStr total);
          ("Used", VStr used);
          ("Free", VStr free);
          ("Usage", VStr (repr_1 (du_percent usage) ++ "%"));
          ("Mount Point", VStr (mountpoint partition)) ]).

(** One turn of [for partition in partitions:]; a fault skips the
    partition ([except: continue]). *)
Definition add_partition (h : host) (disk_info : gmap string value)
    (partition : sdiskpart) : gmap string value :=
  match usage ← disk_usage h (mountpoint partition);
        partition_entry partition usage with
  | Ok entry => <[device partition := VDict entry]> disk_info
  | Raise _ => disk_info
  end.

Definition io_statistics (disk_io : sdiskio) : result (gmap string value) :=
  read ← mb_field (read_bytes disk_io);
  write ← mb_field (write_bytes disk_io);
  Ok (list_to_map
        [ ("Read Count", VInt (read_count disk_io));
          ("Write Count", VInt (write_count disk_io));
          ("Read Bytes", VStr read);
          ("Write Bytes", VStr write) ]).

(** [get_disk_info]. *)
Definition get_disk_info (h : host) : gmap string value :=
  let body : result (gmap string value) :=
    partitions ← disk_partitions h;
    let disk_info := foldl (add_partition h) ∅ partitions in
    disk_io ← disk_io_counters h;
    match disk_io with
    | None => Ok disk_info
    | Some disk_io =>
        stats ← io_statistics disk_io;
        Ok (<["IO Statistics" := VDict stats]> disk_info)
    end in
  match body with
  | Ok disk_info => disk_info
  | Raise _ => {[ "Error" := VStr "Unable to retrieve disk information" ]}
  end.

(** [f"{addr.family.name}: {addr.address} (Netmask: {addr.netmask})"]. *)
Definition address_line (addr : snicaddr) : string :=
  family_name addr ++ ": " ++ address addr ++ " (Netmask: "
  ++ match netmask addr with Some m => m | None => "None" end ++ ")".

(** The dictionary stored for one interface, its addresses appended. *)
Definition interface_entry (stats : gmap string snicstats) (interface : string)
    (addrs : list snicaddr) : gmap string value :=
  list_to_map
    [ ("Addresses", VList (map (fun addr => VStr (address_line addr)) addrs));
      ("Is Up", match stats !! interface with
                | Some st => VBool (isup st)
                | None => VStr "N/A"
                end);
      ("Speed", match stats !! interface with
                | Some st =>
                    if speed st =? 0 then VStr "N/A"
                    else VStr (str_of_int (speed st) ++ " Mbps")
                | None => VStr "N/A"
                end) ].

Definition interface_io (io : snetio) : result (gmap string value) :=
  sent ← mb_field (bytes_sent io);
  received ← mb_field (bytes_recv io);
  Ok (list_to_map
        [ ("Bytes Sent", VStr sent);
          ("Bytes Received", VStr received);
          ("Packets Sent", VInt (packets_sent io));
          ("Packets Received", VInt (packets_recv io)) ]).

(** [for interface, io in io_counters.items(): ...] into the
    ['IO Statistics'] dictionary. *)
Fixpoint add_interface_io (io_counters : list (string * snetio))
    (io_statistics : gmap string value) : result (gmap string value) :=
  match io_counters with
  | [] => Ok io_statistics
  | (interface, io) :: io_counters' =>
      entry ← interface_io io;
      add_interface_io io_counters' (<[interface := VDict entry]> io_statistics)
  end.

(** [get_network_info]. *)
Definition get_network_info (h : host) : gmap string value :=
  let body : result (gmap string value) :=
    addresses ← net_if_addrs h;
    stats ← net_if_stats h;
    io_counters ← net_io_counters h;
    let network_info :=
      foldl (fun network_info '(interface, addrs) =>
               <[interface := VDict (interface_entry stats interface addrs)]>
                 network_info)
            ∅ addresses in
    match io_counters with
    | [] => Ok network_info
    | _ =>
        io_statistics ← add_interface_io io_counters ∅;
        Ok (<["IO Statistics" := VDict io_statistics]> network_info)
    end in
  match body with
  | Ok network_info => network_info
  | Raise _ => {[ "Error" := VStr "Unable to retrieve network information" ]}
  end.

(** ** Process snapshot probe *)

(** [proc.info]: the dictionary of the five requested attributes. *)
Definition info (p : proc_attrs) : gmap string value :=
  list_to_map
    [ ("pid", VInt (pid p));
      ("name", opt_value VStr (name p));
      ("username", opt_value VStr (username p));
      ("memory_percent", opt_value VFloat (memory_percent p));
      ("cpu_percent", opt_value VFloat (cpu_percent p)) ].

(** The classes named by the inner [except]. *)
Definition is_skipped (e : exn) : bool :=
  match exn_cls e with
  | NoSuchProcess | AccessDenied | ZombieProcess => true
  | _ => false
  end.

(** The loop over [process_iter]: an [info] is appended, one of the
    three named exceptions is passed over, any other leaves the loop. *)
Fixpoint append_infos (items : list (result proc_attrs))
    (processes : list proc_attrs) : result (list proc_attrs) :=
  match items with
  | [] => Ok processes
  | Ok p :: items' => append_infos items' (processes ++ [p])%list
  | Raise e :: items' =>
      if is_skipped e then append_infos items' processes else Raise e
  end.

(** [x['cpu_percent'] or 0]. *)
Definition sort_key (x : proc_attrs) : Q :=
  match cpu_percent x with
  | Some c => if Qeq_bool c (inject_Z 0) then inject_Z 0 else c
  | None => inject_Z 0
  end.

(** [list.sort(key=sort_key, reverse=True)]: the stable sort into
    non-increasing keys.  The result of a stable sort does not depend on
    the algorithm ([sort_desc_unique] below); it is computed here by
    insertion from the right. *)
Fixpoint insert_desc (x : proc_attrs) (l : list proc_attrs) : list proc_attrs :=
  match l with
  | [] => [x]
  | y :: l' =>
      if Qle_bool (sort_key y) (sort_key x) then x :: l
      else y :: insert_desc x l'
  end.

Definition sort_desc (l : list proc_attrs) : list proc_attrs :=
  foldr insert_desc [] l.

(** The [try] body of [get_running_processes], each row still the
    record of its attributes. *)
Definition top_processes (h : host) (limit : nat) : result (list proc_attrs) :=
  processes ← append_infos (fst (process_iter h)) [];
  match snd (process_iter h) with
  | Some e => Raise e
  | None => Ok (take limit (sort_desc processes))
  end.

(** [get_running_processes(limit)]. *)
Definition get_running_processes (h : host) (limit : nat)
  : list (gmap string value) :=
  match top_processes h limit with
  | Ok processes => info <$> processes
  | Raise _ => [ {[ "Error" := VStr "Unable to retrieve process information" ]} ]
  end.

(** ** The aggregate report *)

(** The [system_data] display of [main]: the nine probes in order; an
    exception out of a probe leaves [main]. *)
Definition collect (h : host) : result (gmap string value) :=
  system_info ← get_system_info h;
  Ok (list_to_map
        [ ("system_info", VDict system_info);
          ("hardware_info", VDict (get_hardware_info h));
          ("windows_info", VDict (get_windows_info h));
          ("office_info", VDict (get_office_info h));
          ("cpu_info", VDict (get_cpu_info h));
          ("memory_info", VDict (get_memory_info h));
          ("disk_info", VDict (get_disk_info h));
          ("network_info", VDict (get_network_info h));
          ("processes", VList (VDict <$> get_running_processes h 20)) ]).

(** ** The product-key decoding in the words of the specification

    The definitions of this section follow the specification, not the
    code: the 15-byte window read as one base-256 number (the loop of the
    code takes index 14 first, so byte 0 is the least significant digit),
    25 successive divisions by 24, each remainder mapped through the
    alphabet, the characters reversed and grouped by five. *)

Definition window_number (window : list Z) : Z :=
  foldr (fun b acc => b + 256 * acc) 0 window.

Fixpoint successive_remainders (n : nat) (number : Z) : list Z :=
  match n with
  | O => []
  | S n' => number mod 24 :: successive_remainders n' (number / 24)
  end.

Definition alphabet_char (r : Z) : ascii :=
  nth (Z.to_nat r) (list_ascii_of_string key_map) "?"%char.

Fixpoint groups_of_five (fuel : nat) (cs : list ascii) : list string :=
  match fuel, cs with
  | S fuel', _ :: _ =>
      string_of_list_ascii (take 5 cs) :: groups_of_five fuel' (drop 5 cs)
  | _, _ => []
  end.

Definition reference_decode (window : list Z) : string :=
  let cs := rev (map alphabet_char (successive_remainders 25 (window_number window))) in
  String.concat "-" (groups_of_five (length cs) cs).

(** The value of [k] at the end of the inner loop, for each of the first
    [n] turns of the outer loop of [get_windows_product_key]. *)
Fixpoint pass_remainders (n : nat) (product_id : list Z) : option (list Z) :=
  match n with
  | O => Some []
  | S n' =>
      match for_each inner_body (range_desc 14) (0, product_id) with
      | None => None
      | Some (k, product_id') =>
          match pass_remainders n' product_id' with
          | None => None
          | Some ks => Some (k :: ks)
          end
      end
  end.

(** A list of integers that are bytes. *)
Definition all_bytes (l : list Z) : Prop := Forall (fun b => 0 <= b < 256) l.

(** A character of the 24-symbol alphabet; a group of five of them. *)
Definition in_alphabet (c : ascii) : Prop := In c (list_ascii_of_string key_map).

Definition key_group (g : string) : Prop :=
  String.length g = 5%nat /\ Forall in_alphabet (list_ascii_of_string g).

(** ** The MAC address in the words of the specification

    Six octets of the node identifier, the most significant first, each as
    two lowercase hexadecimal digits, joined by colons. *)

Definition octet (node : Z) (i : Z) : Z := (node / 256 ^ i) mod 256.

Definition lower_hex (d : Z) : ascii :=
  match d with
  | 0 => "0" | 1 => "1" | 2 => "2" | 3 => "3" | 4 => "4" | 5 => "5"
  | 6 => "6" | 7 => "7" | 8 => "8" | 9 => "9" | 10 => "a" | 11 => "b"
  | 12 => "c" | 13 => "d" | 14 => "e" | 15 => "f" | _ => "?"
  end%char.

Definition two_hex (o : Z) : string :=
  String (lower_hex (o / 16)) (String (lower_hex (o mod 16)) EmptyString).

Definition reference_mac (node : Z) : string :=
  String.concat ":" (map (fun i => two_hex (octet node i)) [5; 4; 3; 2; 1; 0]).

(** ** The three inventory queries of the hardware probe, one by one

    What each [try] of [get_hardware_info] adds to an empty dictionary:
    the fields the query yields on its own, none when it fails. *)

Definition enclosure_fields (h : host) : gmap string value :=
  query_computersystem h ∅.
Definition bios_fields (h : host) : gmap string value := query_bios h ∅.
Definition baseboard_fields (h : host) : gmap string value :=
  query_baseboard h ∅.

Definition hardware_error : gmap string value :=
  {[ "Error" := VStr "Unable to retrieve hardware information" ]}.

(** ** The office store, as the specification speaks of it

    The store is what the two registry roots of [office_paths] enumerate.
    [first_known] is the first name, in enumeration order, that is a known
    version token, with its label. *)

Fixpoint first_known (names : list string) : option (string * string) :=
  match names with
  | [] => None
  | subkey_name :: names' =>
      match office_versions !! subkey_name with
      | Some label => Some (subkey_name, label)
      | None => first_known names'
      end
  end.

(** The versioned entry that matches under one root, if the root opens. *)
Definition root_match (h : host) (office_path : string) : option (string * string) :=
  match OpenKey h office_path with
  | Ok key => first_known (subkeys key)
  | Raise _ => None
  end.

(** Some root enumerates the name [token]. *)
Definition store_contains (h : host) (token : string) : bool :=
  existsb (fun office_path =>
             match OpenKey h office_path with
             | Ok key => existsb (String.eqb token) (subkeys key)
             | Raise _ => false
             end)
          office_paths.

(** Some root has a matching versioned entry. *)
Definition some_match (h : host) : bool :=
  existsb (fun office_path =>
             match root_match h office_path with
             | Some _ => true
             | None => false
             end)
          office_paths.

(** Every matching versioned entry satisfies [test]. *)
Definition every_match (h : host) (test : string -> string -> bool) : bool :=
  forallb (fun office_path =>
             match root_match h office_path with
             | Some (token, _) => test office_path token
             | None => true
             end)
          office_paths.

(** Neither the [Word] nor the [Excel] install root of an entry answers. *)
Definition no_application_path (h : host) (office_path token : string) : bool :=
  match query_value h (office_path ++ backslash ++ token ++ "\Word\InstallRoot")
          "Path" with
  | Ok _ => false
  | Raise _ =>
      match query_value h
              (office_path ++ backslash ++ token ++ "\Excel\InstallRoot")
              "Path" with
      | Ok _ => false
      | Raise _ => true
      end
  end.

(** Neither conventional install location exists. *)
Definition no_install_location (h : host) : bool :=
  forallb (fun path => negb (path_exists h path)) (common_paths h).

(** ** The process enumeration, as the specification speaks of it *)

(** The processes whose [info] was read, in enumeration order. *)
Definition accepted (items : list (result proc_attrs)) : list proc_attrs :=
  omap (fun item => match item with Ok p => Some p | Raise _ => None end) items.

(** The enumeration runs to its end: the iterator does not fault, and a
    process that faults does so with one of the three skipped classes. *)
Definition enumeration_completes (h : host) : bool :=
  forallb (fun item => match item with Ok _ => true | Raise e => is_skipped e end)
          (fst (process_iter h))
  && match snd (process_iter h) with
     | None => true
     | Some _ => false
     end.

(** The CPU percent of a process as the ordering counts it: the reading
    psutil gave, an unavailable one as zero. *)
Definition cpu_reading (x : proc_attrs) : Q :=
  match cpu_percent x with
  | Some c => c
  | None => inject_Z 0
  end.

(** The same, read off the [cpu_percent] field of a row of the result. *)
Definition row_reading (row : gmap string value) : Q :=
  match row !! "cpu_percent" with
  | Some (VFloat c) => c
  | _ => inject_Z 0
  end.

(** [x] may stand before [y]: its CPU percent is not the smaller one. *)
Definition by_reading_desc (x y : proc_attrs) : Prop :=
  (cpu_reading y <= cpu_reading x)%Q.



(** The two notions again, with the key the code sorts by in place of
    the reading: the form in which the sort is reasoned about. *)
Definition by_cpu_desc (x y : proc_attrs) : Prop := (sort_key y <= sort_key x)%Q.

Definition with_key (c : Q) (l : list proc_attrs) : list proc_attrs :=
  List.filter (fun x => Qeq_bool (sort_key x) c) l.

Definition process_error : gmap string value :=
  {[ "Error" := VStr "Unable to retrieve process information" ]}.

(** The eight keys of the report whose probes return a dictionary. *)
Definition mapping_keys : list string :=
  [ "system_info"; "hardware_info"; "windows_info"; "office_info";
    "cpu_info"; "memory_info"; "disk_info"; "network_info" ].

Definition report_keys : list string := (mapping_keys ++ ["processes"])%list.

(** ** Printed decimals, read back *)

Definition decimal_digit (c : ascii) : Prop := (48 <= nat_of_ascii c <= 57)%nat.

(** The number a sequence of decimal digits denotes. *)
Definition digits_read (ds : list ascii) : Z :=
  fold_left (fun v c => 10 * v + (Z.of_nat (nat_of_ascii c) - 48)) ds 0.

Definition decimal_value (s : string) : Z := digits_read (list_ascii_of_string s).

Definition decimal_string (s : string) : Prop :=
  s <> EmptyString /\ Forall decimal_digit (list_ascii_of_string s).

(** A size field of a probe result: the rendering of the byte count [n]
    stored under [key]. *)
Definition renders_gb (d : gmap string value) (key : string) (n : Z) : Prop :=
  exists s : string, gb_field n = Ok s /\ d !! key = Some (VStr s).

(** The hundredths [gb_field] prints for the byte count [n], as the code
    computes them: the quotient by [2^30] rounded to a 53-bit significand
    at the exponent [log2 n - 82], then its hundredfold rounded. *)
Definition gb_hundredths (n : Z) : Z :=
  round_half_even
    (100 * round_half_even (n * 2 ^ (82 - Z.log2 n)) (2 ^ 30))
    (2 ^ (82 - Z.log2 n)).

(** A byte count as the host supplies it: an unsigned 64-bit integer. *)
Definition byte_count (n : Z) : Prop := 0 <= n < 2 ^ 64.

(** ** Sample machines

    [sample_host] is a Windows machine described by the answers of the
    calls the properties below vary; its other calls answer with fixed
    values. *)

Definition not_found : exn :=
  Exn FileNotFoundError "The system cannot find the file specified".

Definition sample_host
    (gethostbyname : string -> result string)
    (registry : string -> result reg_key)
    (run : string -> result completed)
    (exists_path : string -> bool)
    (memory : result svmem)
    (processes : list (result proc_attrs) * option exn) : host :=
  {| platform_system := "Windows";
     platform_node := "DESK-01";
     platform_release := "10";
     platform_version := "10.0.19045";
     platform_machine := "AMD64";
     platform_processor := "Intel64 Family 6";
     platform_platform := "Windows-10-10.0.19045-SP0";
     platform_architecture := ("64bit", "WindowsPE");
     platform_win32_ver := Ok ("10", "10.0.19045", "SP0", "Multiprocessor Free");
     socket_gethostname := Ok "DESK-01";
     socket_gethostbyname := gethostbyname;
     uuid_getnode := 1250999896491;
     OpenKey := registry;
     subprocess_run := run;
     environ := ∅;
     path_exists := exists_path;
     cpu_count_physical := Ok (Some 4);
     cpu_count_logical := Ok (Some 8);
     cpu_freq := Ok None;
     psutil_cpu_percent := Ok (Qmake 125 10);
     virtual_memory := memory;
     swap_memory := Ok (Sswap (2 ^ 31) 0 (inject_Z 0));
     disk_partitions := Ok [];
     disk_usage := fun _ => Raise (Exn PermissionError "Access is denied");
     disk_io_counters := Ok None;
     net_if_addrs := Ok [];
     net_if_stats := Ok ∅;
     net_io_counters := Ok [];
     process_iter := processes |}.

Definition no_registry (path : string) : result reg_key := Raise not_found.
Definition no_utility (cmd : string) : result completed := Raise not_found.
Definition no_path (path : string) : bool := false.
Definition resolves (hostname : string) : result string := Ok "192.168.1.20".
Definition sample_memory : result svmem :=
  Ok (Svmem (2 ^ 30) (2 ^ 29) (2 ^ 29) (inject_Z 50)).

(** A registry value of 67 bytes; its bytes 52 to 66 are the window. *)
Definition sample_blob : list byte :=
  (replicate 52 x00
   ++ [x01; x02; x03; x04; x05; x06; x07; x08; x09; x0a; xff; x0c; x0d; x0e; x0f])%list.

Definition sample_window : list byte :=
  [x01; x02; x03; x04; x05; x06; x07; x08; x09; x0a; xff; x0c; x0d; x0e; x0f].

(** A registry whose [CurrentVersion] key holds [sample_blob]. *)
Definition licensed_registry (path : string) : result reg_key :=
  if String.eqb path current_version
  then Ok (RegKey [] {[ "DigitalProductId" := REG_BINARY sample_blob ]})
  else Raise not_found.

(** A registry whose first office root enumerates [names] and nothing
    else answers. *)
Definition office_registry (names : list string) (path : string)
  : result reg_key :=
  if String.eqb path "SOFTWARE\Microsoft\Office"
  then Ok (RegKey names ∅)
  else Raise not_found.

Definition office_host (names : list string) : host :=
  sample_host resolves (office_registry names) no_utility no_path
    sample_memory ([], None).


(** Five enumerated processes, one of them denied, and two with the same
    reading. *)
Definition sample_processes : list (result proc_attrs) :=
  [ Ok (ProcAttrs 4 (Some "System") None None (Some (Qmake 1 2)));
    Raise (Exn AccessDenied "pid=88");
    Ok (ProcAttrs 312 (Some "svchost.exe") None None None);
    Ok (ProcAttrs 640 (Some "python.exe") (Some "ann") None (Some (Qmake 3 2)));
    Ok (ProcAttrs 702 (Some "explorer.exe") (Some "ann") None (Some (Qmake 2 4))) ].

Definition process_host (processes : list (result proc_attrs) * option exn)
  : host :=
  sample_host resolves no_registry no_utility no_path sample_memory processes.

(** A machine whose own name does not resolve. *)
Definition gai_error : exn := Exn GaiError "[Errno 11001] getaddrinfo failed".
Definition unresolved (hostname : string) : result string := Raise gai_error.

Definition unresolved_host : host :=
  sample_host unresolved no_registry no_utility no_path sample_memory ([], None).

(** An inventory utility that answers the enclosure and BIOS queries and
    not the motherboard one. *)
Definition line_break : string := string_of_list_ascii [newline].

Definition inventory (cmd : string) : result completed :=
  if String.eqb cmd "wmic computersystem get model,manufacturer"
  then Ok (Completed 0 ("Manufacturer  Model" ++ line_break
                        ++ "LENOVO        20QD ThinkPad X1" ++ line_break))
  else if String.eqb cmd "wmic bios get serialnumber"
  then Ok (Completed 0 ("SerialNumber  " ++ line_break
                        ++ "PF2ABCDE  " ++ line_break ++ line_break))
  else Raise not_found.

Definition inventory_host : host :=
  sample_host resolves no_registry inventory no_path sample_memory ([], None).

(** ** The renderer and [main]

    [generate_html_report] builds its document in one f-string before it
    opens the file.  The model keeps, for every expression of the
    template, whether its evaluation completes; the text laid around the
    cells is not modelled.  An expression faults when it asks of a value
    what its type does not have: [items] or [get] of a value that is not
    a dictionary, a subscript by a missing key, a concatenation of a
    string with another type, a [join] over something that is not a
    sequence of strings.  Which of several faulty cells is met first
    depends on dictionary order, so the model records that the template
    raises, not with what.  The Windows cell escapes a quote inside a
    replacement field, which the interpreter accepts from Python 3.12
    on; the model is of the program as such an interpreter runs it. *)

Definition is_dict (v : value) : bool :=
  match v with
  | VDict _ => true
  | _ => false
  end.

Definition is_str (v : value) : bool :=
  match v with
  | VStr _ => true
  | _ => false
  end.

(** Every entry of [d] passes [test]. *)
Definition all_entries (test : string -> value -> bool) (d : gmap string value)
  : bool :=
  bool_decide (map_Forall (fun k v => test k v = true) d).

(** [for key, value in data[k].items()]: a table of two columns. *)
Definition simple_section (data : gmap string value) (k : string) : bool :=
  match data !! k with
  | Some (VDict _) => true
  | _ => false
  end.

(** The Windows table: [value if "Key" not in key else "<span ...>" + value
    + "</span>"]. *)
Definition windows_section (data : gmap string value) : bool :=
  match data !! "windows_info" with
  | Some (VDict d) =>
      all_entries (fun key value =>
                     if str_contains "Key" key then is_str value else true) d
  | _ => false
  end.

(** The disk section: one table of [info.items()] per entry other than
    ['IO Statistics'], then the table of that entry when it is there. *)
Definition disk_section (data : gmap string value) : bool :=
  match data !! "disk_info" with
  | Some (VDict d) =>
      all_entries (fun disk info =>
                     if String.eqb disk "IO Statistics" then true
                     else is_dict info) d
      && match d !! "IO Statistics" with
         | Some io => is_dict io
         | None => true
         end
  | _ => false
  end.

(** ["<br>".join(v)]. *)
Definition joinable (v : value) : bool :=
  match v with
  | VList l => forallb is_str l
  | VStr _ => true
  | VDict _ => true
  | VBytes bs => match bs with [] => true | _ => false end
  | _ => false
  end.

(** The table of one interface: three [info.get]s, the addresses joined. *)
Definition interface_table (info : value) : bool :=
  match info with
  | VDict d =>
      joinable (match d !! "Addresses" with Some v => v | None => VList [] end)
  | _ => false
  end.

(** One row of the network I/O table: four subscripts of [io]. *)
Definition io_row (io : value) : bool :=
  match io with
  | VDict d =>
      bool_decide (is_Some (d !! "Bytes Sent"))
      && bool_decide (is_Some (d !! "Bytes Received"))
      && bool_decide (is_Some (d !! "Packets Sent"))
      && bool_decide (is_Some (d !! "Packets Received"))
  | _ => false
  end.

Definition network_section (data : gmap string value) : bool :=
  match data !! "network_info" with
  | Some (VDict d) =>
      all_entries (fun interface info =>
                     if String.eqb interface "IO Statistics" then true
                     else interface_table info) d
      && match d !! "IO Statistics" with
         | Some (VDict io_statistics) =>
             all_entries (fun _ io => io_row io) io_statistics
         | Some _ => false
         | None => true
         end
  | _ => false
  end.

(** [for proc in data['processes']] with five [proc.get]s per row. *)
Definition processes_section (data : gmap string value) : bool :=
  match data !! "processes" with
  | Some (VList l) => forallb is_dict l
  | Some (VStr s) => String.eqb s EmptyString
  | Some (VDict d) => bool_decide (d = ∅)
  | Some (VBytes bs) => match bs with [] => true | _ => false end
  | _ => false
  end.

(** The whole template evaluates. *)
Definition template_evaluates (data : gmap string value) : bool :=
  simple_section data "system_info"
  && simple_section data "hardware_info"
  && windows_section data
  && simple_section data "office_info"
  && simple_section data "cpu_info"
  && simple_section data "memory_info"
  && disk_section data
  && network_section data
  && processes_section data.

(** [generate_html_report(data, output_path)]: [None] when the template
    raises (the f-string stands before the [try]); otherwise [True] when
    the file is written and [False] when writing it faults.  [write] is
    the outcome of opening and writing the file. *)
Definition generate_html_report (data : gmap string value) (write : result unit)
  : option bool :=
  if template_evaluates data
  then Some (match write with Ok _ => true | Raise _ => false end)
  else None.

(** How [main] ends: with an exception, after writing the report, or
    after reporting that the file could not be written.  The question
    whether to open the report sits in a [try] of its own. *)
Inductive main_outcome : Type :=
| MainRaises
| ReportWritten
| ReportNotWritten.

Definition main (h : host) (write : result unit) : main_outcome :=
  match collect h with
  | Raise _ => MainRaises
  | Ok system_data =>
      match generate_html_report system_data write with
      | None => MainRaises
      | Some true => ReportWritten
      | Some false => ReportNotWritten
      end
  end.

Definition disk_error : gmap string value :=
  {[ "Error" := VStr "Unable to retrieve disk information" ]}.

Definition network_error : gmap string value :=
  {[ "Error" := VStr "Unable to retrieve network information" ]}.

(** No interface bears the name of the I/O entry. *)
Definition plain_interfaces (h : host) : bool :=
  match net_if_addrs h with
  | Ok addresses =>
      forallb (fun '(interface, _) => negb (String.eqb interface "IO Statistics"))
              addresses
  | Raise _ => true
  end.

(** A machine described by its disks and interfaces. *)
Definition storage_host
    (partitions : result (list sdiskpart))
    (usage : string -> result sdiskusage)
    (disk_io : result (option sdiskio))
    (addresses : result (list (string * list snicaddr)))
    (stats : result (gmap string snicstats))
    (net_io : result (list (string * snetio))) : host :=
  {| platform_system := "Windows";
     platform_node := "DESK-01";
     platform_release := "10";
     platform_version := "10.0.19045";
     platform_machine := "AMD64";
     platform_processor := "Intel64 Family 6";
     platform_platform := "Windows-10-10.0.19045-SP0";
     platform_architecture := ("64bit", "WindowsPE");
     platform_win32_ver := Ok ("10", "10.0.19045", "SP0", "Multiprocessor Free");
     socket_gethostname := Ok "DESK-01";
     socket_gethostbyname := resolves;
     uuid_getnode := 1250999896491;
     OpenKey := licensed_registry;
     subprocess_run := inventory;
     environ := ∅;
     path_exists := no_path;
     cpu_count_physical := Ok (Some 4);
     cpu_count_logical := Ok (Some 8);
     cpu_freq := Ok (Some (Scpufreq (inject_Z 1800) (Qmake 4789 2)));
     psutil_cpu_percent := Ok (Qmake 125 10);
     virtual_memory := sample_memory;
     swap_memory := Ok (Sswap (2 ^ 31) 0 (inject_Z 0));
     disk_partitions := partitions;
     disk_usage := usage;
     disk_io_counters := disk_io;
     net_if_addrs := addresses;
     net_if_stats := stats;
     net_io_counters := net_io;
     process_iter := (sample_processes, None) |}.

Definition drive (letter : string) : string := letter ++ ":" ++ backslash.

Definition sample_partitions : list sdiskpart :=
  [ Sdiskpart (drive "C") (drive "C") "NTFS";
    Sdiskpart (drive "D") (drive "D") "UDF";
    Sdiskpart (drive "E") (drive "E") "NTFS" ].

(** Drive [D:] holds no medium. *)
Definition sample_usage (mountpoint : string) : result sdiskusage :=
  if String.eqb mountpoint (drive "D")
  then Raise (Exn PermissionError "The device is not ready")
  else Ok (Sdiskusage (2 ^ 38) (3 * 2 ^ 36) (2 ^ 36) (inject_Z 75)).

Definition sample_disk_io : result (option sdiskio) :=
  Ok (Some (Sdiskio 1200 800 (5 * 2 ^ 20) (2 ^ 19))).

Definition sample_addresses : list (string * list snicaddr) :=
  [ ("Ethernet",
     [ Snicaddr "AF_LINK" "01-23-45-67-89-AB" None;
       Snicaddr "AF_INET" "192.168.1.20" (Some "255.255.255.0") ]);
    ("Loopback", [ Snicaddr "AF_INET" "127.0.0.1" (Some "255.0.0.0") ]) ].

Definition sample_stats : gmap string snicstats :=
  {[ "Ethernet" := Snicstats true 1000 ]}.

Definition sample_net_io : list (string * snetio) :=
  [ ("Ethernet", Snetio (3 * 2 ^ 20) (2 ^ 30) 4200 9100) ].

Definition healthy_host : host :=
  storage_host (Ok sample_partitions) sample_usage sample_disk_io
    (Ok sample_addresses) (Ok sample_stats) (Ok sample_net_io).

Definition access_denied : exn := Exn PermissionError "Access is denied".

(** The same machine when the partitions cannot be listed. *)
Definition no_disks_host : host :=
  storage_host (Raise access_denied) sample_usage sample_disk_io
    (Ok sample_addresses) (Ok sample_stats) (Ok sample_net_io).

(** ** Keys and addresses, read back *)

(** The position of [c] in [symbols], if it occurs there. *)
Fixpoint position (c : ascii) (symbols : list ascii) : option Z :=
  match symbols with
  | [] => None
  | s :: symbols' =>
      if Ascii.eqb c s then Some 0
      else match position c symbols' with
           | Some n => Some (n + 1)
           | None => None
           end
  end.

(** Reading one more character [c] after the number [acc]: the
    separator [sep] is passed over, a digit of [symbols] counts as its
    position, anything else spoils the reading. *)
Definition read_step (symbols : string) (sep : ascii) (acc : option Z) (c : ascii)
  : option Z :=
  if Ascii.eqb c sep then acc
  else match acc, position c (list_ascii_of_string symbols) with
       | Some n, Some d => Some (Z.of_nat (String.length symbols) * n + d)
       | _, _ => None
       end.

(** The number written in [s] with the digits [symbols], the first
    character the most significant. *)
Definition read_number (symbols : string) (sep : ascii) (s : string) : option Z :=
  fold_left (read_step symbols sep) (list_ascii_of_string s) (Some 0).

(** A product key as a number in base 24, and a MAC address as a number
    in base 16. *)
Definition key_number (key : string) : option Z := read_number key_map "-" key.

Definition mac_number (mac : string) : option Z :=
  read_number "0123456789abcdef" ":" mac.

(** The number a list of base-24 digits denotes, the first the least
    significant. *)
Definition base24 (rs : list Z) : Z := foldr (fun r acc => r + 24 * acc) 0 rs.

(** ** More of the office store *)

(** The install path recorded under a versioned entry, if it answers. *)
Definition install_root (h : host) (office_path token : string) : option value :=
  match query_value h
          (office_path ++ backslash ++ token ++ "\Common\InstallRoot")
          "Path" with
  | Ok path => Some (reg_data path)
  | Raise _ => None
  end.

(** The first conventional install location that exists. *)
Definition first_location (h : host) : option string :=
  List.find (path_exists h) (common_paths h).

(** A registry with both office roots: version 16.0 with its install
    root under the first, version 15.0 and nothing else under the
    second. *)
Definition two_root_registry (path : string) : result reg_key :=
  if String.eqb path "SOFTWARE\Microsoft\Office"
  then Ok (RegKey ["Common"; "16.0"] ∅)
  else if String.eqb path "SOFTWARE\Wow6432Node\Microsoft\Office"
  then Ok (RegKey ["15.0"] ∅)
  else if String.eqb path "SOFTWARE\Microsoft\Office\16.0\Common\InstallRoot"
  then Ok (RegKey [] {[ "Path" := REG_SZ "C:\Program Files\Microsoft Office\root\Office16" ]})
  else Raise not_found.

Definition two_root_host : host :=
  sample_host resolves two_root_registry no_utility no_path sample_memory
    ([], None).

(** A machine without office keys where the second conventional location
    exists. *)
Definition x86_location (path : string) : bool :=
  String.eqb path "C:\Program Files (x86)\Microsoft Office".

Definition file_system_host : host :=
  sample_host resolves no_registry no_utility x86_location sample_memory
    ([], None).

(** ** Mebibyte fields and the shapes of the disk and memory results *)

(** The hundredths [mb_field] prints for the byte count [n], as the code
    computes them: the quotient by [2^20] rounded to a 53-bit significand
    at the exponent [log2 n - 72], then its hundredfold rounded. *)
Definition mb_hundredths (n : Z) : Z :=
  round_half_even
    (100 * round_half_even (n * 2 ^ (72 - Z.log2 n)) (2 ^ 20))
    (2 ^ (72 - Z.log2 n)).

Definition renders_mb (d : gmap string value) (key : string) (n : Z) : Prop :=
  exists s : string, mb_field n = Ok s /\ d !! key = Some (VStr s).

Definition byte_countb (n : Z) : bool := (0 <=? n) && (n <? 2 ^ 64).

Definition usage_in_range (h : host) (partition : sdiskpart) : bool :=
  match disk_usage h (mountpoint partition) with
  | Ok usage =>
      byte_countb (du_total usage) && byte_countb (du_used usage)
      && byte_countb (du_free usage)
  | Raise _ => true
  end.

(** The byte counts psutil reports for the disks are 64-bit. *)
Definition disk_counts_in_range (h : host) : bool :=
  match disk_io_counters h with
  | Ok (Some disk_io) =>
      byte_countb (read_bytes disk_io) && byte_countb (write_bytes disk_io)
  | _ => true
  end
  && match disk_partitions h with
     | Ok partitions => forallb (usage_in_range h) partitions
     | Raise _ => true
     end.

(** The usage of the partition can be read. *)
Definition usage_answers (h : host) (partition : sdiskpart) : bool :=
  match disk_usage h (mountpoint partition) with
  | Ok _ => true
  | Raise _ => false
  end.

Definition memory_error : gmap string value :=
  {[ "Error" := VStr "Unable to retrieve memory information" ]}.

Definition memory_keys : list string :=
  [ "Total RAM"; "Available RAM"; "Used RAM"; "RAM Usage";
    "Total Swap"; "Used Swap"; "Swap Usage" ].

(** The byte counts psutil reports for the memory are 64-bit. *)
Definition memory_counts_in_range (h : host) : bool :=
  match virtual_memory h with
  | Ok vm =>
      byte_countb (vm_total vm) && byte_countb (vm_available vm)
      && byte_countb (vm_used vm)
  | Raise _ => true
  end
  && match swap_memory h with
     | Ok sw => byte_countb (sw_total sw) && byte_countb (sw_used sw)
     | Raise _ => true
     end.

Definition cpu_error : gmap string value :=
  {[ "Error" := VStr "Unable to retrieve CPU information" ]}.

(** The second line of what the CPU name utility prints, when it ends
    with status 0 and prints as much. *)
Definition cpu_name (h : host) : option string :=
  match subprocess_run h "wmic cpu get name" with
  | Ok result =>
      if returncode result =? 0
      then match split_on newline (strip (stdout result)) with
           | _ :: line :: _ => Some (strip line)
           | _ => None
           end
      else None
  | Raise _ => None
  end.

(** The byte counts psutil reports for the interfaces are 64-bit. *)
Definition network_counts_in_range (h : host) : bool :=
  match net_io_counters h with
  | Ok io_counters =>
      forallb (fun '(_, io) =>
                 byte_countb (bytes_sent io) && byte_countb (bytes_recv io))
              io_counters
  | Raise _ => true
  end.

(** ** The Windows section and the inventory words *)

Definition windows_keys : list string :=
  [ "Windows Edition"; "Windows Version"; "Windows Build"; "Product ID";
    "Product Key"; "Last Update"; "Installation Date" ].

(** [c] occurs in [s]. *)
Definition has_char (c : ascii) (s : string) : bool :=
  existsb (Ascii.eqb c) (list_ascii_of_string s).

(** A non-empty string without white space. *)
Definition word (s : string) : Prop :=
  s <> EmptyString
  /\ forallb (fun c => negb (is_space c)) (list_ascii_of_string s) = true.

(** A machine whose [systeminfo] prints the install date. *)
Definition dated (cmd : string) : result completed :=
  if String.eqb cmd install_date_cmd
  then Ok (Completed 0 ("Original Install Date:     1/2/2024, 10:30:00 AM"
                        ++ line_break))
  else Raise not_found.

Definition dated_host : host :=
  sample_host resolves no_registry dated no_path sample_memory ([], None).

(** No partition after [p] in the listing is a readable partition of
    the same device: the entry of the device is the one of [p]. *)
Definition last_readable (h : host) (p : sdiskpart) (after : list sdiskpart)
  : bool :=
  forallb (fun q => negb (String.eqb (device q) (device p) && usage_answers h q))
          after.

(** ** Proof tactics *)

(** Splitting a list of known length into its elements. *)
Ltac explode_list cs Hlen :=
  repeat (destruct cs as [|? cs]; [discriminate Hlen|]);
  destruct cs; [|discriminate Hlen].

(** A lookup in a dictionary display with literal keys. *)
Ltac lookup_display :=
  unfold list_to_map; cbn [foldr fst snd];
  rewrite ?lookup_insert_ne by discriminate; apply lookup_insert_eq.

(** * Properties *)

(** ** Product-key decoding *)

Lemma byte_to_Z_range (b : byte) : 0 <= byte_to_Z b < 256.
Proof.
  unfold byte_to_Z. pose proof (Byte.to_N_bounded b) as Hb. lia.
Qed.

Lemma all_bytes_map (bs : list byte) : all_bytes (map byte_to_Z bs).
Proof.
  unfold all_bytes. induction bs as [|b bs IH]; simpl; constructor; auto.
  apply byte_to_Z_range.
Qed.

(** On a carry [k >= 0] and a byte [b], shift-and-or is multiply-and-add. *)
Lemma shift_or_byte (k b : Z) :
  0 <= k -> 0 <= b < 256 -> Z.lor (Z.shiftl k 8) b = k * 256 + b.
Proof.
  intros Hk Hb.
  rewrite Z.shiftl_mul_pow2 by lia. change (2 ^ 8) with 256.
  assert (Hdisj : Z.land (k * 256) b = 0).
  { replace b with (Z.land b (Z.ones 8)) at 1
      by (rewrite Z.land_ones by lia; apply Z.mod_small; change (2 ^ 8) with 256; lia).
    rewrite (Z.land_comm b), Z.land_assoc, Z.land_ones by lia.
    change (2 ^ 8) with 256. rewrite Z.mod_mul by lia. reflexivity. }
  rewrite <- Z.lxor_lor by exact Hdisj.
  symmetry. apply Z.add_nocarry_lxor. exact Hdisj.
Qed.

Lemma range_desc_S (n : nat) : range_desc (S n) = S n :: range_desc n.
Proof.
  unfold range_desc. rewrite (seq_S (S n)). simpl Nat.add.
  rewrite rev_app_distr. reflexivity.
Qed.

Lemma rev_seq_S (n : nat) : rev (seq 0 (S n)) = n :: rev (seq 0 n).
Proof. rewrite seq_S. simpl Nat.add. rewrite rev_app_distr. reflexivity. Qed.

Lemma window_number_app (l1 l2 : list Z) :
  window_number (l1 ++ l2)%list
  = window_number l1 + 256 ^ Z.of_nat (length l1) * window_number l2.
Proof.
  unfold window_number.
  induction l1 as [|b l1 IH]; cbn [app foldr length].
  - change (Z.of_nat 0) with 0. rewrite Z.pow_0_r. lia.
  - rewrite IH, Nat2Z.inj_succ, Z.pow_succ_r by lia. lia.
Qed.

Lemma window_number_nonneg (l : list Z) : all_bytes l -> 0 <= window_number l.
Proof.
  induction 1 as [|b l Hb _ IH]; unfold window_number in *; simpl; lia.
Qed.

(** One inner loop over the indices below [length pre], from carry [k]:
    a long division by 24 of the digits [pre], most significant first. *)
Lemma inner_loop_division (pre : list Z) :
  forall (suf : list Z) (k : Z),
    all_bytes pre -> 0 <= k < 24 ->
    exists k' pre',
      for_each inner_body (rev (seq 0 (length pre))) (k, (pre ++ suf)%list)
      = Some (k', (pre' ++ suf)%list)
      /\ length pre' = length pre
      /\ all_bytes pre'
      /\ 0 <= k' < 24
      /\ k * 256 ^ Z.of_nat (length pre) + window_number pre
         = 24 * window_number pre' + k'.
Proof.
  induction pre as [|b pre IH] using rev_ind; intros suf k Hpre Hk.
  - exists k, []. unfold window_number. simpl.
    repeat split; try constructor; try lia.
  - apply Forall_app in Hpre as [Hpre Hb]. inversion Hb as [|? ? Hb' _]; subst.
    rewrite length_app. simpl length. rewrite Nat.add_1_r, rev_seq_S.
    cbn [for_each inner_body].
    rewrite <- app_assoc. simpl app.
    rewrite (list_lookup_middle pre (suf) b (length pre) eq_refl).
    rewrite shift_or_byte by lia.
    assert (Hq : 0 <= (k * 256 + b) / 24 < 256).
    { split; [apply Z.div_pos; lia | apply Z.div_lt_upper_bound; lia]. }
    assert (Hr : 0 <= (k * 256 + b) mod 24 < 24) by (apply Z.mod_pos_bound; lia).
    replace (<[length pre:=(k * 256 + b) / 24]> (pre ++ b :: suf)%list)
      with (pre ++ ((k * 256 + b) / 24) :: suf)%list
      by (rewrite (insert_app_r_alt pre (b :: suf) (length pre)) by lia;
          rewrite Nat.sub_diag; reflexivity).
    destruct (IH (((k * 256 + b) / 24) :: suf) ((k * 256 + b) mod 24) Hpre Hr)
      as (k' & pre' & Hrun & Hlen & Hall & Hk' & Hval).
    exists k', (pre' ++ [(k * 256 + b) / 24])%list.
    rewrite <- app_assoc. simpl app. rewrite Hrun.
    repeat split; try lia.
    + rewrite !length_app. simpl. lia.
    + apply Forall_app; split; [exact Hall | constructor; [lia | constructor]].
    + rewrite !window_number_app, Hlen.
      unfold window_number at 2 4. simpl foldr.
      rewrite Nat2Z.inj_succ, Z.pow_succ_r by lia.
      pose proof (Z.div_mod (k * 256 + b) 24 ltac:(lia)) as Hdm.
      nia.
Qed.

(** One whole inner loop on a 15-byte list is the division of its
    number by 24. *)
Lemma inner_pass (l : list Z) :
  length l = 15%nat -> all_bytes l ->
  exists l',
    for_each inner_body (range_desc 14) (0, l)
    = Some (window_number l mod 24, l')
    /\ length l' = 15%nat /\ all_bytes l'
    /\ window_number l' = window_number l / 24.
Proof.
  intros Hlen Hall.
  destruct (inner_loop_division l [] 0 Hall ltac:(lia))
    as (k' & l' & Hrun & Hlen' & Hall' & Hk' & Hval).
  rewrite !app_nil_r, Hlen in Hrun. rewrite Z.mul_0_l, Z.add_0_l in Hval.
  assert (Hk : k' = window_number l mod 24).
  { apply (Z.mod_unique_pos _ _ (window_number l')); lia. }
  assert (Hq : window_number l' = window_number l / 24).
  { apply (Z.div_unique_pos _ _ _ k'); lia. }
  exists l'. rewrite <- Hk. repeat split; try assumption; congruence.
Qed.

Lemma pass_remainders_division (n : nat) :
  forall l : list Z,
    length l = 15%nat -> all_bytes l ->
    pass_remainders n l = Some (successive_remainders n (window_number l)).
Proof.
  induction n as [|n IH]; intros l Hlen Hall; [reflexivity|].
  destruct (inner_pass l Hlen Hall) as (l' & Hrun & Hlen' & Hall' & Hq).
  cbn [pass_remainders successive_remainders].
  rewrite Hrun, (IH l' Hlen' Hall'), Hq. reflexivity.
Qed.

Lemma successive_remainders_range (n : nat) :
  forall number : Z,
    Forall (fun r => 0 <= r < 24) (successive_remainders n number).
Proof.
  induction n as [|n IH]; intros number; simpl; constructor; auto.
  apply Z.mod_pos_bound. lia.
Qed.

Lemma successive_remainders_length (n : nat) (number : Z) :
  length (successive_remainders n number) = n.
Proof. revert number. induction n; intros; simpl; auto. Qed.

(** Below 24 the alphabet is indexed in bounds. *)
Lemma str_index_key_map (k : Z) :
  0 <= k < 24 -> str_index key_map k = Some (alphabet_char k).
Proof.
  intros Hk.
  assert (Hnat : forall n : nat, (n < 24)%nat ->
            str_index key_map (Z.of_nat n) = Some (alphabet_char (Z.of_nat n))).
  { intros n Hn. do 24 (destruct n as [|n]; [reflexivity|]). lia. }
  rewrite <- (Z2Nat.id k) by lia. apply Hnat. lia.
Qed.

Lemma alphabet_char_in (k : Z) : 0 <= k < 24 -> in_alphabet (alphabet_char k).
Proof.
  intros Hk. unfold in_alphabet, alphabet_char.
  apply nth_In. change (length (list_ascii_of_string key_map)) with 24%nat. lia.
Qed.

(** The outer loop appends one alphabet character per division. *)
Lemma outer_loop_division (idx : list nat) :
  forall (key_chars : list ascii) (l : list Z),
    length l = 15%nat -> all_bytes l ->
    exists l',
      for_each outer_body idx (key_chars, l)
      = Some ((key_chars
               ++ map alphabet_char
                    (successive_remainders (length idx) (window_number l)))%list,
              l').
Proof.
  induction idx as [|i idx IH]; intros key_chars l Hlen Hall.
  - exists l. simpl. rewrite app_nil_r. reflexivity.
  - destruct (inner_pass l Hlen Hall) as (l' & Hrun & Hlen' & Hall' & Hq).
    cbn [for_each outer_body length successive_remainders map].
    rewrite Hrun, str_index_key_map by (apply Z.mod_pos_bound; lia).
    destruct (IH (key_chars ++ [alphabet_char (window_number l mod 24)])%list
                l' Hlen' Hall') as (l'' & Hrest).
    exists l''. rewrite Hrest, Hq, <- app_assoc. reflexivity.
Qed.

Lemma decode_loop_division (l : list Z) :
  length l = 15%nat -> all_bytes l ->
  decode_loop l
  = Some (map alphabet_char (successive_remainders 25 (window_number l))).
Proof.
  intros Hlen Hall. unfold decode_loop.
  destruct (outer_loop_division (range_desc 24) [] l Hlen Hall) as (l' & Hrun).
  rewrite Hrun. reflexivity.
Qed.

(** On 25 characters the slicing of the code gives the five groups. *)
Lemma format_key_groups (cs : list ascii) :
  length cs = 25%nat ->
  format_key (join_chars cs) = String.concat "-" (groups_of_five (length cs) cs).
Proof.
  intros Hlen. explode_list cs Hlen. reflexivity.
Qed.

Lemma format_key_shape (cs : list ascii) :
  length cs = 25%nat -> Forall in_alphabet cs ->
  exists g1 g2 g3 g4 g5 : string,
    format_key (join_chars cs)
    = g1 ++ "-" ++ g2 ++ "-" ++ g3 ++ "-" ++ g4 ++ "-" ++ g5
    /\ Forall key_group [g1; g2; g3; g4; g5]
    /\ g5 = str_last 5 (format_key (join_chars cs))
    /\ String.length (format_key (join_chars cs)) = 29%nat
    /\ format_key (join_chars cs)
       = (g1 ++ "-" ++ g2 ++ "-" ++ g3 ++ "-" ++ g4 ++ "-") ++ g5.
Proof.
  intros Hlen Hall. explode_list cs Hlen.
  repeat match goal with
         | H : Forall _ (_ :: _) |- _ =>
             let Hc := fresh "Hc" in
             apply Forall_cons_iff in H; destruct H as [Hc H]
         end.
  eexists (String _ (String _ (String _ (String _ (String _ EmptyString))))),
          (String _ (String _ (String _ (String _ (String _ EmptyString))))),
          (String _ (String _ (String _ (String _ (String _ EmptyString))))),
          (String _ (String _ (String _ (String _ (String _ EmptyString))))),
          (String _ (String _ (String _ (String _ (String _ EmptyString))))).
  split; [reflexivity|].
  split; [|repeat split; reflexivity].
  repeat lazymatch goal with
         | |- Forall _ [] => constructor
         | |- Forall _ (_ :: _) => constructor
         | |- key_group _ => split; [reflexivity | cbn [list_ascii_of_string]]
         | |- in_alphabet _ => assumption
         end.
Qed.

Lemma slice_window_length (value : list byte) :
  (67 <= length value)%nat -> length (slice 52 67 value) = 15%nat.
Proof.
  intros Hlen. unfold slice. rewrite length_take, length_drop. lia.
Qed.

Lemma decode_window_reference (l : list Z) :
  length l = 15%nat -> all_bytes l ->
  decode_window l = Some (reference_decode l).
Proof.
  intros Hlen Hall. unfold decode_window, reference_decode.
  rewrite (decode_loop_division l Hlen Hall).
  rewrite format_key_groups; [reflexivity|].
  rewrite length_rev, length_map. apply successive_remainders_length.
Qed.

(** C3. Whenever the registry value is long enough for bytes 52..66 to be
    taken, the decoding of the code is the reference algorithm of the
    specification: the window read as a base-256 number, 25 successive
    divisions by 24, each remainder mapped through the alphabet
    [BCDFGHJKMPQRTVWXY2346789], the characters reversed and the groups of
    five joined by hyphens.  The same holds of [get_windows_product_key]
    on any machine whose registry holds that value. *)
Theorem product_key_decode_reference (value : list byte) :
  (67 <= length value)%nat ->
  decode_product_key value
  = Some (reference_decode (map byte_to_Z (slice 52 67 value)))
  /\ forall h : host,
       query_value h current_version "DigitalProductId" = Ok (REG_BINARY value) ->
       get_windows_product_key h
       = Some (reference_decode (map byte_to_Z (slice 52 67 value))).
Proof.
  intros Hlen.
  assert (Hdec : decode_product_key value
                 = Some (reference_decode (map byte_to_Z (slice 52 67 value)))).
  { unfold decode_product_key. apply decode_window_reference.
    - rewrite length_map. apply slice_window_length, Hlen.
    - apply all_bytes_map. }
  split; [exact Hdec|].
  intros h Hreg. unfold get_windows_product_key. rewrite Hreg. exact Hdec.
Qed.

Lemma product_key_decode_reference_witness :
  decode_product_key sample_blob
  = Some (reference_decode (map byte_to_Z (slice 52 67 sample_blob)))
  /\ forall h : host,
       query_value h current_version "DigitalProductId"
       = Ok (REG_BINARY sample_blob) ->
       get_windows_product_key h
       = Some (reference_decode (map byte_to_Z (slice 52 67 sample_blob))).
Proof.
  apply (product_key_decode_reference sample_blob). vm_compute. lia.
Defined.

(** C9. For a 15-element byte list, the remainder [k] at the end of each
    of the 25 inner loops lies in [0, 24), so [key_map[k]] is always in
    bounds; the decoding therefore returns, and what it returns is a
    29-character string: five groups of five alphabet characters joined
    by four hyphens. *)
Theorem decode_total_in_bounds (bs : list byte) :
  length bs = 15%nat ->
  exists (ks : list Z) (g1 g2 g3 g4 g5 : string),
    pass_remainders 25 (map byte_to_Z bs) = Some ks
    /\ length ks = 25%nat
    /\ Forall (fun k => 0 <= k < 24 /\ is_Some (str_index key_map k)) ks
    /\ decode_window (map byte_to_Z bs)
       = Some (g1 ++ "-" ++ g2 ++ "-" ++ g3 ++ "-" ++ g4 ++ "-" ++ g5)
    /\ Forall key_group [g1; g2; g3; g4; g5]
    /\ String.length (g1 ++ "-" ++ g2 ++ "-" ++ g3 ++ "-" ++ g4 ++ "-" ++ g5)
       = 29%nat.
Proof.
  intros Hlen.
  set (l := map byte_to_Z bs).
  assert (Hl : length l = 15%nat) by (unfold l; rewrite length_map; exact Hlen).
  assert (Hall : all_bytes l) by apply all_bytes_map.
  set (rs := successive_remainders 25 (window_number l)).
  assert (Hrs : Forall (fun r => 0 <= r < 24) rs)
    by apply successive_remainders_range.
  destruct (format_key_shape (rev (map alphabet_char rs)))
    as (g1 & g2 & g3 & g4 & g5 & Hfmt & Hgroups & _ & Hlen29 & _).
  { rewrite length_rev, length_map. apply successive_remainders_length. }
  { apply Forall_rev, Forall_map. eapply Forall_impl; [exact Hrs|].
    intros r Hr. apply alphabet_char_in, Hr. }
  exists rs, g1, g2, g3, g4, g5.
  split; [apply pass_remainders_division; assumption|].
  split; [apply successive_remainders_length|].
  split.
  { eapply Forall_impl; [exact Hrs|]. intros r Hr. split; [exact Hr|].
    rewrite str_index_key_map by exact Hr. eexists; reflexivity. }
  split.
  { unfold decode_window. rewrite (decode_loop_division l Hl Hall).
    fold rs. rewrite Hfmt. reflexivity. }
  split; [exact Hgroups|].
  rewrite <- Hfmt. exact Hlen29.
Qed.

Lemma decode_total_in_bounds_witness :
  exists (ks : list Z) (g1 g2 g3 g4 g5 : string),
    pass_remainders 25 (map byte_to_Z sample_window) = Some ks
    /\ length ks = 25%nat
    /\ Forall (fun k => 0 <= k < 24 /\ is_Some (str_index key_map k)) ks
    /\ decode_window (map byte_to_Z sample_window)
       = Some (g1 ++ "-" ++ g2 ++ "-" ++ g3 ++ "-" ++ g4 ++ "-" ++ g5)
    /\ Forall key_group [g1; g2; g3; g4; g5]
    /\ String.length (g1 ++ "-" ++ g2 ++ "-" ++ g3 ++ "-" ++ g4 ++ "-" ++ g5)
       = 29%nat.
Proof.
  apply (decode_total_in_bounds sample_window). reflexivity.
Defined.

Lemma str_length_app (s1 s2 : string) :
  String.length (s1 ++ s2) = (String.length s1 + String.length s2)%nat.
Proof. induction s1 as [|c s1 IH]; simpl; [reflexivity | rewrite IH; reflexivity]. Qed.

(** A window of fewer than 15 bytes faults at [product_id[14]]. *)
Lemma decode_window_short (l : list Z) :
  (length l < 15)%nat -> decode_window l = None.
Proof.
  intros Hlen. unfold decode_window, decode_loop.
  rewrite (range_desc_S 23). cbn [for_each outer_body].
  rewrite (range_desc_S 13). cbn [for_each inner_body].
  rewrite lookup_ge_None_2 by lia. reflexivity.
Qed.

(** Every key [get_windows_product_key] returns is the formatting of 25
    alphabet characters. *)
Lemma product_key_shape (h : host) (key : string) :
  get_windows_product_key h = Some key ->
  exists cs : list ascii,
    length cs = 25%nat /\ Forall in_alphabet cs
    /\ key = format_key (join_chars cs).
Proof.
  unfold get_windows_product_key.
  destruct (query_value h current_version "DigitalProductId")
    as [[value| |]|]; try discriminate.
  unfold decode_product_key. set (l := map byte_to_Z (slice 52 67 value)).
  intros Hdec.
  assert (Hl : length l = 15%nat).
  { destruct (Nat.lt_ge_cases (length l) 15) as [Hlt|Hge].
    - rewrite (decode_window_short l Hlt) in Hdec. discriminate.
    - unfold l, slice in *. rewrite length_map, length_take in *. lia. }
  assert (Hall : all_bytes l) by apply all_bytes_map.
  unfold decode_window in Hdec.
  rewrite (decode_loop_division l Hl Hall) in Hdec.
  exists (rev (map alphabet_char (successive_remainders 25 (window_number l)))).
  split; [|split; [|congruence]].
  - rewrite length_rev, length_map. apply successive_remainders_length.
  - apply Forall_rev, Forall_map.
    eapply Forall_impl; [apply successive_remainders_range|].
    intros r Hr. apply alphabet_char_in, Hr.
Qed.

Lemma windows_info_product_key (h : host)
    (win_ver : string * string * string * string) :
  platform_win32_ver h = Ok win_ver ->
  get_windows_info h !! "Product Key"
  = Some (VStr (masked_key (get_windows_product_key h))).
Proof.
  intros Hver. unfold get_windows_info. rewrite Hver.
  destruct win_ver as [[[release version] csd] ptype].
  unfold list_to_map. cbn [foldr fst snd].
  rewrite !lookup_insert_ne by discriminate. apply lookup_insert_eq.
Qed.

(** C2. On a machine where the OS/licensing probe reaches the product key
    ([win32_ver] has answered), a decoded key is displayed as
    [XXXXX-XXXXX-XXXXX-XXXXX-] followed by exactly its last five
    characters, 29 characters in all; when the decoding fails or gives no
    key the field is [Not available]. *)
Theorem product_key_field_masked (h : host)
    (win_ver : string * string * string * string) :
  platform_win32_ver h = Ok win_ver ->
  match get_windows_product_key h with
  | Some key =>
      exists front last5 : string,
        key = front ++ last5
        /\ String.length last5 = 5%nat
        /\ last5 = str_last 5 key
        /\ get_windows_info h !! "Product Key"
           = Some (VStr ("XXXXX-XXXXX-XXXXX-XXXXX-" ++ last5))
        /\ String.length ("XXXXX-XXXXX-XXXXX-XXXXX-" ++ last5) = 29%nat
  | None =>
      get_windows_info h !! "Product Key" = Some (VStr "Not available")
  end.
Proof.
  intros Hver. rewrite (windows_info_product_key h win_ver Hver).
  destruct (get_windows_product_key h) as [key|] eqn:Hkey; [|reflexivity].
  destruct (product_key_shape h key Hkey) as (cs & Hlen & Hall & ->).
  destruct (format_key_shape cs Hlen Hall)
    as (g1 & g2 & g3 & g4 & g5 & Hfmt & Hgroups & Hlast & Hlen29 & Hsplit).
  assert (Hg5 : String.length g5 = 5%nat).
  { rewrite Forall_forall in Hgroups. apply (Hgroups g5). set_solver. }
  exists (g1 ++ "-" ++ g2 ++ "-" ++ g3 ++ "-" ++ g4 ++ "-"), g5.
  split; [exact Hsplit|]. split; [exact Hg5|]. split; [exact Hlast|].
  split; [|rewrite str_length_app, Hg5; reflexivity].
  unfold masked_key.
  destruct (String.eqb_spec (format_key (join_chars cs)) EmptyString) as [Hempty|_].
  - rewrite Hempty in Hlen29. discriminate Hlen29.
  - rewrite <- Hlast. reflexivity.
Qed.

Lemma product_key_field_masked_witness :
  match get_windows_product_key
          (sample_host resolves licensed_registry no_utility no_path
             sample_memory ([], None)) with
  | Some key =>
      exists front last5 : string,
        key = front ++ last5
        /\ String.length last5 = 5%nat
        /\ last5 = str_last 5 key
        /\ get_windows_info
             (sample_host resolves licensed_registry no_utility no_path
                sample_memory ([], None)) !! "Product Key"
           = Some (VStr ("XXXXX-XXXXX-XXXXX-XXXXX-" ++ last5))
        /\ String.length ("XXXXX-XXXXX-XXXXX-XXXXX-" ++ last5) = 29%nat
  | None =>
      get_windows_info
        (sample_host resolves licensed_registry no_utility no_path
           sample_memory ([], None)) !! "Product Key"
      = Some (VStr "Not available")
  end.
Proof.
  apply (product_key_field_masked
           (sample_host resolves licensed_registry no_utility no_path
              sample_memory ([], None))
           ("10", "10.0.19045", "SP0", "Multiprocessor Free")).
  reflexivity.
Defined.

(** ** Identity probe: the MAC address *)

(** On a byte, ['{:02x}'] prints the two lowercase hexadecimal digits. *)
Lemma format_02x_byte (o : Z) : 0 <= o < 256 -> format_02x o = two_hex o.
Proof.
  intros Ho.
  assert (Hall : forallb (fun n => String.eqb (format_02x (Z.of_nat n))
                                     (two_hex (Z.of_nat n)))
                   (seq 0 256) = true) by (vm_compute; reflexivity).
  rewrite forallb_forall in Hall.
  specialize (Hall (Z.to_nat o)).
  rewrite Z2Nat.id in Hall by lia.
  apply String.eqb_eq, Hall, in_seq. lia.
Qed.

(** [(node >> 8*i) & 0xff] is the octet of weight [256^i]. *)
Lemma shift_mask_octet (node : Z) (i : nat) :
  Z.land (Z.shiftr node (Z.of_nat (i * 8))) 255 = octet node (Z.of_nat i).
Proof.
  unfold octet. rewrite Z.shiftr_div_pow2 by lia.
  change 255 with (Z.ones 8). rewrite Z.land_ones by lia.
  rewrite Nat2Z.inj_mul, Z.mul_comm. change (Z.of_nat 8) with 8.
  rewrite Z.pow_mul_r by lia. reflexivity.
Qed.

Lemma octet_range (node i : Z) : 0 <= octet node i < 256.
Proof. unfold octet. apply Z.mod_pos_bound. lia. Qed.

Lemma mac_address_reference (node : Z) : mac_address node = reference_mac node.
Proof.
  unfold mac_address, reference_mac.
  change (range_step (8 * 6) 8)
    with (map (fun i => (i * 8)%nat) [0; 1; 2; 3; 4; 5]%nat).
  rewrite map_map. cbn [map rev app].
  rewrite !shift_mask_octet, !format_02x_byte by apply octet_range.
  reflexivity.
Qed.

(** C4. For a 48-bit node identifier, the [MAC Address] of the identity
    probe is its six octets, most significant first, each as two lowercase
    hexadecimal digits, joined by colons: 17 characters that determine the
    identifier. *)
Theorem mac_address_octets (node : Z) :
  0 <= node < 2 ^ 48 ->
  mac_address node
  = two_hex (octet node 5) ++ ":" ++ two_hex (octet node 4) ++ ":"
    ++ two_hex (octet node 3) ++ ":" ++ two_hex (octet node 2) ++ ":"
    ++ two_hex (octet node 1) ++ ":" ++ two_hex (octet node 0)
  /\ node = octet node 5 * 256 ^ 5 + octet node 4 * 256 ^ 4
            + octet node 3 * 256 ^ 3 + octet node 2 * 256 ^ 2
            + octet node 1 * 256 + octet node 0
  /\ String.length (mac_address node) = 17%nat
  /\ forall (h : host) (d : gmap string value),
       uuid_getnode h = node -> get_system_info h = Ok d ->
       d !! "MAC Address" = Some (VStr (reference_mac node)).
Proof.
  intros Hnode. rewrite mac_address_reference.
  split; [reflexivity|]. split; [|split; [reflexivity|]].
  - unfold octet.
    change (256 ^ 5) with 1099511627776. change (256 ^ 4) with 4294967296.
    change (256 ^ 3) with 16777216. change (256 ^ 2) with 65536.
    change (256 ^ 1) with 256. change (256 ^ 0) with 1.
    change (2 ^ 48) with 281474976710656 in Hnode.
    Z.div_mod_to_equations. lia.
  - intros h d Hnode' Hd. unfold get_system_info in Hd.
    destruct (socket_gethostname h) as [hostname|]; [|discriminate Hd].
    cbn [mbind result_bind] in Hd.
    destruct (socket_gethostbyname h hostname) as [ip|]; [|discriminate Hd].
    cbn [mbind result_bind] in Hd. injection Hd as <-.
    rewrite Hnode', mac_address_reference.
    unfold list_to_map. cbn [foldr fst snd].
    rewrite !lookup_insert_ne by discriminate. apply lookup_insert_eq.
Qed.

Lemma mac_address_octets_witness :
  mac_address 1250999896491
  = two_hex (octet 1250999896491 5) ++ ":" ++ two_hex (octet 1250999896491 4)
    ++ ":" ++ two_hex (octet 1250999896491 3) ++ ":"
    ++ two_hex (octet 1250999896491 2) ++ ":"
    ++ two_hex (octet 1250999896491 1) ++ ":" ++ two_hex (octet 1250999896491 0)
  /\ 1250999896491
     = octet 1250999896491 5 * 256 ^ 5 + octet 1250999896491 4 * 256 ^ 4
       + octet 1250999896491 3 * 256 ^ 3 + octet 1250999896491 2 * 256 ^ 2
       + octet 1250999896491 1 * 256 + octet 1250999896491 0
  /\ String.length (mac_address 1250999896491) = 17%nat
  /\ forall (h : host) (d : gmap string value),
       uuid_getnode h = 1250999896491 -> get_system_info h = Ok d ->
       d !! "MAC Address" = Some (VStr (reference_mac 1250999896491)).
Proof.
  apply (mac_address_octets 1250999896491). vm_compute. split; congruence.
Defined.

(** ** Hardware probe *)

(** Each step adds its own fields to whatever the dictionary holds. *)
Lemma query_computersystem_union (h : host) (d : gmap string value) :
  query_computersystem h d = enclosure_fields h ∪ d.
Proof.
  unfold enclosure_fields, query_computersystem.
  repeat case_match;
    rewrite <- ?insert_union_l, (left_id_L ∅ (∪)); reflexivity.
Qed.

Lemma query_bios_union (h : host) (d : gmap string value) :
  query_bios h d = bios_fields h ∪ d.
Proof.
  unfold bios_fields, query_bios.
  repeat case_match;
    rewrite <- ?insert_union_l, (left_id_L ∅ (∪)); reflexivity.
Qed.

Lemma query_baseboard_union (h : host) (d : gmap string value) :
  query_baseboard h d = baseboard_fields h ∪ d.
Proof.
  unfold baseboard_fields, query_baseboard.
  repeat case_match;
    rewrite <- ?insert_union_l, (left_id_L ∅ (∪)); reflexivity.
Qed.

(** The fields a query can yield. *)
Lemma enclosure_fields_shape (h : host) :
  enclosure_fields h = ∅
  \/ exists manufacturer model : string,
       enclosure_fields h
       = <["Model" := VStr model]> {[ "Manufacturer" := VStr manufacturer ]}.
Proof.
  unfold enclosure_fields, query_computersystem.
  repeat case_match; auto; right; rewrite insert_empty; eauto.
Qed.

Lemma bios_fields_shape (h : host) :
  bios_fields h = ∅
  \/ exists serial : string, bios_fields h = {[ "Serial Number" := VStr serial ]}.
Proof.
  unfold bios_fields, query_bios.
  repeat case_match; auto; right; rewrite insert_empty; eauto.
Qed.

Lemma baseboard_fields_shape (h : host) :
  baseboard_fields h = ∅
  \/ exists manufacturer model : string,
       baseboard_fields h
       = <["Motherboard Model" := VStr model]>
           {[ "Motherboard Manufacturer" := VStr manufacturer ]}.
Proof.
  unfold baseboard_fields, query_baseboard.
  repeat case_match; auto; right; rewrite insert_empty; eauto.
Qed.

Lemma hardware_fields_union (h : host) :
  query_baseboard h (query_bios h (query_computersystem h ∅))
  = baseboard_fields h ∪ (bios_fields h ∪ enclosure_fields h).
Proof.
  rewrite query_baseboard_union, query_bios_union. reflexivity.
Qed.

Lemma hardware_fields_no_error (h : host) :
  (baseboard_fields h ∪ (bios_fields h ∪ enclosure_fields h)) !! "Error" = None.
Proof.
  rewrite !lookup_union_None.
  destruct (enclosure_fields_shape h) as [->|(? & ? & ->)];
    destruct (bios_fields_shape h) as [->|(? & ->)];
    destruct (baseboard_fields_shape h) as [->|(? & ? & ->)];
    repeat split; reflexivity.
Qed.

(** C8. The three inventory queries are independent best-effort steps:
    each yields its own fields or none, whatever the others did; the
    result holds an [Error] field exactly when all three yield nothing,
    and it is then that single field; otherwise the result is exactly the
    fields of the queries that succeeded. *)
Theorem hardware_best_effort (h : host) :
  (is_Some (get_hardware_info h !! "Error")
   <-> enclosure_fields h = ∅ /\ bios_fields h = ∅ /\ baseboard_fields h = ∅)
  /\ (get_hardware_info h = hardware_error
      <-> enclosure_fields h = ∅ /\ bios_fields h = ∅ /\ baseboard_fields h = ∅)
  /\ (~ (enclosure_fields h = ∅ /\ bios_fields h = ∅ /\ baseboard_fields h = ∅)
      -> get_hardware_info h
         = baseboard_fields h ∪ (bios_fields h ∪ enclosure_fields h))
  /\ (forall d : gmap string value,
        query_computersystem h d = enclosure_fields h ∪ d
        /\ query_bios h d = bios_fields h ∪ d
        /\ query_baseboard h d = baseboard_fields h ∪ d).
Proof.
  assert (Hempty : baseboard_fields h ∪ (bios_fields h ∪ enclosure_fields h) = ∅
                   <-> enclosure_fields h = ∅ /\ bios_fields h = ∅
                       /\ baseboard_fields h = ∅).
  { split.
    - intros Hu. pose proof (map_positive_l _ _ Hu) as Hb.
      rewrite Hb, (left_id_L ∅ (∪)) in Hu.
      pose proof (map_positive_l _ _ Hu) as Hs.
      rewrite Hs, (left_id_L ∅ (∪)) in Hu. auto.
    - intros (-> & -> & ->). rewrite !(left_id_L ∅ (∪)). reflexivity. }
  set (fields := baseboard_fields h ∪ (bios_fields h ∪ enclosure_fields h)) in *.
  assert (Hnone : fields = ∅ -> get_hardware_info h = hardware_error).
  { intros Hu. unfold get_hardware_info, dict_is_empty.
    rewrite hardware_fields_union. fold fields.
    rewrite bool_decide_eq_true_2 by exact Hu. reflexivity. }
  assert (Hsome : fields <> ∅ -> get_hardware_info h = fields).
  { intros Hu. unfold get_hardware_info, dict_is_empty.
    rewrite hardware_fields_union. fold fields.
    rewrite bool_decide_eq_false_2 by exact Hu. reflexivity. }
  assert (Hno : fields !! "Error" = None) by apply hardware_fields_no_error.
  assert (Hsteps : forall d : gmap string value,
            query_computersystem h d = enclosure_fields h ∪ d
            /\ query_bios h d = bios_fields h ∪ d
            /\ query_baseboard h d = baseboard_fields h ∪ d).
  { intros d. split; [apply query_computersystem_union|].
    split; [apply query_bios_union | apply query_baseboard_union]. }
  destruct (decide (fields = ∅)) as [Hu|Hu].
  - rewrite (Hnone Hu). split; [|split; [|split; [|exact Hsteps]]].
    + split; [intros _; apply Hempty, Hu | intros _; eexists; reflexivity].
    + split; [intros _; apply Hempty, Hu | reflexivity].
    + intros Hnot. destruct Hnot. apply Hempty, Hu.
  - rewrite (Hsome Hu). split; [|split; [|split; [|exact Hsteps]]].
    + split.
      * rewrite Hno. intros [? Hx]. discriminate Hx.
      * intros Hall. destruct Hu. apply Hempty, Hall.
    + split.
      * intros Heq. rewrite Heq in Hno. discriminate Hno.
      * intros Hall. destruct Hu. apply Hempty, Hall.
    + intros _. reflexivity.
Qed.

(** ** Office-suite probe *)

Lemma scan_subkeys_first_known (h : host) (office_path : string)
    (names : list string) (d : gmap string value) :
  scan_subkeys h office_path names d
  = match first_known names with
    | Some (token, label) => office_details h office_path token label d
    | None => d
    end.
Proof.
  induction names as [|subkey_name names IH]; cbn [scan_subkeys first_known].
  - reflexivity.
  - destruct (office_versions !! subkey_name); [reflexivity | exact IH].
Qed.

Lemma scan_office_path_match (h : host) (d : gmap string value)
    (office_path : string) :
  scan_office_path h d office_path
  = match root_match h office_path with
    | Some (token, label) => office_details h office_path token label d
    | None => d
    end.
Proof.
  unfold scan_office_path, root_match.
  destruct (OpenKey h office_path); [apply scan_subkeys_first_known | reflexivity].
Qed.

Lemma first_known_label (names : list string) (token label : string) :
  first_known names = Some (token, label) -> office_versions !! token = Some label.
Proof.
  induction names as [|subkey_name names IH]; cbn [first_known]; [discriminate|].
  destruct (office_versions !! subkey_name) eqn:Hknown; [|exact IH].
  intros [= <- <-]. exact Hknown.
Qed.

Lemma root_match_label (h : host) (office_path token label : string) :
  root_match h office_path = Some (token, label) ->
  office_versions !! token = Some label.
Proof.
  unfold root_match. destruct (OpenKey h office_path); [|discriminate].
  apply first_known_label.
Qed.

Lemma office_details_version (h : host) (office_path token label : string)
    (d : gmap string value) :
  office_details h office_path token label d !! "Version" = Some (VStr label).
Proof.
  unfold office_details.
  repeat case_match;
    rewrite ?(lookup_insert_ne _ "Detected Via"), ?(lookup_insert_ne _ "Install Path")
      by discriminate;
    apply lookup_insert_eq.
Qed.

Lemma office_details_non_empty (h : host) (office_path token label : string)
    (d : gmap string value) :
  office_details h office_path token label d <> ∅.
Proof.
  unfold office_details. repeat case_match; apply insert_non_empty.
Qed.

Lemma office_details_registry (h : host) (office_path token label : string)
    (d : gmap string value) :
  no_application_path h office_path token = true ->
  office_details h office_path token label d !! "Detected Via"
  = Some (VStr "Registry").
Proof.
  unfold no_application_path, office_details.
  repeat case_match; try discriminate; intros _; apply lookup_insert_eq.
Qed.

(** The dictionary after the registry scan, by the entries that match
    under the two roots. *)
Lemma registry_scan_cases (h : host) :
  foldl (scan_office_path h) ∅ office_paths
  = match root_match h "SOFTWARE\Wow6432Node\Microsoft\Office" with
    | Some (token, label) =>
        office_details h "SOFTWARE\Wow6432Node\Microsoft\Office" token label
          (match root_match h "SOFTWARE\Microsoft\Office" with
           | Some (token', label') =>
               office_details h "SOFTWARE\Microsoft\Office" token' label' ∅
           | None => ∅
           end)
    | None =>
        match root_match h "SOFTWARE\Microsoft\Office" with
        | Some (token', label') =>
            office_details h "SOFTWARE\Microsoft\Office" token' label' ∅
        | None => ∅
        end
    end.
Proof.
  unfold office_paths. cbn [foldl]. rewrite !scan_office_path_match.
  reflexivity.
Qed.

Lemma office_info_detected (h : host) :
  some_match h = true ->
  get_office_info h = foldl (scan_office_path h) ∅ office_paths.
Proof.
  intros Hsome. unfold get_office_info.
  assert (Hne : foldl (scan_office_path h) ∅ office_paths <> ∅).
  { rewrite registry_scan_cases. unfold some_match, office_paths in Hsome.
    cbn [existsb] in Hsome.
    destruct (root_match h "SOFTWARE\Wow6432Node\Microsoft\Office") as [[? ?]|];
      [apply office_details_non_empty|].
    destruct (root_match h "SOFTWARE\Microsoft\Office") as [[? ?]|];
      [apply office_details_non_empty | discriminate Hsome]. }
  unfold dict_is_empty. rewrite (bool_decide_eq_false_2 _ Hne).
  rewrite (bool_decide_eq_false_2 _ Hne). reflexivity.
Qed.

(** C7, as the code has it.  When some registry root yields a known version
    token and the first known token enumerated under every such root is
    [16.0], the probe reports the label [Office 2016/2019/2021/365]; when no
    versioned entry matches and neither conventional install location
    exists, the result is the single field [Status = Not detected]; when
    versioned entries match and for none of them the word-processor or the
    spreadsheet path is discoverable, [Detected Via] is [Registry]. *)
Theorem office_detection (h : host) :
  (some_match h = true ->
   every_match h (fun _ token => String.eqb token "16.0") = true ->
   get_office_info h !! "Version" = Some (VStr "Office 2016/2019/2021/365"))
  /\ (some_match h = false ->
      no_install_location h = true ->
      get_office_info h = {[ "Status" := VStr "Not detected" ]})
  /\ (some_match h = true ->
      every_match h (no_application_path h) = true ->
      get_office_info h !! "Detected Via" = Some (VStr "Registry")).
Proof.
  split; [|split].
  - intros Hsome Hall. rewrite (office_info_detected h Hsome), registry_scan_cases.
    unfold some_match, every_match, office_paths in *.
    cbn [existsb forallb] in *.
    destruct (root_match h "SOFTWARE\Wow6432Node\Microsoft\Office")
      as [[t2 l2]|] eqn:H2;
      destruct (root_match h "SOFTWARE\Microsoft\Office") as [[t1 l1]|] eqn:H1;
      try discriminate Hsome; rewrite office_details_version;
      repeat (apply andb_prop in Hall as [? Hall]);
      repeat match goal with
             | H : String.eqb _ _ = true |- _ => apply String.eqb_eq in H; subst
             end.
    + apply root_match_label in H2. vm_compute in H2. congruence.
    + apply root_match_label in H2. vm_compute in H2. congruence.
    + apply root_match_label in H1. vm_compute in H1. congruence.
  - intros Hsome Hloc. unfold get_office_info. rewrite registry_scan_cases.
    unfold some_match, office_paths in Hsome. cbn [existsb] in Hsome.
    destruct (root_match h "SOFTWARE\Wow6432Node\Microsoft\Office") as [[? ?]|];
      destruct (root_match h "SOFTWARE\Microsoft\Office") as [[? ?]|];
      try discriminate Hsome.
    unfold dict_is_empty.
    rewrite (bool_decide_eq_true_2 ((∅ : gmap string value) = ∅) eq_refl).
    unfold no_install_location in Hloc. unfold common_paths in *.
    cbn [forallb] in Hloc.
    apply andb_prop in Hloc as [Hp1 Hloc]. apply andb_prop in Hloc as [Hp2 _].
    apply negb_true_iff in Hp1, Hp2.
    cbn [scan_common_paths]. rewrite Hp1, Hp2.
    rewrite (bool_decide_eq_true_2 ((∅ : gmap string value) = ∅) eq_refl).
    apply insert_empty.
  - intros Hsome Hall. rewrite (office_info_detected h Hsome), registry_scan_cases.
    unfold some_match, every_match, office_paths in *.
    cbn [existsb forallb] in *.
    destruct (root_match h "SOFTWARE\Wow6432Node\Microsoft\Office")
      as [[t2 l2]|] eqn:H2;
      destruct (root_match h "SOFTWARE\Microsoft\Office") as [[t1 l1]|] eqn:H1;
      try discriminate Hsome;
      repeat (apply andb_prop in Hall as [? Hall]);
      apply office_details_registry; assumption.
Qed.

Lemma office_detection_witness :
  get_office_info (office_host ["Common"; "16.0"; "15.0"]) !! "Version"
  = Some (VStr "Office 2016/2019/2021/365")
  /\ get_office_info (office_host []) = {[ "Status" := VStr "Not detected" ]}
  /\ get_office_info (office_host ["Common"; "16.0"; "15.0"]) !! "Detected Via"
     = Some (VStr "Registry").
Proof.
  split; [|split].
  - apply (office_detection (office_host ["Common"; "16.0"; "15.0"]));
      vm_compute; reflexivity.
  - apply (office_detection (office_host [])); vm_compute; reflexivity.
  - apply (office_detection (office_host ["Common"; "16.0"; "15.0"]));
      vm_compute; reflexivity.
Defined.

(** C7 as stated fails: a store that contains the token [16.0] after the
    token [15.0] is reported as [Office 2013]. *)
Lemma office_first_match_wins :
  store_contains (office_host ["15.0"; "16.0"]) "16.0" = true
  /\ get_office_info (office_host ["15.0"; "16.0"]) !! "Version"
     = Some (VStr "Office 2013")
  /\ get_office_info (office_host ["15.0"; "16.0"]) !! "Version"
     <> Some (VStr "Office 2016/2019/2021/365").
Proof.
  split; [vm_compute; reflexivity|].
  split; [vm_compute; reflexivity|].
  vm_compute. discriminate.
Qed.

(** ** Process snapshot probe *)

Lemma append_infos_accepted (items : list (result proc_attrs)) :
  forall (acc ps : list proc_attrs),
    append_infos items acc = Ok ps -> ps = (acc ++ accepted items)%list.
Proof.
  induction items as [|[p|e] items IH]; intros acc ps; cbn [append_infos].
  - intros [= <-]. unfold accepted. simpl. rewrite app_nil_r. reflexivity.
  - intros Hrun. rewrite (IH _ _ Hrun), <- app_assoc. reflexivity.
  - destruct (is_skipped e); [apply IH | discriminate].
Qed.

Lemma append_infos_completes (items : list (result proc_attrs)) :
  forall acc : list proc_attrs,
    forallb (fun item => match item with Ok _ => true | Raise e => is_skipped e end)
            items = true ->
    append_infos items acc = Ok (acc ++ accepted items)%list.
Proof.
  induction items as [|[p|e] items IH]; intros acc; cbn [append_infos forallb].
  - intros _. unfold accepted. simpl. rewrite app_nil_r. reflexivity.
  - intros Hall. rewrite (IH _ Hall), <- app_assoc. reflexivity.
  - intros Hall. apply andb_prop in Hall as [-> Hall]. apply IH, Hall.
Qed.

Lemma append_infos_faults (items : list (result proc_attrs)) :
  forall acc : list proc_attrs,
    forallb (fun item => match item with Ok _ => true | Raise e => is_skipped e end)
            items = false ->
    exists e : exn, append_infos items acc = Raise e.
Proof.
  induction items as [|[p|e] items IH]; intros acc; cbn [append_infos forallb].
  - discriminate.
  - apply IH.
  - destruct (is_skipped e); [apply IH | intros _; eauto].
Qed.


(** The sort: a permutation, in non-increasing keys, and stable. *)
Lemma insert_desc_Permutation (x : proc_attrs) (l : list proc_attrs) :
  Permutation (insert_desc x l) (x :: l).
Proof.
  induction l as [|y l IH]; cbn [insert_desc]; [reflexivity|].
  destruct (Qle_bool (sort_key y) (sort_key x)); [reflexivity|].
  rewrite IH. apply perm_swap.
Qed.

Lemma sort_desc_Permutation (l : list proc_attrs) : Permutation (sort_desc l) l.
Proof.
  induction l as [|x l IH]; cbn [sort_desc foldr]; [reflexivity|].
  fold (sort_desc l). rewrite insert_desc_Permutation. apply perm_skip, IH.
Qed.

Lemma by_cpu_desc_trans (x y z : proc_attrs) :
  by_cpu_desc x y -> by_cpu_desc y z -> by_cpu_desc x z.
Proof. unfold by_cpu_desc. intros Hxy Hyz. eapply Qle_trans; eassumption. Qed.

Lemma insert_desc_sorted (x : proc_attrs) (l : list proc_attrs) :
  StronglySorted by_cpu_desc l -> StronglySorted by_cpu_desc (insert_desc x l).
Proof.
  induction 1 as [|y l Hsorted IH Hy]; cbn [insert_desc].
  - repeat constructor.
  - destruct (Qle_bool (sort_key y) (sort_key x)) eqn:Hle.
    + apply Qle_bool_iff in Hle.
      constructor; [constructor; assumption|].
      constructor; [exact Hle|].
      eapply Forall_impl; [exact Hy|].
      intros z Hz. eapply by_cpu_desc_trans; [exact Hle | exact Hz].
    + assert (Hlt : by_cpu_desc y x).
      { unfold by_cpu_desc. apply Qlt_le_weak, Qnot_le_lt.
        intros Hc. apply Qle_bool_iff in Hc. congruence. }
      constructor; [exact IH|].
      apply (Forall_forall (by_cpu_desc y)). intros z Hz.
      apply list_elem_of_In in Hz.
      apply (Permutation_in _ (insert_desc_Permutation x l)) in Hz.
      destruct Hz as [<-|Hz]; [exact Hlt|].
      rewrite Forall_forall in Hy. apply Hy, list_elem_of_In, Hz.
Qed.

Lemma sort_desc_sorted (l : list proc_attrs) :
  StronglySorted by_cpu_desc (sort_desc l).
Proof.
  induction l as [|x l IH]; cbn [sort_desc foldr]; [constructor|].
  apply insert_desc_sorted, IH.
Qed.

Lemma insert_desc_stable (c : Q) (x : proc_attrs) (l : list proc_attrs) :
  with_key c (insert_desc x l) = with_key c (x :: l).
Proof.
  unfold with_key.
  induction l as [|y l IH]; cbn [insert_desc]; [reflexivity|].
  destruct (Qle_bool (sort_key y) (sort_key x)) eqn:Hle; [reflexivity|].
  cbn [List.filter] in *. rewrite IH.
  destruct (Qeq_bool (sort_key x) c) eqn:Hx;
    destruct (Qeq_bool (sort_key y) c) eqn:Hy; try reflexivity.
  apply Qeq_bool_iff in Hx, Hy.
  assert (Hc : Qle_bool (sort_key y) (sort_key x) = true).
  { apply Qle_bool_iff. rewrite Hx, Hy. apply Qle_refl. }
  congruence.
Qed.

Lemma sort_desc_stable (c : Q) (l : list proc_attrs) :
  with_key c (sort_desc l) = with_key c l.
Proof.
  induction l as [|x l IH]; cbn [sort_desc foldr]; [reflexivity|].
  fold (sort_desc l). rewrite insert_desc_stable.
  unfold with_key in *. cbn [List.filter]. rewrite IH. reflexivity.
Qed.

(** Two lists in non-increasing keys with the same rows under every key,
    in the same order, are equal: the stable sort is unique, so
    [sort_desc] is what any stable sort returns. *)
Lemma with_key_In (c : Q) (x : proc_attrs) (l : list proc_attrs) :
  In x (with_key c l) -> In x l.
Proof. unfold with_key. intros Hin. apply List.filter_In in Hin. tauto. Qed.

Lemma with_key_head (x : proc_attrs) (l : list proc_attrs) :
  with_key (sort_key x) (x :: l) = x :: with_key (sort_key x) l.
Proof.
  unfold with_key. cbn [List.filter].
  rewrite (proj2 (Qeq_bool_iff _ _) (Qeq_refl _)). reflexivity.
Qed.

Lemma sorted_head_max (x y : proc_attrs) (l : list proc_attrs) :
  StronglySorted by_cpu_desc (x :: l) -> In y (x :: l) -> by_cpu_desc x y.
Proof.
  intros Hsorted [<-|Hin].
  - unfold by_cpu_desc. apply Qle_refl.
  - apply StronglySorted_inv in Hsorted as [_ Hall].
    rewrite List.Forall_forall in Hall. apply Hall, Hin.
Qed.

Lemma stable_sorted_unique (l1 : list proc_attrs) :
  forall l2 : list proc_attrs,
    StronglySorted by_cpu_desc l1 -> StronglySorted by_cpu_desc l2 ->
    (forall c : Q, with_key c l1 = with_key c l2) ->
    l1 = l2.
Proof.
  induction l1 as [|x l1 IH]; intros [|y l2] H1 H2 Hkeys.
  - reflexivity.
  - specialize (Hkeys (sort_key y)). rewrite with_key_head in Hkeys.
    discriminate Hkeys.
  - specialize (Hkeys (sort_key x)). rewrite with_key_head in Hkeys.
    discriminate Hkeys.
  - assert (Hyx : by_cpu_desc x y).
    { apply (sorted_head_max x y l1 H1), (with_key_In (sort_key y)).
      rewrite Hkeys, with_key_head. left. reflexivity. }
    assert (Hxy : by_cpu_desc y x).
    { apply (sorted_head_max y x l2 H2), (with_key_In (sort_key x)).
      rewrite <- Hkeys, with_key_head. left. reflexivity. }
    assert (Heq : Qeq_bool (sort_key y) (sort_key x) = true).
    { apply Qeq_bool_iff, Qle_antisym; assumption. }
    assert (Hhead : x = y).
    { pose proof (Hkeys (sort_key x)) as Hk. rewrite with_key_head in Hk.
      unfold with_key in Hk. cbn [List.filter] in Hk. rewrite Heq in Hk.
      congruence. }
    subst y. f_equal.
    apply IH.
    + apply StronglySorted_inv in H1. tauto.
    + apply StronglySorted_inv in H2. tauto.
    + intros c. specialize (Hkeys c). unfold with_key in *.
      cbn [List.filter] in Hkeys.
      destruct (Qeq_bool (sort_key x) c); congruence.
Qed.

Lemma sort_desc_unique (l sorted : list proc_attrs) :
  StronglySorted by_cpu_desc sorted ->
  (forall c : Q, with_key c sorted = with_key c l) ->
  sorted = sort_desc l.
Proof.
  intros Hsorted Hstable. apply stable_sorted_unique.
  - exact Hsorted.
  - apply sort_desc_sorted.
  - intros c. rewrite Hstable, sort_desc_stable. reflexivity.
Qed.



Lemma top_processes_completes (h : host) (limit : nat) :
  enumeration_completes h = true ->
  top_processes h limit
  = Ok (take limit (sort_desc (accepted (fst (process_iter h))))).
Proof.
  unfold enumeration_completes, top_processes. intros Hok.
  apply andb_prop in Hok as [Hitems Hiter].
  rewrite (append_infos_completes _ [] Hitems). cbn [mbind result_bind app].
  destruct (snd (process_iter h)); [discriminate Hiter | reflexivity].
Qed.

Lemma top_processes_faults (h : host) (limit : nat) :
  enumeration_completes h = false ->
  exists e : exn, top_processes h limit = Raise e.
Proof.
  unfold enumeration_completes, top_processes. intros Hfail.
  apply andb_false_iff in Hfail as [Hitems|Hiter].
  - destruct (append_infos_faults _ [] Hitems) as [e ->]. eauto.
  - destruct (append_infos (fst (process_iter h)) []) as [ps|e];
      cbn [mbind result_bind]; [|eauto].
    destruct (snd (process_iter h)); [eauto | discriminate Hiter].
Qed.

(** The key of the sort is the CPU percent of the claim. *)
Lemma sort_key_reading (x : proc_attrs) : (sort_key x == cpu_reading x)%Q.
Proof.
  unfold sort_key, cpu_reading. destruct (cpu_percent x) as [c|]; [|reflexivity].
  destruct (Qeq_bool c (inject_Z 0)) eqn:Hzero; [|reflexivity].
  apply Qeq_bool_iff in Hzero. symmetry. exact Hzero.
Qed.

Lemma by_cpu_desc_reading (x y : proc_attrs) :
  by_cpu_desc x y <-> by_reading_desc x y.
Proof.
  unfold by_cpu_desc, by_reading_desc. rewrite !sort_key_reading. reflexivity.
Qed.



Lemma row_reading_info (p : proc_attrs) : row_reading (info p) = cpu_reading p.
Proof.
  unfold row_reading, cpu_reading, info, list_to_map. cbn [foldr fst snd].
  rewrite !lookup_insert_ne by discriminate. rewrite lookup_insert_eq.
  destruct (cpu_percent p); reflexivity.
Qed.




(** ** The aggregate report *)

Lemma collect_report (h : host) (system_info : gmap string value) :
  get_system_info h = Ok system_info ->
  exists report : gmap string value,
    collect h = Ok report
    /\ report !! "processes"
       = Some (VList (VDict <$> get_running_processes h 20))
    /\ Forall (fun k => exists d : gmap string value, report !! k = Some (VDict d))
         mapping_keys
    /\ (forall k : string, is_Some (report !! k) <-> In k report_keys).
Proof.
  intros Hsys. unfold collect. rewrite Hsys. cbn [mbind result_bind].
  eexists. split; [reflexivity|].
  split; [lookup_display|].
  split.
  { unfold mapping_keys.
    repeat (apply List.Forall_cons; [eexists; lookup_display|]).
    apply List.Forall_nil. }
  intros k. unfold list_to_map. cbn [foldr fst snd].
  rewrite <- elem_of_dom, !dom_insert_L, dom_empty_L.
  rewrite !elem_of_union, !elem_of_singleton, elem_of_empty.
  unfold report_keys, mapping_keys. cbn [app In].
  split; intros Hk; decompose [or] Hk; subst; tauto.
Qed.

(** C10. When the enumeration of processes fails as a whole, the probe
    returns a list of one row, the single field [Error]; and in every
    report the [processes] entry is the list of rows of the probe, while
    each of the other eight entries is a dictionary. *)
Theorem process_failure_row (h : host) :
  (enumeration_completes h = false ->
   get_running_processes h 20 = [process_error])
  /\ (forall report : gmap string value,
        collect h = Ok report ->
        report !! "processes"
        = Some (VList (VDict <$> get_running_processes h 20))
        /\ Forall (fun k => exists d : gmap string value,
                     report !! k = Some (VDict d))
             mapping_keys).
Proof.
  split.
  - intros Hfail. unfold get_running_processes.
    destruct (top_processes_faults h 20 Hfail) as [e ->]. reflexivity.
  - intros report Hreport.
    destruct (get_system_info h) as [system_info|e] eqn:Hsys.
    + destruct (collect_report h system_info Hsys)
        as (report' & Hcollect & Hproc & Hmaps & _).
      rewrite Hcollect in Hreport. injection Hreport as <-. auto.
    + unfold collect in Hreport. rewrite Hsys in Hreport. discriminate Hreport.
Qed.

Lemma process_failure_row_witness :
  get_running_processes
    (process_host (sample_processes, Some (Exn OSError "enumeration failed"))) 20
  = [process_error].
Proof.
  apply (process_failure_row
           (process_host (sample_processes, Some (Exn OSError "enumeration failed")))).
  reflexivity.
Defined.

(** C1 fails on the identity probe: [get_system_info] has no [try], so a
    host name that does not resolve raises out of the probe and out of the
    aggregation, and no report is returned.  The other eight probes return a
    dictionary or a list on every machine, so a report is returned, with
    its nine keys, whenever the identity probe returns. *)
Theorem collect_raises_on_hostname_failure :
  get_system_info unresolved_host = Raise gai_error
  /\ collect unresolved_host = Raise gai_error
  /\ (forall (h : host) (e : exn),
        get_system_info h = Raise e -> collect h = Raise e)
  /\ (forall (h : host) (system_info : gmap string value),
        get_system_info h = Ok system_info ->
        exists report : gmap string value,
          collect h = Ok report
          /\ (forall k : string, is_Some (report !! k) <-> In k report_keys)).
Proof.
  split; [reflexivity|]. split; [reflexivity|]. split.
  - intros h e Hsys. unfold collect. rewrite Hsys. reflexivity.
  - intros h system_info Hsys.
    destruct (collect_report h system_info Hsys) as (report & Hc & _ & _ & Hk).
    eauto.
Qed.

(** ** Size fields of the memory and disk probes *)

Lemma round_half_even_near (a b : Z) :
  0 < b -> 2 * Z.abs (a - b * round_half_even a b) <= b.
Proof.
  intros Hb. unfold round_half_even. cbv zeta.
  pose proof (Z.div_mod a b ltac:(lia)) as Hdm.
  pose proof (Z.mod_pos_bound a b Hb) as Hr.
  set (q := a / b) in *. set (r := a mod b) in *. clearbody q r. subst a.
  destruct (Z.compare_spec (2 * r) b) as [Hcmp|Hcmp|Hcmp];
    try destruct (Z.even q);
    match goal with
    | |- context [b * q + r - b * (q + 1)] =>
        replace (b * q + r - b * (q + 1)) with (r - b) by ring
    | |- context [b * q + r - b * q] =>
        replace (b * q + r - b * q) with r by ring
    end; lia.
Qed.

Lemma round_half_even_nonneg (a b : Z) :
  0 <= a -> 0 < b -> 0 <= round_half_even a b.
Proof.
  intros Ha Hb. unfold round_half_even. cbv zeta.
  pose proof (Z.div_pos a b Ha Hb) as Hq.
  destruct (Z.compare_spec (2 * (a mod b)) b); try destruct (Z.even (a / b)); lia.
Qed.

Lemma round_half_even_exact (q b : Z) :
  0 < b -> round_half_even (q * b) b = q.
Proof.
  intros Hb. unfold round_half_even. cbv zeta.
  rewrite Z.div_mul, Z.mod_mul by lia.
  destruct (Z.compare_spec (2 * 0) b); [lia | reflexivity | lia].
Qed.

Lemma round_half_even_scale (a b c : Z) :
  0 < b -> 0 < c -> round_half_even (a * c) (b * c) = round_half_even a b.
Proof.
  intros Hb Hc. unfold round_half_even. cbv zeta.
  rewrite Z.div_mul_cancel_r, Z.mul_mod_distr_r by lia.
  replace (2 * (a mod b * c) ?= b * c) with (2 * (a mod b) ?= b); [reflexivity|].
  rewrite Z.mul_assoc. apply Zmult_compare_compat_r. lia.
Qed.

(** Decimal digits. *)
Lemma digit_char_decimal (d : Z) :
  0 <= d < 10 ->
  decimal_digit (digit_char d)
  /\ Z.of_nat (nat_of_ascii (digit_char d)) - 48 = d.
Proof.
  intros Hd.
  assert (Hnat : forall n : nat, (n < 10)%nat ->
            decimal_digit (digit_char (Z.of_nat n))
            /\ Z.of_nat (nat_of_ascii (digit_char (Z.of_nat n))) - 48 = Z.of_nat n).
  { intros n Hn. do 10 (destruct n as [|n]; [vm_compute; split; [lia|reflexivity]|]).
    lia. }
  rewrite <- (Z2Nat.id d) by lia. apply Hnat. lia.
Qed.

Lemma digits_aux_decimal (fuel : nat) :
  forall (n : Z) (acc : list ascii),
    0 <= n < 10 ^ Z.of_nat (S fuel) ->
    exists ds : list ascii,
      digits_aux 10 fuel n acc = (ds ++ acc)%list
      /\ ds <> [] /\ Forall decimal_digit ds /\ digits_read ds = n.
Proof.
  induction fuel as [|fuel IH]; intros n acc Hn.
  - change (10 ^ Z.of_nat 1) with 10 in Hn.
    destruct (digit_char_decimal n Hn) as [Hdig Hval].
    exists [digit_char (n mod 10)]. cbn [digits_aux].
    rewrite Z.mod_small by lia.
    split; [reflexivity|]. split; [discriminate|].
    split; [constructor; [exact Hdig | constructor]|].
    unfold digits_read. simpl. lia.
  - cbn [digits_aux].
    destruct (Z.eqb_spec (n / 10) 0) as [Hq|Hq].
    + assert (Hsmall : 0 <= n < 10).
      { pose proof (Z.div_mod n 10 ltac:(lia)).
        pose proof (Z.mod_pos_bound n 10 ltac:(lia)). lia. }
      destruct (digit_char_decimal n Hsmall) as [Hdig Hval].
      exists [digit_char (n mod 10)]. rewrite Z.mod_small by lia.
      split; [reflexivity|]. split; [discriminate|].
      split; [constructor; [exact Hdig | constructor]|].
      unfold digits_read. simpl. lia.
    + assert (Hdiv : 0 <= n / 10 < 10 ^ Z.of_nat (S fuel)).
      { split; [apply Z.div_pos; lia|].
        apply Z.div_lt_upper_bound; [lia|].
        rewrite <- Z.pow_succ_r by lia. rewrite <- Nat2Z.inj_succ. lia. }
      destruct (IH (n / 10) (digit_char (n mod 10) :: acc) Hdiv)
        as (ds & Hrun & Hne & Hall & Hval).
      pose proof (Z.mod_pos_bound n 10 ltac:(lia)) as Hr.
      destruct (digit_char_decimal (n mod 10) Hr) as [Hdig Hlast].
      exists (ds ++ [digit_char (n mod 10)])%list.
      rewrite Hrun, <- app_assoc. split; [reflexivity|].
      split; [destruct ds; discriminate|].
      split; [apply Forall_app; split;
              [exact Hall | constructor; [exact Hdig | constructor]]|].
      unfold digits_read in *. rewrite fold_left_app. cbn [fold_left].
      rewrite Hval, Hlast. pose proof (Z.div_mod n 10 ltac:(lia)). lia.
Qed.

Lemma list_ascii_of_string_of_list (cs : list ascii) :
  list_ascii_of_string (string_of_list_ascii cs) = cs.
Proof. apply list_ascii_of_string_of_list_ascii. Qed.

(** [digits 10] prints a number that reads back as itself. *)
Lemma digits_decimal (n : Z) :
  0 <= n -> decimal_string (digits 10 n) /\ decimal_value (digits 10 n) = n.
Proof.
  intros Hn. unfold digits.
  assert (Hfuel : 0 <= n < 10 ^ Z.of_nat (S (Z.to_nat (Z.log2 n)))).
  { split; [exact Hn|].
    rewrite Nat2Z.inj_succ, Z2Nat.id by apply Z.log2_nonneg.
    destruct (Z.eq_dec n 0) as [->|Hpos]; [reflexivity|].
    pose proof (Z.log2_spec n ltac:(lia)) as [_ Hup].
    eapply Z.lt_le_trans; [exact Hup|].
    apply Z.pow_le_mono_l. pose proof (Z.log2_nonneg n). lia. }
  destruct (digits_aux_decimal _ n [] Hfuel) as (ds & Hrun & Hne & Hall & Hval).
  rewrite Hrun, app_nil_r. unfold decimal_string, decimal_value.
  rewrite list_ascii_of_string_of_list.
  repeat split; try assumption.
  destruct ds; [contradiction | discriminate].
Qed.

Lemma decimal_string_check (s : string) :
  negb (String.eqb s EmptyString)
  && forallb (fun c => (48 <=? nat_of_ascii c)%nat && (nat_of_ascii c <=? 57)%nat)
             (list_ascii_of_string s) = true ->
  decimal_string s.
Proof.
  intros Hcheck. apply andb_prop in Hcheck as [Hne Hall]. split.
  - intros ->. discriminate Hne.
  - apply List.Forall_forall. intros c Hc.
    rewrite forallb_forall in Hall. specialize (Hall c Hc).
    apply andb_prop in Hall as [Hlo Hhi].
    apply Nat.leb_le in Hlo, Hhi. split; assumption.
Qed.

(** Below 100, the padded print is two digits that read back. *)
Lemma two_decimals (m : Z) :
  0 <= m < 100 ->
  String.length (zero_pad 2 (digits 10 m)) = 2%nat
  /\ decimal_string (zero_pad 2 (digits 10 m))
  /\ decimal_value (zero_pad 2 (digits 10 m)) = m.
Proof.
  intros Hm.
  assert (Hall : forallb
            (fun n =>
               let s := zero_pad 2 (digits 10 (Z.of_nat n)) in
               (String.length s =? 2)%nat
               && (negb (String.eqb s EmptyString)
                   && forallb (fun c => (48 <=? nat_of_ascii c)%nat
                                        && (nat_of_ascii c <=? 57)%nat)
                              (list_ascii_of_string s))
               && (decimal_value s =? Z.of_nat n))
            (seq 0 100) = true) by (vm_compute; reflexivity).
  rewrite forallb_forall in Hall. specialize (Hall (Z.to_nat m)).
  rewrite Z2Nat.id in Hall by lia. cbv zeta in Hall.
  assert (Hin : In (Z.to_nat m) (seq 0 100)) by (apply in_seq; lia).
  apply Hall in Hin. apply andb_prop in Hin as [Hin Hval].
  apply andb_prop in Hin as [Hlen Hdec].
  split; [apply Nat.eqb_eq, Hlen|].
  split; [apply decimal_string_check, Hdec | apply Z.eqb_eq, Hval].
Qed.

(** [format_2f] on a non-negative fraction, by its hundredths. *)
Lemma format_2f_hundredths (m den : Z) :
  0 <= m -> 0 < den ->
  format_2f (Qmake m (Z.to_pos den))
  = digits 10 (round_half_even (100 * m) den / 100) ++ "."
    ++ zero_pad 2 (digits 10 (round_half_even (100 * m) den mod 100)).
Proof.
  intros Hm Hden. unfold format_2f. cbn [Qnum Qden].
  rewrite Z2Pos.id, Z.abs_eq by lia.
  rewrite (proj2 (Z.ltb_ge m 0)) by lia. reflexivity.
Qed.

(** Division of a 64-bit count by [2^30]: a 53-bit significand at the
    exponent [log2 n - 82]. *)
Lemma true_div_gib (n : Z) :
  0 < n < 2 ^ 64 ->
  true_div n (2 ^ 30)
  = Ok (Qmake (round_half_even (n * 2 ^ (82 - Z.log2 n)) (2 ^ 30))
          (Z.to_pos (2 ^ (82 - Z.log2 n)))).
Proof.
  intros Hn.
  pose proof (Z.log2_spec n ltac:(lia)) as [Hlo Hhi].
  pose proof (Z.log2_nonneg n) as Hnn.
  assert (Hla : Z.log2 n < 64) by (apply Z.log2_lt_pow2; lia).
  unfold true_div. cbv zeta.
  rewrite (proj2 (Z.eqb_neq n 0)) by lia.
  rewrite Z.log2_pow2 by lia.
  set (la := Z.log2 n) in *.
  assert (Habove : (if 0 <=? la - 30
                    then 2 ^ 30 * 2 ^ (la - 30) <=? n
                    else 2 ^ 30 <=? n * 2 ^ (- (la - 30))) = true).
  { destruct (Z.leb_spec 0 (la - 30)) as [Hd|Hd]; apply Z.leb_le.
    - rewrite <- Z.pow_add_r by lia.
      replace (30 + (la - 30)) with la by lia. exact Hlo.
    - replace (2 ^ 30) with (2 ^ la * 2 ^ (- (la - 30))).
      + apply Z.mul_le_mono_nonneg_r; [apply Z.pow_nonneg; lia | exact Hlo].
      + rewrite <- Z.pow_add_r by lia. f_equal. lia. }
  rewrite Habove, Z.max_l by lia.
  unfold scaled_quotient, dyadic.
  rewrite (proj2 (Z.leb_gt 0 (la - 30 - 52))) by lia.
  replace (- (la - 30 - 52)) with (82 - la) by lia.
  rewrite (Z.pow_neg_r 2 (la - 30 - 52)) by lia. rewrite Z.mul_0_r.
  assert (Hbig : 0 < 2 ^ 1024) by (apply Z.pow_pos_nonneg; lia).
  rewrite (proj2 (Z.leb_gt (2 ^ 1024) 0) Hbig). reflexivity.
Qed.

Lemma str_app_assoc (s1 s2 s3 : string) : (s1 ++ s2) ++ s3 = s1 ++ s2 ++ s3.
Proof.
  induction s1 as [|c s1 IH]; [reflexivity|].
  change (String c ((s1 ++ s2) ++ s3) = String c (s1 ++ s2 ++ s3)).
  f_equal. exact IH.
Qed.

Lemma gb_field_render (n : Z) :
  byte_count n ->
  gb_field n
  = Ok (digits 10 (gb_hundredths n / 100) ++ "."
        ++ zero_pad 2 (digits 10 (gb_hundredths n mod 100)) ++ " GB").
Proof.
  unfold byte_count. intros Hn. unfold gb_field.
  change (1024 ^ 3) with (2 ^ 30).
  destruct (Z.eq_dec n 0) as [->|Hpos].
  - reflexivity.
  - rewrite true_div_gib by lia. cbn [mbind result_bind].
    pose proof (Z.log2_nonneg n) as Hnn.
    assert (Hla : Z.log2 n < 64) by (apply Z.log2_lt_pow2; lia).
    rewrite format_2f_hundredths.
    + rewrite !str_app_assoc. reflexivity.
    + apply round_half_even_nonneg; [|apply Z.pow_pos_nonneg; lia].
      apply Z.mul_nonneg_nonneg; [lia | apply Z.pow_nonneg; lia].
    + apply Z.pow_pos_nonneg; lia.
Qed.

Lemma gb_hundredths_nonneg (n : Z) : byte_count n -> 0 <= gb_hundredths n.
Proof.
  unfold byte_count. intros Hn. unfold gb_hundredths.
  pose proof (Z.log2_nonneg n) as Hnn.
  assert (Hla : Z.log2 n < 64).
  { destruct (Z.eq_dec n 0) as [->|Hpos]; [reflexivity|].
    apply Z.log2_lt_pow2; lia. }
  apply round_half_even_nonneg; [|apply Z.pow_pos_nonneg; lia].
  apply Z.mul_nonneg_nonneg; [lia|].
  apply round_half_even_nonneg; [|apply Z.pow_pos_nonneg; lia].
  apply Z.mul_nonneg_nonneg; [lia | apply Z.pow_nonneg; lia].
Qed.

(** Below [2^53] the quotient is exact, and the hundredths are those of
    the quotient itself. *)
Lemma gb_hundredths_exact (n : Z) :
  0 <= n < 2 ^ 53 -> gb_hundredths n = round_half_even (100 * n) (2 ^ 30).
Proof.
  intros Hn. unfold gb_hundredths.
  destruct (Z.eq_dec n 0) as [->|Hpos]; [reflexivity|].
  pose proof (Z.log2_nonneg n) as Hnn.
  assert (Hla : Z.log2 n < 53) by (apply Z.log2_lt_pow2; lia).
  set (la := Z.log2 n) in *.
  replace (82 - la) with ((52 - la) + 30) by lia.
  rewrite Z.pow_add_r by lia.
  assert (Hp : 0 < 2 ^ (52 - la)) by (apply Z.pow_pos_nonneg; lia).
  assert (Hg : 0 < 2 ^ 30) by (apply Z.pow_pos_nonneg; lia).
  rewrite Z.mul_assoc, round_half_even_exact by exact Hg.
  rewrite (Z.mul_comm (2 ^ (52 - la)) (2 ^ 30)), Z.mul_assoc.
  apply round_half_even_scale; assumption.
Qed.

(** Up to [2^64] the hundredths stay within the rounding of the
    significand of the nearest hundredth. *)
Lemma gb_hundredths_near (n : Z) :
  0 <= n < 2 ^ 64 ->
  Z.abs (100 * n - gb_hundredths n * 2 ^ 30) <= 2 ^ 29 + 100 * 2 ^ 10.
Proof.
  intros Hn. unfold gb_hundredths.
  pose proof (Z.log2_nonneg n) as Hnn.
  assert (Hla : Z.log2 n < 64).
  { destruct (Z.eq_dec n 0) as [->|Hpos]; [reflexivity|].
    apply Z.log2_lt_pow2; lia. }
  set (la := Z.log2 n) in *.
  set (K := 2 ^ (82 - la)).
  assert (HK : 2 ^ 19 <= K) by (apply Z.pow_le_mono_r; lia).
  set (m := round_half_even (n * K) (2 ^ 30)).
  set (h := round_half_even (100 * m) K).
  assert (Hg : 0 < 2 ^ 30) by (apply Z.pow_pos_nonneg; lia).
  pose proof (round_half_even_near (n * K) (2 ^ 30) Hg) as Hm. fold m in Hm.
  assert (HKpos : 0 < K) by lia.
  pose proof (round_half_even_near (100 * m) K HKpos) as Hh. fold h in Hh.
  change (2 ^ 30) with 1073741824 in *. change (2 ^ 29) with 536870912.
  change (2 ^ 19) with 524288 in HK. change (2 ^ 10) with 1024.
  assert (Hscaled : Z.abs (100 * n - h * 1073741824) * K
                    <= (536870912 + 100 * 1024) * K).
  { rewrite <- (Z.abs_eq K) at 1 by lia. rewrite <- Z.abs_mul.
    replace ((100 * n - h * 1073741824) * K)
      with (100 * (n * K - 1073741824 * m) + 1073741824 * (100 * m - K * h))
      by ring.
    eapply Z.le_trans; [apply Z.abs_triangle|].
    rewrite !Z.abs_mul. rewrite (Z.abs_eq 100), (Z.abs_eq 1073741824) by lia.
    lia. }
  apply Z.mul_le_mono_pos_r in Hscaled; [exact Hscaled | exact HKpos].
Qed.

Lemma memory_size_fields (h : host) (vm : svmem) (sw : sswap) :
  virtual_memory h = Ok vm -> swap_memory h = Ok sw ->
  byte_count (vm_total vm) -> byte_count (vm_available vm) ->
  byte_count (vm_used vm) -> byte_count (sw_total sw) -> byte_count (sw_used sw) ->
  renders_gb (get_memory_info h) "Total RAM" (vm_total vm)
  /\ renders_gb (get_memory_info h) "Available RAM" (vm_available vm)
  /\ renders_gb (get_memory_info h) "Used RAM" (vm_used vm)
  /\ renders_gb (get_memory_info h) "Total Swap" (sw_total sw)
  /\ renders_gb (get_memory_info h) "Used Swap" (sw_used sw).
Proof.
  intros Hvm Hsw H1 H2 H3 H4 H5.
  unfold renders_gb, get_memory_info. rewrite Hvm, Hsw.
  cbn [mbind result_bind].
  rewrite (gb_field_render _ H1), (gb_field_render _ H2), (gb_field_render _ H3),
    (gb_field_render _ H4), (gb_field_render _ H5).
  cbn [mbind result_bind].
  repeat split; (eexists; split; [reflexivity | lookup_display]).
Qed.

Lemma partition_size_fields (partition : sdiskpart) (usage : sdiskusage) :
  byte_count (du_total usage) -> byte_count (du_used usage) ->
  byte_count (du_free usage) ->
  exists entry : gmap string value,
    partition_entry partition usage = Ok entry
    /\ renders_gb entry "Total Size" (du_total usage)
    /\ renders_gb entry "Used" (du_used usage)
    /\ renders_gb entry "Free" (du_free usage).
Proof.
  intros H1 H2 H3. unfold renders_gb, partition_entry.
  rewrite (gb_field_render _ H1), (gb_field_render _ H2), (gb_field_render _ H3).
  cbn [mbind result_bind].
  eexists. split; [reflexivity|].
  repeat split; (eexists; split; [reflexivity | lookup_display]).
Qed.

(** ** The probes on the sample machines *)

Example decode_sample_blob :
  decode_product_key sample_blob = Some "QWXBH-CHKC2-DX8TT-6H32P-2YMBC".
Proof. vm_compute. reflexivity. Qed.

Example remainders_sample_window :
  pass_remainders 25 (map byte_to_Z sample_window)
  = Some [1; 0; 8; 16; 17; 9; 17; 18; 5; 20; 12; 12; 22; 15; 2; 17; 1; 7; 5;
          1; 5; 0; 15; 14; 10].
Proof. vm_compute. reflexivity. Qed.

Example short_blob_gives_no_key :
  decode_product_key (take 66 sample_blob) = None.
Proof. vm_compute. reflexivity. Qed.

Example mac_address_sample : mac_address 1250999896491 = "01:23:45:67:89:ab".
Proof. vm_compute. reflexivity. Qed.

Example gb_field_ties_to_even :
  gb_field (2 ^ 27) = Ok "0.12 GB" /\ gb_field (3 * 2 ^ 27) = Ok "0.38 GB".
Proof. split; vm_compute; reflexivity. Qed.

Example hardware_partial_success :
  get_hardware_info inventory_host
  = <["Serial Number" := VStr "PF2ABCDE"]>
      (<["Model" := VStr "20QD ThinkPad X1"]>
         {[ "Manufacturer" := VStr "LENOVO" ]})
  /\ baseboard_fields inventory_host = ∅.
Proof. split; vm_compute; reflexivity. Qed.

Example hardware_no_utility :
  get_hardware_info (office_host []) = hardware_error.
Proof. vm_compute. reflexivity. Qed.

Example processes_sample_order :
  pid <$> accepted sample_processes = [4; 312; 640; 702]
  /\ (fun row => row !! "pid")
       <$> get_running_processes (process_host (sample_processes, None)) 20
     = [Some (VInt 640); Some (VInt 4); Some (VInt 702); Some (VInt 312)].
Proof. split; vm_compute; reflexivity. Qed.

Example report_keys_sample :
  match collect inventory_host with
  | Ok report => dom report = list_to_set report_keys
  | Raise _ => False
  end.
Proof. vm_compute. reflexivity. Qed.

(** ** The renderer and [main] *)

Lemma all_entries_true (test : string -> value -> bool) (d : gmap string value) :
  all_entries test d = true <-> map_Forall (fun k v => test k v = true) d.
Proof. apply bool_decide_eq_true. Qed.

(** The disk probe returns its error or a dictionary of dictionaries. *)
Lemma add_partition_dicts (h : host) (d : gmap string value) (p : sdiskpart) :
  map_Forall (fun _ v => is_dict v = true) d ->
  map_Forall (fun _ v => is_dict v = true) (add_partition h d p).
Proof.
  intros Hd. unfold add_partition. case_match; [|exact Hd].
  apply map_Forall_insert_2; [reflexivity | exact Hd].
Qed.

Lemma partitions_dicts (h : host) (partitions : list sdiskpart) :
  forall d : gmap string value,
    map_Forall (fun _ v => is_dict v = true) d ->
    map_Forall (fun _ v => is_dict v = true) (foldl (add_partition h) d partitions).
Proof.
  induction partitions as [|p partitions IH]; intros d Hd; cbn [foldl].
  - exact Hd.
  - apply IH, add_partition_dicts, Hd.
Qed.

Lemma disk_info_cases (h : host) :
  get_disk_info h = disk_error
  \/ map_Forall (fun _ v => is_dict v = true) (get_disk_info h).
Proof.
  unfold get_disk_info. cbv zeta.
  destruct (disk_partitions h) as [partitions|e]; cbn [mbind result_bind];
    [|left; reflexivity].
  destruct (disk_io_counters h) as [[disk_io|]|e]; cbn [mbind result_bind].
  - destruct (io_statistics disk_io) as [stats|e]; cbn [mbind result_bind];
      [right | left; reflexivity].
    apply map_Forall_insert_2; [reflexivity|].
    apply partitions_dicts, map_Forall_empty.
  - right. apply partitions_dicts, map_Forall_empty.
  - left. reflexivity.
Qed.

Lemma disk_section_dicts (data d : gmap string value) :
  data !! "disk_info" = Some (VDict d) ->
  map_Forall (fun _ v => is_dict v = true) d ->
  disk_section data = true.
Proof.
  intros Hdata Hd. unfold disk_section. rewrite Hdata.
  apply andb_true_intro. split.
  - apply all_entries_true. intros disk info Hin.
    destruct (String.eqb disk "IO Statistics"); [reflexivity|].
    exact (Hd disk info Hin).
  - destruct (d !! "IO Statistics") as [io|] eqn:Hio; [|reflexivity].
    exact (Hd _ _ Hio).
Qed.

Lemma disk_section_error (data : gmap string value) :
  data !! "disk_info" = Some (VDict disk_error) -> disk_section data = false.
Proof.
  intros Hdata. unfold disk_section. rewrite Hdata.
  apply andb_false_intro1. apply bool_decide_eq_false. intros Hall.
  specialize (Hall "Error" _ (lookup_singleton_eq _ _)). discriminate Hall.
Qed.

(** The network probe returns its error or tables the template can lay
    out, unless an interface bears the name of the I/O entry. *)
Lemma address_lines_joinable (addrs : list snicaddr) :
  forallb is_str (map (fun addr => VStr (address_line addr)) addrs) = true.
Proof. induction addrs as [|addr addrs IH]; [reflexivity | exact IH]. Qed.

Lemma interface_entry_table (stats : gmap string snicstats) (interface : string)
    (addrs : list snicaddr) :
  interface_table (VDict (interface_entry stats interface addrs)) = true.
Proof.
  unfold interface_table, interface_entry, list_to_map. cbn [foldr fst snd].
  rewrite lookup_insert_eq. apply address_lines_joinable.
Qed.

Lemma interfaces_tables (stats : gmap string snicstats)
    (addresses : list (string * list snicaddr)) :
  forall d : gmap string value,
    forallb (fun '(interface, _) => negb (String.eqb interface "IO Statistics"))
            addresses = true ->
    map_Forall (fun _ v => interface_table v = true) d ->
    d !! "IO Statistics" = None ->
    let d' := foldl (fun network_info '(interface, addrs) =>
                       <[interface := VDict (interface_entry stats interface addrs)]>
                         network_info)
                    d addresses in
    map_Forall (fun _ v => interface_table v = true) d'
    /\ d' !! "IO Statistics" = None.
Proof.
  induction addresses as [|[interface addrs] addresses IH];
    intros d Hplain Hd Hio; cbn [foldl]; [split; assumption|].
  cbn [forallb] in Hplain. apply andb_prop in Hplain as [Hname Hplain].
  apply negb_true_iff, String.eqb_neq in Hname.
  apply IH; [exact Hplain | |].
  - apply map_Forall_insert_2; [apply interface_entry_table | exact Hd].
  - rewrite lookup_insert_ne by exact Hname. exact Hio.
Qed.

Lemma interface_io_row (io : snetio) (entry : gmap string value) :
  interface_io io = Ok entry -> io_row (VDict entry) = true.
Proof.
  unfold interface_io.
  destruct (mb_field (bytes_sent io)) as [sent|e]; [|discriminate].
  destruct (mb_field (bytes_recv io)) as [received|e]; [|discriminate].
  cbn [mbind result_bind]. intros [= <-]. reflexivity.
Qed.

Lemma add_interface_io_rows (io_counters : list (string * snetio)) :
  forall acc d : gmap string value,
    add_interface_io io_counters acc = Ok d ->
    map_Forall (fun _ io => io_row io = true) acc ->
    map_Forall (fun _ io => io_row io = true) d.
Proof.
  induction io_counters as [|[interface io] io_counters IH]; intros acc d;
    cbn [add_interface_io].
  - intros [= <-] Hacc. exact Hacc.
  - destruct (interface_io io) as [entry|e] eqn:Hentry; [|discriminate].
    cbn [mbind result_bind]. intros Hrun Hacc.
    apply (IH _ _ Hrun). apply map_Forall_insert_2; [|exact Hacc].
    apply (interface_io_row io), Hentry.
Qed.

Lemma network_section_tables (data d : gmap string value) :
  data !! "network_info" = Some (VDict d) ->
  map_Forall (fun k v => k <> "IO Statistics" -> interface_table v = true) d ->
  match d !! "IO Statistics" with
  | Some (VDict io_statistics) =>
      map_Forall (fun _ io => io_row io = true) io_statistics
  | Some _ => False
  | None => True
  end ->
  network_section data = true.
Proof.
  intros Hdata Htables Hio. unfold network_section. rewrite Hdata.
  apply andb_true_intro. split.
  - apply all_entries_true. intros interface info Hin.
    destruct (String.eqb_spec interface "IO Statistics") as [_|Hne];
      [reflexivity|].
    exact (Htables interface info Hin Hne).
  - destruct (d !! "IO Statistics") as [[]|]; try contradiction;
      [apply all_entries_true; exact Hio | reflexivity].
Qed.

Lemma network_info_cases (h : host) (data : gmap string value) :
  plain_interfaces h = true ->
  data !! "network_info" = Some (VDict (get_network_info h)) ->
  get_network_info h = network_error \/ network_section data = true.
Proof.
  unfold plain_interfaces, get_network_info. cbv zeta.
  destruct (net_if_addrs h) as [addresses|e]; cbn [mbind result_bind];
    [|left; reflexivity].
  destruct (net_if_stats h) as [stats|e]; cbn [mbind result_bind];
    [|left; reflexivity].
  destruct (net_io_counters h) as [io_counters|e]; cbn [mbind result_bind];
    [|left; reflexivity].
  intros Hplain.
  destruct (interfaces_tables stats addresses ∅ Hplain (map_Forall_empty _)
              (lookup_empty _)) as [Htables Hnone].
  cbv zeta in Htables, Hnone.
  set (network_info := foldl _ ∅ addresses) in *.
  destruct io_counters as [|counter io_counters].
  - intros Hdata. right. apply (network_section_tables data _ Hdata).
    + intros k v Hin _. exact (Htables k v Hin).
    + rewrite Hnone. exact I.
  - destruct (add_interface_io (counter :: io_counters) ∅) as [io_statistics|e]
      eqn:Hio; cbn [mbind result_bind]; [|left; reflexivity].
    intros Hdata. right. apply (network_section_tables data _ Hdata).
    + intros k v Hin Hne. rewrite lookup_insert_ne in Hin by congruence.
      exact (Htables k v Hin).
    + rewrite lookup_insert_eq.
      apply (add_interface_io_rows _ _ _ Hio), map_Forall_empty.
Qed.

Lemma network_section_error (data : gmap string value) :
  data !! "network_info" = Some (VDict network_error) ->
  network_section data = false.
Proof.
  intros Hdata. unfold network_section. rewrite Hdata.
  apply andb_false_intro1. apply bool_decide_eq_false. intros Hall.
  specialize (Hall "Error" _ (lookup_singleton_eq _ _)). discriminate Hall.
Qed.

(** The Windows table never faults: the one key that holds [Key] holds a
    string. *)
Lemma windows_section_collected (h : host) (data : gmap string value) :
  data !! "windows_info" = Some (VDict (get_windows_info h)) ->
  windows_section data = true.
Proof.
  intros Hdata. unfold windows_section. rewrite Hdata.
  apply all_entries_true. unfold get_windows_info.
  destruct (platform_win32_ver h) as [[[[release version] csd] ptype]|e].
  - unfold list_to_map. cbn [foldr fst snd].
    repeat (apply map_Forall_insert_2; [reflexivity|]).
    apply map_Forall_empty.
  - apply map_Forall_singleton. reflexivity.
Qed.

Lemma collect_entries (h : host) (report : gmap string value) :
  collect h = Ok report ->
  (exists system_info : gmap string value,
      report !! "system_info" = Some (VDict system_info))
  /\ report !! "hardware_info" = Some (VDict (get_hardware_info h))
  /\ report !! "windows_info" = Some (VDict (get_windows_info h))
  /\ report !! "office_info" = Some (VDict (get_office_info h))
  /\ report !! "cpu_info" = Some (VDict (get_cpu_info h))
  /\ report !! "memory_info" = Some (VDict (get_memory_info h))
  /\ report !! "disk_info" = Some (VDict (get_disk_info h))
  /\ report !! "network_info" = Some (VDict (get_network_info h))
  /\ report !! "processes"
     = Some (VList (VDict <$> get_running_processes h 20)).
Proof.
  unfold collect. destruct (get_system_info h) as [system_info|e];
    [|discriminate].
  cbn [mbind result_bind]. intros [= <-].
  split; [exists system_info; lookup_display|].
  repeat split; lookup_display.
Qed.

Lemma rows_are_dicts (rows : list (gmap string value)) :
  forallb is_dict (VDict <$> rows) = true.
Proof. induction rows as [|row rows IH]; [reflexivity | exact IH]. Qed.

(** The sections of a collected report that never fault. *)
Lemma sound_sections (h : host) (report : gmap string value) :
  collect h = Ok report ->
  template_evaluates report = disk_section report && network_section report.
Proof.
  intros Hreport.
  destruct (collect_entries h report Hreport)
    as ([system_info Hsys] & Hhw & Hwin & Hoff & Hcpu & Hmem & _ & _ & Hproc).
  unfold template_evaluates, simple_section, processes_section.
  rewrite Hsys, Hhw, Hoff, Hcpu, Hmem, Hproc.
  rewrite (windows_section_collected h report Hwin), rows_are_dicts.
  cbn [andb]. rewrite andb_true_r. reflexivity.
Qed.

(** X18. On the report [collect] returns (and no interface named
    [IO Statistics]), the template of [generate_html_report] evaluates
    exactly when neither the disk probe nor the network probe has returned
    its [Error] dictionary: the disk and network sections ask [items] and
    [get] of every value, which the error string does not have.  When it
    evaluates, the function returns whether the file was written. *)
Theorem report_renders_unless_degraded (h : host) (report : gmap string value)
    (write : result unit) :
  collect h = Ok report ->
  plain_interfaces h = true ->
  (is_Some (generate_html_report report write)
   <-> get_disk_info h <> disk_error /\ get_network_info h <> network_error)
  /\ (get_disk_info h = disk_error \/ get_network_info h = network_error ->
      generate_html_report report write = None)
  /\ (get_disk_info h <> disk_error -> get_network_info h <> network_error ->
      generate_html_report report write
      = Some (match write with Ok _ => true | Raise _ => false end)).
Proof.
  intros Hreport Hplain.
  destruct (collect_entries h report Hreport)
    as (_ & _ & _ & _ & _ & _ & Hdisk & Hnet & _).
  unfold generate_html_report. rewrite (sound_sections h report Hreport).
  destruct (disk_info_cases h) as [Hderr|Hdok].
  - assert (Hfault : disk_section report = false).
    { apply disk_section_error. rewrite <- Hderr. exact Hdisk. }
    rewrite Hfault. cbn [andb]. split; [|split].
    + split; [intros [? Hsome]; discriminate Hsome | intros [Hne _]; contradiction].
    + reflexivity.
    + intros Hne. contradiction.
  - assert (Hdne : get_disk_info h <> disk_error).
    { intros Heq. rewrite Heq in Hdok.
      specialize (Hdok "Error" _ (lookup_singleton_eq _ _)). discriminate Hdok. }
    rewrite (disk_section_dicts report _ Hdisk Hdok). cbn [andb].
    destruct (network_info_cases h report Hplain Hnet) as [Hnerr|Hnok].
    + assert (Hfault : network_section report = false).
      { apply network_section_error. rewrite <- Hnerr. exact Hnet. }
      rewrite Hfault. split; [|split].
      * split; [intros [? Hsome]; discriminate Hsome
               | intros [_ Hne]; contradiction].
      * reflexivity.
      * intros _ Hne. contradiction.
    + rewrite Hnok.
      assert (Hnne : get_network_info h <> network_error).
      { intros Heq. rewrite Heq in Hnet.
        rewrite (network_section_error report Hnet) in Hnok. discriminate Hnok. }
      split; [|split].
      * split; [intros _; split; assumption | intros _; eexists; reflexivity].
      * intros [Heq|Heq]; contradiction.
      * reflexivity.
Qed.

Lemma report_renders_unless_degraded_witness :
  generate_html_report
    (match collect healthy_host with Ok report => report | Raise _ => ∅ end)
    (Ok tt)
  = Some true.
Proof.
  assert (Hreport : collect healthy_host
                    = Ok (match collect healthy_host with
                          | Ok report => report
                          | Raise _ => ∅
                          end)) by reflexivity.
  apply (report_renders_unless_degraded healthy_host _ (Ok tt) Hreport eq_refl).
  - intros Heq.
    assert (Hno : get_disk_info healthy_host !! "Error" = None)
      by (vm_compute; reflexivity).
    rewrite Heq in Hno. discriminate Hno.
  - intros Heq.
    assert (Hno : get_network_info healthy_host !! "Error" = None)
      by (vm_compute; reflexivity).
    rewrite Heq in Hno. discriminate Hno.
Defined.

(** The faults that turn the disk and network probes into their error. *)
Lemma disk_info_faults (h : host) (e : exn) :
  disk_partitions h = Raise e \/ disk_io_counters h = Raise e ->
  get_disk_info h = disk_error.
Proof.
  unfold get_disk_info. cbv zeta. intros [Hp|Hio].
  - rewrite Hp. reflexivity.
  - rewrite Hio. destruct (disk_partitions h); reflexivity.
Qed.

Lemma network_info_faults (h : host) (e : exn) :
  net_if_addrs h = Raise e \/ net_if_stats h = Raise e
  \/ net_io_counters h = Raise e ->
  get_network_info h = network_error.
Proof.
  unfold get_network_info. cbv zeta. intros [Ha|[Hs|Hio]].
  - rewrite Ha. reflexivity.
  - rewrite Hs. destruct (net_if_addrs h); reflexivity.
  - rewrite Hio. destruct (net_if_addrs h); [|reflexivity].
    destruct (net_if_stats h); reflexivity.
Qed.

(** X19. A fault of any of the psutil calls of the disk or network probe
    ends [main] with an exception: the probe turns it into its [Error]
    dictionary, and the template raises on that dictionary before any
    file is opened. *)
Theorem main_raises_on_degraded_probe (h : host) (write : result unit) (e : exn) :
  disk_partitions h = Raise e \/ disk_io_counters h = Raise e
  \/ net_if_addrs h = Raise e \/ net_if_stats h = Raise e
  \/ net_io_counters h = Raise e ->
  main h write = MainRaises.
Proof.
  intros Hfault. unfold main.
  destruct (collect h) as [report|e'] eqn:Hreport; [|reflexivity].
  destruct (collect_entries h report Hreport)
    as (_ & _ & _ & _ & _ & _ & Hdisk & Hnet & _).
  unfold generate_html_report. rewrite (sound_sections h report Hreport).
  assert (Hsection : disk_section report && network_section report = false).
  { destruct Hfault as [Hf|[Hf|Hf]].
    - apply andb_false_intro1, disk_section_error.
      rewrite <- (disk_info_faults h e (or_introl Hf)). exact Hdisk.
    - apply andb_false_intro1, disk_section_error.
      rewrite <- (disk_info_faults h e (or_intror Hf)). exact Hdisk.
    - apply andb_false_intro2, network_section_error.
      rewrite <- (network_info_faults h e Hf). exact Hnet. }
  rewrite Hsection. reflexivity.
Qed.

Lemma main_raises_on_degraded_probe_witness :
  main no_disks_host (Ok tt) = MainRaises.
Proof.
  apply (main_raises_on_degraded_probe no_disks_host (Ok tt) access_denied).
  left. reflexivity.
Defined.

(** ** Round trips of the product key and of the MAC address *)

Lemma base24_remainders (n : nat) :
  forall number : Z,
    base24 (successive_remainders n number) = number mod 24 ^ Z.of_nat n.
Proof.
  unfold base24.
  induction n as [|n IH]; intros number; cbn [successive_remainders foldr].
  - change (24 ^ Z.of_nat 0) with 1. rewrite Z.mod_1_r. reflexivity.
  - rewrite IH, Nat2Z.inj_succ, Z.pow_succ_r by lia.
    rewrite Z.rem_mul_r; [reflexivity | lia |].
    apply Z.pow_pos_nonneg; lia.
Qed.

Lemma remainders_mod (n : nat) :
  forall number : Z,
    successive_remainders n (number mod 24 ^ Z.of_nat n)
    = successive_remainders n number.
Proof.
  induction n as [|n IH]; intros number; cbn [successive_remainders];
    [reflexivity|].
  assert (Hpow : 0 < 24 ^ Z.of_nat n) by (apply Z.pow_pos_nonneg; lia).
  rewrite Nat2Z.inj_succ, Z.pow_succ_r by lia.
  rewrite Z.rem_mul_r by lia.
  set (high := (number / 24) mod 24 ^ Z.of_nat n).
  f_equal.
  - rewrite (Z.mul_comm 24 high), Z.mod_add by lia. apply Z.mod_mod. lia.
  - rewrite <- (IH (number / 24)). fold high. f_equal.
    rewrite (Z.mul_comm 24 high), Z.div_add by lia.
    rewrite (Z.div_small (number mod 24) 24) by (apply Z.mod_pos_bound; lia).
    reflexivity.
Qed.

Lemma read_step_separator (symbols : string) (sep : ascii) (acc : option Z) :
  read_step symbols sep acc sep = acc.
Proof. unfold read_step. rewrite Ascii.eqb_refl. reflexivity. Qed.

Lemma read_step_alphabet (r n : Z) :
  0 <= r < 24 ->
  read_step key_map "-" (Some n) (alphabet_char r) = Some (24 * n + r).
Proof.
  intros Hr.
  assert (Hnat : forall k : nat, (k < 24)%nat ->
            read_step key_map "-" (Some n) (alphabet_char (Z.of_nat k))
            = Some (24 * n + Z.of_nat k)).
  { intros k Hk. do 24 (destruct k as [|k]; [reflexivity|]). lia. }
  rewrite <- (Z2Nat.id r) by lia. apply Hnat. lia.
Qed.

Lemma read_alphabet_chars (rs : list Z) :
  Forall (fun r => 0 <= r < 24) rs ->
  fold_left (read_step key_map "-") (rev (map alphabet_char rs)) (Some 0)
  = Some (base24 rs).
Proof.
  unfold base24.
  induction 1 as [|r rs Hr _ IH]; [reflexivity|].
  cbn [map rev foldr]. rewrite fold_left_app, IH. cbn [fold_left].
  rewrite read_step_alphabet by exact Hr. f_equal. lia.
Qed.

(** The hyphens of a formatted key do not count. *)
Lemma read_formatted_key (cs : list ascii) (acc : option Z) :
  length cs = 25%nat ->
  fold_left (read_step key_map "-")
            (list_ascii_of_string (format_key (join_chars cs))) acc
  = fold_left (read_step key_map "-") cs acc.
Proof.
  intros Hlen. explode_list cs Hlen.
  change (list_ascii_of_string (format_key (join_chars
            [a; a0; a1; a2; a3; a4; a5; a6; a7; a8; a9; a10; a11; a12; a13;
             a14; a15; a16; a17; a18; a19; a20; a21; a22; a23])))
    with [a; a0; a1; a2; a3; "-"%char; a4; a5; a6; a7; a8; "-"%char;
          a9; a10; a11; a12; a13; "-"%char; a14; a15; a16; a17; a18; "-"%char;
          a19; a20; a21; a22; a23].
  cbn [fold_left]. rewrite !read_step_separator. reflexivity.
Qed.

(** X2. The key decoded from a 15-byte window, read back as a number in
    base 24 over the alphabet, is the number of the window modulo [24^25];
    so two windows decode to the same key exactly when their numbers agree
    modulo [24^25]. *)
Theorem product_key_round_trip (bs : list byte) :
  length bs = 15%nat ->
  (exists key : string,
      decode_window (map byte_to_Z bs) = Some key
      /\ key_number key
         = Some (window_number (map byte_to_Z bs) mod 24 ^ 25))
  /\ (forall bs' : list byte,
        length bs' = 15%nat ->
        decode_window (map byte_to_Z bs) = decode_window (map byte_to_Z bs')
        <-> window_number (map byte_to_Z bs) mod 24 ^ 25
            = window_number (map byte_to_Z bs') mod 24 ^ 25).
Proof.
  assert (Hread : forall l : list Z,
            length l = 15%nat -> all_bytes l ->
            exists key : string,
              decode_window l = Some key
              /\ key_number key = Some (window_number l mod 24 ^ 25)).
  { intros l Hl Hall. unfold decode_window.
    rewrite (decode_loop_division l Hl Hall). eexists. split; [reflexivity|].
    unfold key_number, read_number.
    rewrite read_formatted_key
      by (rewrite length_rev, length_map; apply successive_remainders_length).
    rewrite read_alphabet_chars by apply successive_remainders_range.
    rewrite (base24_remainders 25). reflexivity. }
  intros Hlen.
  assert (Hl : length (map byte_to_Z bs) = 15%nat)
    by (rewrite length_map; exact Hlen).
  split; [apply Hread; [exact Hl | apply all_bytes_map]|].
  intros bs' Hlen'.
  assert (Hl' : length (map byte_to_Z bs') = 15%nat)
    by (rewrite length_map; exact Hlen').
  destruct (Hread _ Hl (all_bytes_map bs)) as (key & Hkey & Hnum).
  destruct (Hread _ Hl' (all_bytes_map bs')) as (key' & Hkey' & Hnum').
  split.
  - intros Heq. rewrite Hkey, Hkey' in Heq. injection Heq as <-.
    rewrite Hnum in Hnum'. congruence.
  - intros Hmod. unfold decode_window.
    rewrite (decode_loop_division _ Hl (all_bytes_map bs)).
    rewrite (decode_loop_division _ Hl' (all_bytes_map bs')).
    rewrite <- (remainders_mod 25 (window_number (map byte_to_Z bs))).
    rewrite <- (remainders_mod 25 (window_number (map byte_to_Z bs'))).
    change (Z.of_nat 25) with 25. rewrite Hmod. reflexivity.
Qed.

Lemma product_key_round_trip_witness :
  exists key : string,
    decode_window (map byte_to_Z sample_window) = Some key
    /\ key_number key
       = Some (window_number (map byte_to_Z sample_window) mod 24 ^ 25).
Proof.
  apply (product_key_round_trip sample_window). reflexivity.
Defined.

(** Reading the address of the identity probe. *)
Lemma read_step_hex (d n : Z) :
  0 <= d < 16 ->
  read_step "0123456789abcdef" ":" (Some n) (lower_hex d) = Some (16 * n + d).
Proof.
  intros Hd.
  assert (Hnat : forall k : nat, (k < 16)%nat ->
            read_step "0123456789abcdef" ":" (Some n) (lower_hex (Z.of_nat k))
            = Some (16 * n + Z.of_nat k)).
  { intros k Hk. do 16 (destruct k as [|k]; [reflexivity|]). lia. }
  rewrite <- (Z2Nat.id d) by lia. apply Hnat. lia.
Qed.

Lemma octet_nibbles (node i : Z) :
  0 <= octet node i / 16 < 16 /\ 0 <= octet node i mod 16 < 16.
Proof.
  pose proof (octet_range node i) as Ho. split.
  - split; [apply Z.div_pos; lia | apply Z.div_lt_upper_bound; lia].
  - apply Z.mod_pos_bound. lia.
Qed.

(** X4. The MAC address of a 48-bit node identifier, read back as a
    hexadecimal number with the colons passed over, is the identifier:
    different identifiers never share an address. *)
Theorem mac_address_round_trip (node : Z) :
  0 <= node < 2 ^ 48 ->
  mac_number (mac_address node) = Some node
  /\ (forall node' : Z,
        0 <= node' < 2 ^ 48 ->
        mac_address node = mac_address node' -> node = node').
Proof.
  assert (Hread : forall n : Z,
            0 <= n < 2 ^ 48 -> mac_number (mac_address n) = Some n).
  { intros n Hn. rewrite mac_address_reference.
    unfold mac_number, read_number, reference_mac, two_hex.
    cbv beta iota zeta delta
      [map String.concat String.append list_ascii_of_string fold_left].
    rewrite !read_step_separator.
    repeat (rewrite read_step_hex by apply octet_nibbles).
    f_equal. unfold octet.
    change (256 ^ 5) with 1099511627776. change (256 ^ 4) with 4294967296.
    change (256 ^ 3) with 16777216. change (256 ^ 2) with 65536.
    change (256 ^ 1) with 256. change (256 ^ 0) with 1.
    change (2 ^ 48) with 281474976710656 in Hn.
    Z.div_mod_to_equations. lia. }
  intros Hnode. split; [apply Hread, Hnode|].
  intros node' Hnode' Heq.
  pose proof (Hread node Hnode) as H1. pose proof (Hread node' Hnode') as H2.
  rewrite Heq in H1. congruence.
Qed.

Lemma mac_address_round_trip_witness :
  mac_number (mac_address 1250999896491) = Some 1250999896491.
Proof.
  apply (mac_address_round_trip 1250999896491). lia.
Defined.

(** ** More on the product key, the process snapshot and the aggregation *)

(** X1. [get_windows_product_key] returns a key exactly when the registry
    holds a binary [DigitalProductId] of at least 67 bytes; a key that
    does not open, a missing value, a value of another type or a shorter
    one all end in [None]. *)
Theorem product_key_available_iff (h : host) :
  is_Some (get_windows_product_key h)
  <-> exists value : list byte,
        query_value h current_version "DigitalProductId" = Ok (REG_BINARY value)
        /\ (67 <= length value)%nat.
Proof.
  unfold get_windows_product_key. split.
  - destruct (query_value h current_version "DigitalProductId")
      as [[value| |]|]; intros [key Hkey]; try discriminate Hkey.
    exists value. split; [reflexivity|].
    destruct (Nat.le_gt_cases 67 (length value)) as [Hle|Hgt]; [exact Hle|].
    unfold decode_product_key in Hkey. rewrite decode_window_short in Hkey.
    + discriminate Hkey.
    + unfold slice. rewrite length_map, length_take, length_drop. lia.
  - intros (value & -> & Hlen). unfold decode_product_key.
    rewrite decode_window_reference.
    + eexists. reflexivity.
    + rewrite length_map. apply slice_window_length, Hlen.
    + apply all_bytes_map.
Qed.

(** X15. When the enumeration runs to its end, the rows returned for a
    limit are the processes with the highest CPU percent (an unavailable
    reading counted as zero): the processes read split into the rows and
    the rest, the CPU percent of no process of the rest exceeds that of a
    process returned, nor the [cpu_percent] field of a row returned, and
    the rows are as many as the limit or, below it, as the processes
    read. *)
Theorem top_processes_dominate (h : host) (limit : nat) :
  enumeration_completes h = true ->
  exists top rest : list proc_attrs,
    top_processes h limit = Ok top
    /\ get_running_processes h limit = info <$> top
    /\ Permutation (top ++ rest)%list (accepted (fst (process_iter h)))
    /\ length top = Nat.min limit (length (accepted (fst (process_iter h))))
    /\ (forall x y : proc_attrs,
          In x top -> In y rest -> (cpu_reading y <= cpu_reading x)%Q)
    /\ (forall (row : gmap string value) (y : proc_attrs),
          In row (get_running_processes h limit) -> In y rest ->
          (cpu_reading y <= row_reading row)%Q).
Proof.
  intros Hok.
  set (sorted := sort_desc (accepted (fst (process_iter h)))).
  exists (take limit sorted), (drop limit sorted).
  pose proof (top_processes_completes h limit Hok) as Htop. fold sorted in Htop.
  split; [exact Htop|].
  split; [unfold get_running_processes; rewrite Htop; reflexivity|].
  split; [rewrite take_drop; apply sort_desc_Permutation|].
  split.
  { rewrite length_take. unfold sorted.
    rewrite (Permutation_length (sort_desc_Permutation _)). reflexivity. }
  assert (Hdom : forall x y : proc_attrs,
             In x (take limit sorted) -> In y (drop limit sorted) ->
             (cpu_reading y <= cpu_reading x)%Q).
  { intros x y Hx Hy.
    pose proof (sort_desc_sorted (accepted (fst (process_iter h)))) as Hsorted.
    fold sorted in Hsorted. rewrite <- (take_drop limit sorted) in Hsorted.
    apply (by_cpu_desc_reading x y).
    apply (StronglySorted_app_1_elem_of by_cpu_desc _ _ x y Hsorted);
      apply list_elem_of_In; assumption. }
  split; [exact Hdom|].
  intros row y Hrow Hy.
  unfold get_running_processes in Hrow. rewrite Htop in Hrow.
  apply list_elem_of_In, list_elem_of_fmap in Hrow as (x & -> & Hx).
  rewrite row_reading_info. apply Hdom; [apply list_elem_of_In, Hx | exact Hy].
Qed.

Lemma top_processes_dominate_witness :
  exists top rest : list proc_attrs,
    top_processes (process_host (sample_processes, None)) 2 = Ok top
    /\ get_running_processes (process_host (sample_processes, None)) 2
       = info <$> top
    /\ Permutation (top ++ rest)%list
         (accepted (fst (process_iter (process_host (sample_processes, None)))))
    /\ length top
       = Nat.min 2
           (length
              (accepted
                 (fst (process_iter (process_host (sample_processes, None))))))
    /\ (forall x y : proc_attrs,
          In x top -> In y rest -> (cpu_reading y <= cpu_reading x)%Q)
    /\ (forall (row : gmap string value) (y : proc_attrs),
          In row (get_running_processes (process_host (sample_processes, None)) 2) ->
          In y rest -> (cpu_reading y <= row_reading row)%Q).
Proof.
  apply (top_processes_dominate (process_host (sample_processes, None)) 2).
  reflexivity.
Defined.

(** X17. The aggregation raises exactly the exception of the identity
    probe's socket calls, and returns a report exactly when the host name
    is obtained and resolves. *)
Theorem collect_returns_iff (h : host) :
  (forall e : exn,
      collect h = Raise e
      <-> socket_gethostname h = Raise e
          \/ exists hostname : string,
               socket_gethostname h = Ok hostname
               /\ socket_gethostbyname h hostname = Raise e)
  /\ ((exists report : gmap string value, collect h = Ok report)
      <-> exists hostname ip : string,
            socket_gethostname h = Ok hostname
            /\ socket_gethostbyname h hostname = Ok ip).
Proof.
  unfold collect, get_system_info.
  destruct (socket_gethostname h) as [hostname|e0]; cbn [mbind result_bind].
  - destruct (socket_gethostbyname h hostname) as [ip|e1] eqn:Hlookup;
      cbn [mbind result_bind].
    + split.
      * intros e. split; [discriminate|].
        intros [Hfalse|(name & [= <-] & Hfalse)]; [discriminate|].
        congruence.
      * split; [intros _; eauto | intros _; eexists; reflexivity].
    + split.
      * intros e. split.
        -- intros [= <-]. right. eauto.
        -- intros [Hfalse|(name & [= <-] & Hraise)]; [discriminate|].
           congruence.
      * split; [intros [? Hfalse]; discriminate Hfalse|].
        intros (name & ip & [= <-] & Hfalse). congruence.
  - split.
    + intros e. split.
      * intros [= <-]. left. reflexivity.
      * intros [[= <-]|(name & Hfalse & _)]; [reflexivity | discriminate].
    + split; [intros [? Hfalse]; discriminate Hfalse|].
      intros (name & ip & Hfalse & _). discriminate Hfalse.
Qed.

(** ** More on the office-suite probe *)

Lemma office_details_install_path (h : host) (office_path token label : string)
    (d : gmap string value) :
  office_details h office_path token label d !! "Install Path"
  = match install_root h office_path token with
    | Some v => Some v
    | None => d !! "Install Path"
    end.
Proof.
  unfold office_details, install_root.
  destruct (query_value h _ "Path") as [path|e];
    repeat case_match;
    rewrite ?(lookup_insert_ne _ "Detected Via") by discriminate;
    rewrite ?lookup_insert_eq;
    rewrite ?(lookup_insert_ne _ "Version") by discriminate;
    reflexivity.
Qed.

Lemma office_details_other (h : host) (office_path token label : string)
    (d : gmap string value) (k : string) :
  k <> "Version" -> k <> "Install Path" -> k <> "Detected Via" ->
  office_details h office_path token label d !! k = d !! k.
Proof.
  intros H1 H2 H3. unfold office_details.
  repeat case_match; rewrite !lookup_insert_ne by congruence; reflexivity.
Qed.

Lemma registry_scan_undetected (h : host) :
  some_match h = false -> foldl (scan_office_path h) ∅ office_paths = ∅.
Proof.
  intros Hnone. rewrite registry_scan_cases.
  unfold some_match, office_paths in Hnone. cbn [existsb] in Hnone.
  destruct (root_match h "SOFTWARE\Wow6432Node\Microsoft\Office") as [[? ?]|];
    destruct (root_match h "SOFTWARE\Microsoft\Office") as [[? ?]|];
    try discriminate Hnone.
  reflexivity.
Qed.

Lemma scan_common_paths_find (h : host) (paths : list string) :
  scan_common_paths h paths ∅
  = match List.find (path_exists h) paths with
    | Some path =>
        <["Install Path" := VStr path]>
          {[ "Version" := VStr "Office (detected via file system)" ]}
    | None => ∅
    end.
Proof.
  induction paths as [|path paths IH]; cbn [scan_common_paths List.find];
    [reflexivity|].
  destruct (path_exists h path); [|exact IH].
  rewrite insert_empty. reflexivity.
Qed.

Lemma office_info_undetected (h : host) :
  some_match h = false ->
  get_office_info h
  = match first_location h with
    | Some path =>
        <["Install Path" := VStr path]>
          {[ "Version" := VStr "Office (detected via file system)" ]}
    | None => {[ "Status" := VStr "Not detected" ]}
    end.
Proof.
  intros Hnone. unfold get_office_info, first_location, dict_is_empty.
  rewrite (registry_scan_undetected h Hnone).
  rewrite (bool_decide_eq_true_2 ((∅ : gmap string value) = ∅) eq_refl).
  rewrite scan_common_paths_find.
  destruct (List.find (path_exists h) (common_paths h)) as [path|].
  - rewrite bool_decide_eq_false_2 by apply insert_non_empty. reflexivity.
  - rewrite (bool_decide_eq_true_2 ((∅ : gmap string value) = ∅) eq_refl).
    apply insert_empty.
Qed.

(** The join of the two locations: a separator is put after the
    directory unless it ends in one or is a bare drive, also after a
    colon that is not the colon of a drive. *)
Example path_join_samples :
  path_join "C:\Program Files" "Microsoft Office"
  = "C:\Program Files\Microsoft Office"
  /\ path_join "D:/Programs/" "Microsoft Office" = "D:/Programs/Microsoft Office"
  /\ path_join (drive "C") "Microsoft Office" = "C:\Microsoft Office"
  /\ path_join "C:" "Microsoft Office" = "C:Microsoft Office"
  /\ path_join "C:\Apps:" "Microsoft Office" = "C:\Apps:\Microsoft Office"
  /\ path_join "foo:" "Microsoft Office" = "foo:\Microsoft Office"
  /\ path_join "\\server\share" "Microsoft Office"
     = "\\server\share\Microsoft Office"
  /\ path_join EmptyString "Microsoft Office" = "Microsoft Office".
Proof. repeat split; vm_compute; reflexivity. Qed.

(** On a machine whose two variables hold a directory on a drive, the
    locations tested are the directories with [\Microsoft Office]
    after them. *)
Lemma path_join_directory (letter : ascii) (c : ascii) (directory : list ascii) :
  in_seps c = false ->
  ends_with_sep (c :: directory) = false ->
  join_chars_nt (letter :: nt_colon :: nt_sep :: c :: directory)
    (list_ascii_of_string "Microsoft Office")
  = (letter :: nt_colon :: nt_sep :: c :: directory
     ++ nt_sep :: list_ascii_of_string "Microsoft Office")%list.
Proof.
  intros Hc Hend. unfold join_chars_nt.
  assert (Hsplit : splitdrive (letter :: nt_colon :: nt_sep :: c :: directory)
                   = ([letter; nt_colon], nt_sep :: c :: directory)).
  { unfold splitdrive. cbn [length].
    change (2 <=? S (S (S (S (length directory)))))%nat with true. cbv iota zeta.
    cbn [map take slice drop Nat.sub].
    destruct (Ascii.eqb letter nt_altsep) eqn:Hl.
    - apply Ascii.eqb_eq in Hl. subst letter. reflexivity.
    - replace (chars_eqb [letter; if Ascii.eqb nt_colon nt_altsep then nt_sep else nt_colon]
                 [nt_sep; nt_sep]) with false; [reflexivity|].
      symmetry. unfold chars_eqb. apply String.eqb_neq. intros Heq.
      discriminate Heq. }
  rewrite Hsplit.
  change (splitdrive (list_ascii_of_string "Microsoft Office"))
    with ([] : list ascii, list_ascii_of_string "Microsoft Office").
  cbv iota beta.
  change (non_empty (list_ascii_of_string "Microsoft Office")
          && starts_with_sep (list_ascii_of_string "Microsoft Office"))
    with false.
  cbn [non_empty andb negb orb]. cbv iota.
  assert (Hends : ends_with_sep (nt_sep :: c :: directory) = false).
  { unfold ends_with_sep in *. cbn [rev] in *.
    destruct (rev directory ++ [c])%list eqn:Hrev.
    - destruct (rev directory); discriminate Hrev.
    - cbn [app]. exact Hend. }
  rewrite Hends. cbn [negb]. cbv iota.
  cbn [app starts_with_sep]. change (in_seps nt_sep) with true.
  cbn [negb andb]. cbv iota. cbn [app]. rewrite <- app_assoc. reflexivity.
Qed.

(** X7. When no versioned entry matches in the registry, the probe falls
    back on the two conventional install locations in order: the first
    that exists is reported as the install path of an office detected via
    the file system, without a [Detected Via] field; when neither exists
    the result is the [Status] field alone. *)
Theorem office_file_system_fallback (h : host) :
  some_match h = false ->
  match first_location h with
  | Some path =>
      get_office_info h !! "Version"
      = Some (VStr "Office (detected via file system)")
      /\ get_office_info h !! "Install Path" = Some (VStr path)
      /\ In path (common_paths h) /\ path_exists h path = true
      /\ get_office_info h !! "Detected Via" = None
      /\ get_office_info h !! "Status" = None
  | None => get_office_info h = {[ "Status" := VStr "Not detected" ]}
  end.
Proof.
  intros Hnone. rewrite (office_info_undetected h Hnone).
  unfold first_location.
  destruct (List.find (path_exists h) (common_paths h)) as [path|] eqn:Hfind;
    [|reflexivity].
  apply List.find_some in Hfind as [Hin Hexists].
  repeat split; try assumption; reflexivity.
Qed.

Lemma office_file_system_fallback_witness :
  get_office_info file_system_host !! "Install Path"
  = Some (VStr "C:\Program Files (x86)\Microsoft Office").
Proof.
  pose proof (office_file_system_fallback file_system_host eq_refl) as Hfall.
  change (first_location file_system_host)
    with (Some "C:\Program Files (x86)\Microsoft Office") in Hfall.
  apply Hfall.
Defined.

(** X6. The result of the office probe is never empty and never an
    [Error]; it holds a [Version] exactly when it holds no [Status], and a
    [Status] only as the single field [Not detected]. *)
Theorem office_version_or_status (h : host) :
  get_office_info h <> ∅
  /\ get_office_info h !! "Error" = None
  /\ (is_Some (get_office_info h !! "Version")
      <-> get_office_info h !! "Status" = None)
  /\ (is_Some (get_office_info h !! "Status")
      -> get_office_info h = {[ "Status" := VStr "Not detected" ]}).
Proof.
  destruct (some_match h) eqn:Hsome.
  - rewrite (office_info_detected h Hsome), registry_scan_cases.
    unfold some_match, office_paths in Hsome. cbn [existsb] in Hsome.
    assert (Hshape : forall (office_path token label : string)
                       (d : gmap string value),
               d !! "Error" = None -> d !! "Status" = None ->
               office_details h office_path token label d <> ∅
               /\ office_details h office_path token label d !! "Error" = None
               /\ is_Some (office_details h office_path token label d !! "Version")
               /\ office_details h office_path token label d !! "Status" = None).
    { intros office_path token label d Herr Hstatus.
      split; [apply office_details_non_empty|].
      rewrite (office_details_other h office_path token label d "Error")
        by discriminate.
      rewrite (office_details_other h office_path token label d "Status")
        by discriminate.
      rewrite office_details_version.
      split; [exact Herr|]. split; [eexists; reflexivity | exact Hstatus]. }
    assert (Hconcl : forall D : gmap string value,
               (D <> ∅ /\ D !! "Error" = None /\ is_Some (D !! "Version")
                /\ D !! "Status" = None) ->
               D <> ∅ /\ D !! "Error" = None
               /\ (is_Some (D !! "Version") <-> D !! "Status" = None)
               /\ (is_Some (D !! "Status")
                   -> D = {[ "Status" := VStr "Not detected" ]})).
    { intros D (Hne & Herr & Hver & Hstatus).
      split; [exact Hne|]. split; [exact Herr|].
      split; [split; intros _; assumption|].
      rewrite Hstatus. intros [? Hfalse]. discriminate Hfalse. }
    destruct (root_match h "SOFTWARE\Wow6432Node\Microsoft\Office")
      as [[t2 l2]|];
      destruct (root_match h "SOFTWARE\Microsoft\Office") as [[t1 l1]|];
      try discriminate Hsome; apply Hconcl.
    + destruct (Hshape "SOFTWARE\Microsoft\Office" t1 l1 ∅
                  (lookup_empty _) (lookup_empty _))
        as (_ & Herr & _ & Hstatus).
      apply Hshape; assumption.
    + apply Hshape; apply lookup_empty.
    + apply Hshape; apply lookup_empty.
  - rewrite (office_info_undetected h Hsome).
    destruct (first_location h) as [path|].
    + split; [apply insert_non_empty|]. split; [reflexivity|].
      split; [split; [reflexivity | intros _; eexists; reflexivity]|].
      intros [? Hfalse]. discriminate Hfalse.
    + split; [apply map_non_empty_singleton|]. split; [reflexivity|].
      split; [|reflexivity].
      split; [intros [? Hfalse]; discriminate Hfalse | discriminate].
Qed.

(** X8. When both registry roots hold a versioned entry, the [break] of
    the scan leaves only the inner loop: the label reported is the one
    matched under the [Wow6432Node] root, while an install path found
    under the first root stays when the second root records none. *)
Theorem office_second_root_wins (h : host) (t1 l1 t2 l2 : string) :
  root_match h "SOFTWARE\Microsoft\Office" = Some (t1, l1) ->
  root_match h "SOFTWARE\Wow6432Node\Microsoft\Office" = Some (t2, l2) ->
  get_office_info h !! "Version" = Some (VStr l2)
  /\ get_office_info h !! "Install Path"
     = match install_root h "SOFTWARE\Wow6432Node\Microsoft\Office" t2 with
       | Some path => Some path
       | None => install_root h "SOFTWARE\Microsoft\Office" t1
       end.
Proof.
  intros H1 H2.
  assert (Hsome : some_match h = true).
  { unfold some_match, office_paths. cbn [existsb]. rewrite H1. reflexivity. }
  rewrite (office_info_detected h Hsome), registry_scan_cases, H1, H2.
  split; [apply office_details_version|].
  rewrite !office_details_install_path, lookup_empty.
  destruct (install_root h "SOFTWARE\Wow6432Node\Microsoft\Office" t2);
    [reflexivity|].
  destruct (install_root h "SOFTWARE\Microsoft\Office" t1); reflexivity.
Qed.

Lemma office_second_root_wins_witness :
  get_office_info two_root_host !! "Version" = Some (VStr "Office 2013")
  /\ get_office_info two_root_host !! "Install Path"
     = Some (VStr "C:\Program Files\Microsoft Office\root\Office16").
Proof.
  apply (office_second_root_wins two_root_host "16.0"
           "Office 2016/2019/2021/365" "15.0" "Office 2013");
    vm_compute; reflexivity.
Defined.

(** ** Mebibyte fields, and the shapes of the disk and memory results *)

Lemma byte_countb_true (n : Z) : byte_countb n = true <-> byte_count n.
Proof.
  unfold byte_countb, byte_count.
  rewrite andb_true_iff, Z.leb_le, Z.ltb_lt. reflexivity.
Qed.

(** Division of a 64-bit count by [2^s]: a 53-bit significand at the
    exponent [log2 n - s - 52]. *)
Lemma true_div_pow2 (n s : Z) :
  0 < n < 2 ^ 64 -> 12 <= s <= 64 ->
  true_div n (2 ^ s)
  = Ok (Qmake (round_half_even (n * 2 ^ (s + 52 - Z.log2 n)) (2 ^ s))
          (Z.to_pos (2 ^ (s + 52 - Z.log2 n)))).
Proof.
  intros Hn Hs.
  pose proof (Z.log2_spec n ltac:(lia)) as [Hlo Hhi].
  pose proof (Z.log2_nonneg n) as Hnn.
  assert (Hla : Z.log2 n < 64) by (apply Z.log2_lt_pow2; lia).
  unfold true_div. cbv zeta.
  rewrite (proj2 (Z.eqb_neq n 0)) by lia.
  rewrite Z.log2_pow2 by lia.
  set (la := Z.log2 n) in *.
  assert (Habove : (if 0 <=? la - s
                    then 2 ^ s * 2 ^ (la - s) <=? n
                    else 2 ^ s <=? n * 2 ^ (- (la - s))) = true).
  { destruct (Z.leb_spec 0 (la - s)) as [Hd|Hd]; apply Z.leb_le.
    - rewrite <- Z.pow_add_r by lia.
      replace (s + (la - s)) with la by lia. exact Hlo.
    - replace (2 ^ s) with (2 ^ la * 2 ^ (- (la - s))).
      + apply Z.mul_le_mono_nonneg_r; [apply Z.pow_nonneg; lia | exact Hlo].
      + rewrite <- Z.pow_add_r by lia. f_equal. lia. }
  rewrite Habove, Z.max_l by lia.
  unfold scaled_quotient, dyadic.
  rewrite (proj2 (Z.leb_gt 0 (la - s - 52))) by lia.
  replace (- (la - s - 52)) with (s + 52 - la) by lia.
  rewrite (Z.pow_neg_r 2 (la - s - 52)) by lia. rewrite Z.mul_0_r.
  assert (Hbig : 0 < 2 ^ 1024) by (apply Z.pow_pos_nonneg; lia).
  rewrite (proj2 (Z.leb_gt (2 ^ 1024) 0) Hbig). reflexivity.
Qed.

Lemma mb_field_render (n : Z) :
  byte_count n ->
  mb_field n
  = Ok (digits 10 (mb_hundredths n / 100) ++ "."
        ++ zero_pad 2 (digits 10 (mb_hundredths n mod 100)) ++ " MB").
Proof.
  unfold byte_count. intros Hn. unfold mb_field.
  change (1024 ^ 2) with (2 ^ 20).
  destruct (Z.eq_dec n 0) as [->|Hpos].
  - reflexivity.
  - rewrite true_div_pow2 by lia. cbn [mbind result_bind].
    pose proof (Z.log2_nonneg n) as Hnn.
    assert (Hla : Z.log2 n < 64) by (apply Z.log2_lt_pow2; lia).
    replace (20 + 52 - Z.log2 n) with (72 - Z.log2 n) by lia.
    rewrite format_2f_hundredths.
    + rewrite !str_app_assoc. reflexivity.
    + apply round_half_even_nonneg; [|apply Z.pow_pos_nonneg; lia].
      apply Z.mul_nonneg_nonneg; [lia | apply Z.pow_nonneg; lia].
    + apply Z.pow_pos_nonneg; lia.
Qed.

Lemma mb_hundredths_nonneg (n : Z) : byte_count n -> 0 <= mb_hundredths n.
Proof.
  unfold byte_count. intros Hn. unfold mb_hundredths.
  pose proof (Z.log2_nonneg n) as Hnn.
  assert (Hla : Z.log2 n < 64).
  { destruct (Z.eq_dec n 0) as [->|Hpos]; [reflexivity|].
    apply Z.log2_lt_pow2; lia. }
  apply round_half_even_nonneg; [|apply Z.pow_pos_nonneg; lia].
  apply Z.mul_nonneg_nonneg; [lia|].
  apply round_half_even_nonneg; [|apply Z.pow_pos_nonneg; lia].
  apply Z.mul_nonneg_nonneg; [lia | apply Z.pow_nonneg; lia].
Qed.

Lemma mb_hundredths_exact (n : Z) :
  0 <= n < 2 ^ 53 -> mb_hundredths n = round_half_even (100 * n) (2 ^ 20).
Proof.
  intros Hn. unfold mb_hundredths.
  destruct (Z.eq_dec n 0) as [->|Hpos]; [reflexivity|].
  pose proof (Z.log2_nonneg n) as Hnn.
  assert (Hla : Z.log2 n < 53) by (apply Z.log2_lt_pow2; lia).
  set (la := Z.log2 n) in *.
  replace (72 - la) with ((52 - la) + 20) by lia.
  rewrite Z.pow_add_r by lia.
  assert (Hp : 0 < 2 ^ (52 - la)) by (apply Z.pow_pos_nonneg; lia).
  assert (Hg : 0 < 2 ^ 20) by (apply Z.pow_pos_nonneg; lia).
  rewrite Z.mul_assoc, round_half_even_exact by exact Hg.
  rewrite (Z.mul_comm (2 ^ (52 - la)) (2 ^ 20)), Z.mul_assoc.
  apply round_half_even_scale; assumption.
Qed.

Lemma mb_hundredths_near (n : Z) :
  0 <= n < 2 ^ 64 ->
  Z.abs (100 * n - mb_hundredths n * 2 ^ 20) <= 2 ^ 19 + 100 * 2 ^ 10.
Proof.
  intros Hn. unfold mb_hundredths.
  pose proof (Z.log2_nonneg n) as Hnn.
  assert (Hla : Z.log2 n < 64).
  { destruct (Z.eq_dec n 0) as [->|Hpos]; [reflexivity|].
    apply Z.log2_lt_pow2; lia. }
  set (la := Z.log2 n) in *.
  set (K := 2 ^ (72 - la)).
  assert (HK : 2 ^ 9 <= K) by (apply Z.pow_le_mono_r; lia).
  set (m := round_half_even (n * K) (2 ^ 20)).
  set (h := round_half_even (100 * m) K).
  assert (Hg : 0 < 2 ^ 20) by (apply Z.pow_pos_nonneg; lia).
  pose proof (round_half_even_near (n * K) (2 ^ 20) Hg) as Hm. fold m in Hm.
  assert (HKpos : 0 < K) by lia.
  pose proof (round_half_even_near (100 * m) K HKpos) as Hh. fold h in Hh.
  change (2 ^ 20) with 1048576 in *. change (2 ^ 19) with 524288.
  change (2 ^ 9) with 512 in HK. change (2 ^ 10) with 1024.
  assert (Hscaled : Z.abs (100 * n - h * 1048576) * K
                    <= (524288 + 100 * 1024) * K).
  { rewrite <- (Z.abs_eq K) at 1 by lia. rewrite <- Z.abs_mul.
    replace ((100 * n - h * 1048576) * K)
      with (100 * (n * K - 1048576 * m) + 1048576 * (100 * m - K * h))
      by ring.
    eapply Z.le_trans; [apply Z.abs_triangle|].
    rewrite !Z.abs_mul. rewrite (Z.abs_eq 100), (Z.abs_eq 1048576) by lia.
    lia. }
  apply Z.mul_le_mono_pos_r in Hscaled; [exact Hscaled | exact HKpos].
Qed.

Lemma io_statistics_fields (disk_io : sdiskio) :
  byte_count (read_bytes disk_io) -> byte_count (write_bytes disk_io) ->
  exists stats : gmap string value,
    io_statistics disk_io = Ok stats
    /\ renders_mb stats "Read Bytes" (read_bytes disk_io)
    /\ renders_mb stats "Write Bytes" (write_bytes disk_io)
    /\ stats !! "Read Count" = Some (VInt (read_count disk_io))
    /\ stats !! "Write Count" = Some (VInt (write_count disk_io)).
Proof.
  intros H1 H2. unfold renders_mb, io_statistics.
  rewrite (mb_field_render _ H1), (mb_field_render _ H2).
  cbn [mbind result_bind]. eexists. split; [reflexivity|].
  split; [eexists; split; [reflexivity | lookup_display]|].
  split; [eexists; split; [reflexivity | lookup_display]|].
  split; lookup_display.
Qed.

Lemma interface_io_fields (io : snetio) :
  byte_count (bytes_sent io) -> byte_count (bytes_recv io) ->
  exists entry : gmap string value,
    interface_io io = Ok entry
    /\ renders_mb entry "Bytes Sent" (bytes_sent io)
    /\ renders_mb entry "Bytes Received" (bytes_recv io)
    /\ entry !! "Packets Sent" = Some (VInt (packets_sent io))
    /\ entry !! "Packets Received" = Some (VInt (packets_recv io)).
Proof.
  intros H1 H2. unfold renders_mb, interface_io.
  rewrite (mb_field_render _ H1), (mb_field_render _ H2).
  cbn [mbind result_bind]. eexists. split; [reflexivity|].
  split; [eexists; split; [reflexivity | lookup_display]|].
  split; [eexists; split; [reflexivity | lookup_display]|].
  split; lookup_display.
Qed.

(** X14. The byte totals of the disk and network I/O tables, unsigned
    64-bit counts, are rendered in mebibytes with exactly two decimals
    followed by [ MB]: the number printed is [n / 2^20] to the nearest
    hundredth when [n < 2^53], and within the rounding of the 53-bit
    significand of it above; the operation and packet counts are stored
    as they are. *)
Theorem io_fields_two_decimals (n : Z) :
  byte_count n ->
  (exists whole frac : string,
     mb_field n = Ok (whole ++ "." ++ frac ++ " MB")
     /\ decimal_string whole /\ decimal_string frac
     /\ String.length frac = 2%nat
     /\ decimal_value whole * 100 + decimal_value frac = mb_hundredths n)
  /\ Z.abs (100 * n - mb_hundredths n * 2 ^ 20) <= 2 ^ 19 + 100 * 2 ^ 10
  /\ (n < 2 ^ 53 ->
      mb_hundredths n = round_half_even (100 * n) (2 ^ 20)
      /\ 2 * Z.abs (100 * n - mb_hundredths n * 2 ^ 20) <= 2 ^ 20)
  /\ (forall disk_io : sdiskio,
        byte_count (read_bytes disk_io) -> byte_count (write_bytes disk_io) ->
        exists stats : gmap string value,
          io_statistics disk_io = Ok stats
          /\ renders_mb stats "Read Bytes" (read_bytes disk_io)
          /\ renders_mb stats "Write Bytes" (write_bytes disk_io)
          /\ stats !! "Read Count" = Some (VInt (read_count disk_io))
          /\ stats !! "Write Count" = Some (VInt (write_count disk_io)))
  /\ (forall io : snetio,
        byte_count (bytes_sent io) -> byte_count (bytes_recv io) ->
        exists entry : gmap string value,
          interface_io io = Ok entry
          /\ renders_mb entry "Bytes Sent" (bytes_sent io)
          /\ renders_mb entry "Bytes Received" (bytes_recv io)
          /\ entry !! "Packets Sent" = Some (VInt (packets_sent io))
          /\ entry !! "Packets Received" = Some (VInt (packets_recv io))).
Proof.
  intros Hn.
  pose proof (mb_hundredths_nonneg n Hn) as Hh.
  split.
  { exists (digits 10 (mb_hundredths n / 100)),
           (zero_pad 2 (digits 10 (mb_hundredths n mod 100))).
    assert (Hq : 0 <= mb_hundredths n / 100) by (apply Z.div_pos; lia).
    assert (Hr : 0 <= mb_hundredths n mod 100 < 100)
      by (apply Z.mod_pos_bound; lia).
    destruct (digits_decimal _ Hq) as [Hwhole Hwv].
    destruct (two_decimals _ Hr) as (Hlen & Hfrac & Hfv).
    split; [apply mb_field_render, Hn|].
    split; [exact Hwhole|]. split; [exact Hfrac|]. split; [exact Hlen|].
    rewrite Hwv, Hfv. pose proof (Z.div_mod (mb_hundredths n) 100 ltac:(lia)).
    lia. }
  split; [apply mb_hundredths_near, Hn|].
  split.
  { intros H53. unfold byte_count in Hn.
    rewrite mb_hundredths_exact by lia. split; [reflexivity|].
    pose proof (round_half_even_near (100 * n) (2 ^ 20)
                  ltac:(apply Z.pow_pos_nonneg; lia)) as Hnear.
    rewrite (Z.mul_comm (round_half_even _ _)). exact Hnear. }
  split; [apply io_statistics_fields | apply interface_io_fields].
Qed.

Lemma io_fields_two_decimals_witness :
  exists whole frac : string,
    mb_field (5 * 2 ^ 20) = Ok (whole ++ "." ++ frac ++ " MB")
    /\ decimal_string whole /\ decimal_string frac
    /\ String.length frac = 2%nat
    /\ decimal_value whole * 100 + decimal_value frac
       = mb_hundredths (5 * 2 ^ 20).
Proof.
  apply (io_fields_two_decimals (5 * 2 ^ 20)). unfold byte_count. lia.
Defined.

(** ** The disk probe, partition by partition *)

Lemma add_partition_skips (h : host) (d : gmap string value) (p : sdiskpart) :
  usage_answers h p = false -> add_partition h d p = d.
Proof.
  unfold usage_answers, add_partition. intros Hu.
  destruct (disk_usage h (mountpoint p)); [discriminate | reflexivity].
Qed.

Lemma add_partition_stores (h : host) (d : gmap string value) (p : sdiskpart)
    (usage : sdiskusage) :
  disk_usage h (mountpoint p) = Ok usage ->
  byte_count (du_total usage) -> byte_count (du_used usage) ->
  byte_count (du_free usage) ->
  exists entry : gmap string value,
    add_partition h d p = <[device p := VDict entry]> d
    /\ partition_entry p usage = Ok entry.
Proof.
  intros Hu H1 H2 H3.
  destruct (partition_size_fields p usage H1 H2 H3) as (entry & Hentry & _).
  exists entry. split; [|exact Hentry].
  unfold add_partition. rewrite Hu. cbn [mbind result_bind].
  rewrite Hentry. reflexivity.
Qed.

Lemma usage_in_range_counts (h : host) (p : sdiskpart) (usage : sdiskusage) :
  usage_in_range h p = true -> disk_usage h (mountpoint p) = Ok usage ->
  byte_count (du_total usage) /\ byte_count (du_used usage)
  /\ byte_count (du_free usage).
Proof.
  unfold usage_in_range. intros Hr Hu. rewrite Hu in Hr.
  apply andb_true_iff in Hr as [Hr H3]. apply andb_true_iff in Hr as [H1 H2].
  rewrite <- !byte_countb_true. auto.
Qed.

(** The devices of the partitions whose usage answers are the keys the
    loop adds. *)
Lemma partitions_keys (h : host) (partitions : list sdiskpart) (dev : string) :
  forallb (usage_in_range h) partitions = true ->
  forall d : gmap string value,
    is_Some (foldl (add_partition h) d partitions !! dev)
    <-> is_Some (d !! dev)
        \/ exists p : sdiskpart,
             In p partitions /\ device p = dev /\ usage_answers h p = true.
Proof.
  induction partitions as [|p partitions IH]; intros Hrange d; cbn [foldl].
  - split; [auto | intros [Hd|(p & [] & _)]; exact Hd].
  - cbn [forallb] in Hrange. apply andb_true_iff in Hrange as [Hp Hrange].
    rewrite (IH Hrange). clear IH.
    destruct (disk_usage h (mountpoint p)) as [usage|e] eqn:Hu.
    + destruct (usage_in_range_counts h p usage Hp Hu) as (H1 & H2 & H3).
      destruct (add_partition_stores h d p usage Hu H1 H2 H3)
        as (entry & -> & _).
      assert (Hans : usage_answers h p = true)
        by (unfold usage_answers; rewrite Hu; reflexivity).
      split.
      * intros [Hd|(q & Hin & Hdev & Hq)].
        -- destruct (decide (device p = dev)) as [Heq|Hne].
           ++ right. exists p. split; [left; reflexivity | auto].
           ++ rewrite lookup_insert_ne in Hd by exact Hne. left. exact Hd.
        -- right. exists q. split; [right; exact Hin | auto].
      * intros [Hd|(q & [->|Hin] & Hdev & Hq)].
        -- left. destruct (decide (device p = dev)) as [Heq|Hne].
           ++ rewrite Heq, lookup_insert_eq. eauto.
           ++ rewrite lookup_insert_ne by exact Hne. exact Hd.
        -- left. rewrite Hdev, lookup_insert_eq. eauto.
        -- right. exists q. auto.
    + assert (Hans : usage_answers h p = false)
        by (unfold usage_answers; rewrite Hu; reflexivity).
      rewrite (add_partition_skips h d p Hans).
      split.
      * intros [Hd|(q & Hin & Hdev & Hq)]; [left; exact Hd|].
        right. exists q. split; [right; exact Hin | auto].
      * intros [Hd|(q & [->|Hin] & Hdev & Hq)]; [left; exact Hd | congruence |].
        right. exists q. auto.
Qed.

(** Partitions that do not answer, or bear another device, leave the
    entry of [dev] as it is. *)
Lemma partitions_keep (h : host) (partitions : list sdiskpart) (dev : string) :
  (forall q : sdiskpart,
     In q partitions -> device q = dev -> usage_answers h q = false) ->
  forall d : gmap string value,
    foldl (add_partition h) d partitions !! dev = d !! dev.
Proof.
  induction partitions as [|q partitions IH]; intros Hlater d; cbn [foldl].
  - reflexivity.
  - rewrite IH by (intros q' Hin; apply Hlater; right; exact Hin).
    destruct (decide (device q = dev)) as [Heq|Hne].
    + rewrite add_partition_skips; [reflexivity|].
      apply Hlater; [left; reflexivity | exact Heq].
    + unfold add_partition. case_match; [|reflexivity].
      apply lookup_insert_ne. exact Hne.
Qed.

Lemma disk_range_partitions (h : host) (partitions : list sdiskpart) :
  disk_counts_in_range h = true -> disk_partitions h = Ok partitions ->
  forallb (usage_in_range h) partitions = true.
Proof.
  unfold disk_counts_in_range. intros Hr Hp. rewrite Hp in Hr.
  apply andb_true_iff in Hr as [_ Hr]. exact Hr.
Qed.

Lemma disk_range_io (h : host) (disk_io : sdiskio) :
  disk_counts_in_range h = true -> disk_io_counters h = Ok (Some disk_io) ->
  byte_count (read_bytes disk_io) /\ byte_count (write_bytes disk_io).
Proof.
  unfold disk_counts_in_range. intros Hr Hio. rewrite Hio in Hr.
  apply andb_true_iff in Hr as [Hr _]. apply andb_true_iff in Hr as [H1 H2].
  rewrite <- !byte_countb_true. auto.
Qed.

(** What the probe returns once both of its own psutil calls answer. *)
Lemma disk_info_answers (h : host) (partitions : list sdiskpart)
    (disk_io : option sdiskio) :
  disk_counts_in_range h = true ->
  disk_partitions h = Ok partitions -> disk_io_counters h = Ok disk_io ->
  (disk_io = None
   /\ get_disk_info h = foldl (add_partition h) ∅ partitions)
  \/ (exists (io : sdiskio) (stats : gmap string value),
        disk_io = Some io /\ io_statistics io = Ok stats
        /\ get_disk_info h
           = <["IO Statistics" := VDict stats]>
               (foldl (add_partition h) ∅ partitions)).
Proof.
  intros Hr Hp Hio. unfold get_disk_info. cbv zeta.
  rewrite Hp, Hio. cbn [mbind result_bind].
  destruct disk_io as [io|]; [right | left; split; reflexivity].
  destruct (disk_range_io h io Hr Hio) as [H1 H2].
  destruct (io_statistics_fields io H1 H2) as (stats & Hstats & _).
  exists io, stats. rewrite Hstats. cbn [mbind result_bind].
  repeat split; reflexivity.
Qed.

Lemma dicts_not_error (d : gmap string value) :
  map_Forall (fun _ v => is_dict v = true) d -> d <> disk_error.
Proof.
  intros Hd ->.
  specialize (Hd "Error" _ (lookup_singleton_eq _ _)). discriminate Hd.
Qed.

(** X11. With 64-bit byte counts, the disk probe degrades to its [Error]
    dictionary exactly when listing the partitions or reading the I/O
    counters raises; a partition whose usage cannot be read never does
    that. *)
Theorem disk_error_iff (h : host) :
  disk_counts_in_range h = true ->
  (get_disk_info h = disk_error
   <-> (exists e : exn, disk_partitions h = Raise e)
       \/ (exists e : exn, disk_io_counters h = Raise e)).
Proof.
  intros Hr. split.
  - intros Herr.
    destruct (disk_partitions h) as [partitions|e] eqn:Hp; [|left; eauto].
    destruct (disk_io_counters h) as [disk_io|e] eqn:Hio; [|right; eauto].
    exfalso. revert Herr. apply dicts_not_error.
    destruct (disk_info_answers h partitions disk_io Hr Hp Hio)
      as [(_ & ->)|(io & stats & _ & _ & ->)].
    + apply partitions_dicts, map_Forall_empty.
    + apply map_Forall_insert_2; [reflexivity|].
      apply partitions_dicts, map_Forall_empty.
  - intros [[e He]|[e He]]; apply (disk_info_faults h e); auto.
Qed.

Lemma disk_error_iff_witness :
  get_disk_info healthy_host = disk_error
  <-> (exists e : exn, disk_partitions healthy_host = Raise e)
      \/ (exists e : exn, disk_io_counters healthy_host = Raise e).
Proof. apply (disk_error_iff healthy_host). reflexivity. Defined.

Lemma partition_entry_fields (partition : sdiskpart) (usage : sdiskusage) :
  byte_count (du_total usage) -> byte_count (du_used usage) ->
  byte_count (du_free usage) ->
  exists entry : gmap string value,
    partition_entry partition usage = Ok entry
    /\ entry !! "File System" = Some (VStr (fstype partition))
    /\ entry !! "Mount Point" = Some (VStr (mountpoint partition))
    /\ renders_gb entry "Total Size" (du_total usage)
    /\ renders_gb entry "Used" (du_used usage)
    /\ renders_gb entry "Free" (du_free usage).
Proof.
  intros H1 H2 H3. unfold renders_gb, partition_entry.
  rewrite (gb_field_render _ H1), (gb_field_render _ H2), (gb_field_render _ H3).
  cbn [mbind result_bind].
  eexists. split; [reflexivity|].
  split; [lookup_display|]. split; [lookup_display|].
  repeat split; (eexists; split; [reflexivity | lookup_display]).
Qed.

Lemma disk_entry_rendered (h : host) (before after : list sdiskpart)
    (p : sdiskpart) (usage : sdiskusage) (disk_io : option sdiskio) :
  disk_partitions h = Ok (before ++ p :: after)%list ->
  disk_io_counters h = Ok disk_io ->
  disk_counts_in_range h = true ->
  String.eqb (device p) "IO Statistics" = false ->
  disk_usage h (mountpoint p) = Ok usage ->
  last_readable h p after = true ->
  exists entry : gmap string value,
    get_disk_info h !! device p = Some (VDict entry)
    /\ partition_entry p usage = Ok entry
    /\ renders_gb entry "Total Size" (du_total usage)
    /\ renders_gb entry "Used" (du_used usage)
    /\ renders_gb entry "Free" (du_free usage).
Proof.
  intros Hp Hio Hr Hdev Hu Hlast.
  apply String.eqb_neq in Hdev.
  pose proof (disk_range_partitions h _ Hr Hp) as Hrange.
  rewrite forallb_app in Hrange. apply andb_true_iff in Hrange as [_ Hrange].
  cbn [forallb] in Hrange. apply andb_true_iff in Hrange as [Hin _].
  destruct (usage_in_range_counts h p usage Hin Hu) as (H1 & H2 & H3).
  destruct (partition_entry_fields p usage H1 H2 H3)
    as (entry & Hentry & _ & _ & Hfields).
  exists entry. split; [|split; [exact Hentry | exact Hfields]].
  assert (Hlookup : get_disk_info h !! device p
                    = foldl (add_partition h) ∅ (before ++ p :: after)%list
                      !! device p).
  { destruct (disk_info_answers h _ disk_io Hr Hp Hio)
      as [(_ & ->)|(io & stats & _ & _ & ->)]; [reflexivity|].
    apply lookup_insert_ne. congruence. }
  rewrite Hlookup, foldl_app. cbn [foldl].
  rewrite (partitions_keep h after (device p)).
  - unfold add_partition. rewrite Hu. cbn [mbind result_bind]. rewrite Hentry.
    apply lookup_insert_eq.
  - intros q Hq Heq. unfold last_readable in Hlast.
    pose proof (proj1 (forallb_forall _ _) Hlast q Hq) as Hone.
    apply negb_true_iff, andb_false_iff in Hone as [Hne|Hun]; [|exact Hun].
    apply String.eqb_neq in Hne. contradiction.
Qed.

(** C6. A byte count of the host, an unsigned 64-bit integer [n], is
    rendered by the memory and disk probes as a decimal number with exactly
    two decimals followed by [ GB]; the number printed is [n / 2^30] to the
    nearest hundredth when [n < 2^53], where the division is exact, and
    within the rounding of the 53-bit significand of it above; [2^30] bytes
    render as [1.00 GB].  The memory result holds its five sizes rendered
    so, and the disk result holds, under the device of every partition
    whose usage is read, the three sizes of that partition rendered so. *)
Theorem size_fields_two_decimals (n : Z) :
  byte_count n ->
  (exists whole frac : string,
     gb_field n = Ok (whole ++ "." ++ frac ++ " GB")
     /\ decimal_string whole /\ decimal_string frac
     /\ String.length frac = 2%nat
     /\ decimal_value whole * 100 + decimal_value frac = gb_hundredths n)
  /\ Z.abs (100 * n - gb_hundredths n * 2 ^ 30) <= 2 ^ 29 + 100 * 2 ^ 10
  /\ (n < 2 ^ 53 ->
      gb_hundredths n = round_half_even (100 * n) (2 ^ 30)
      /\ 2 * Z.abs (100 * n - gb_hundredths n * 2 ^ 30) <= 2 ^ 30)
  /\ gb_field (2 ^ 30) = Ok "1.00 GB"
  /\ (forall (h : host) (vm : svmem) (sw : sswap),
        virtual_memory h = Ok vm -> swap_memory h = Ok sw ->
        byte_count (vm_total vm) -> byte_count (vm_available vm) ->
        byte_count (vm_used vm) -> byte_count (sw_total sw) ->
        byte_count (sw_used sw) ->
        renders_gb (get_memory_info h) "Total RAM" (vm_total vm)
        /\ renders_gb (get_memory_info h) "Available RAM" (vm_available vm)
        /\ renders_gb (get_memory_info h) "Used RAM" (vm_used vm)
        /\ renders_gb (get_memory_info h) "Total Swap" (sw_total sw)
        /\ renders_gb (get_memory_info h) "Used Swap" (sw_used sw))
  /\ (forall (partition : sdiskpart) (usage : sdiskusage),
        byte_count (du_total usage) -> byte_count (du_used usage) ->
        byte_count (du_free usage) ->
        exists entry : gmap string value,
          partition_entry partition usage = Ok entry
          /\ renders_gb entry "Total Size" (du_total usage)
          /\ renders_gb entry "Used" (du_used usage)
          /\ renders_gb entry "Free" (du_free usage))
  /\ (forall (h : host) (before after : list sdiskpart) (p : sdiskpart)
             (usage : sdiskusage) (disk_io : option sdiskio),
        disk_partitions h = Ok (before ++ p :: after)%list ->
        disk_io_counters h = Ok disk_io ->
        disk_counts_in_range h = true ->
        String.eqb (device p) "IO Statistics" = false ->
        disk_usage h (mountpoint p) = Ok usage ->
        last_readable h p after = true ->
        exists entry : gmap string value,
          get_disk_info h !! device p = Some (VDict entry)
          /\ partition_entry p usage = Ok entry
          /\ renders_gb entry "Total Size" (du_total usage)
          /\ renders_gb entry "Used" (du_used usage)
          /\ renders_gb entry "Free" (du_free usage)).
Proof.
  intros Hn.
  pose proof (gb_hundredths_nonneg n Hn) as Hh.
  split.
  { exists (digits 10 (gb_hundredths n / 100)),
           (zero_pad 2 (digits 10 (gb_hundredths n mod 100))).
    assert (Hq : 0 <= gb_hundredths n / 100) by (apply Z.div_pos; lia).
    assert (Hr : 0 <= gb_hundredths n mod 100 < 100)
      by (apply Z.mod_pos_bound; lia).
    destruct (digits_decimal _ Hq) as [Hwhole Hwv].
    destruct (two_decimals _ Hr) as (Hlen & Hfrac & Hfv).
    split; [apply gb_field_render, Hn|].
    split; [exact Hwhole|]. split; [exact Hfrac|]. split; [exact Hlen|].
    rewrite Hwv, Hfv. pose proof (Z.div_mod (gb_hundredths n) 100 ltac:(lia)).
    lia. }
  split; [apply gb_hundredths_near, Hn|].
  split.
  { intros H53. unfold byte_count in Hn.
    rewrite gb_hundredths_exact by lia. split; [reflexivity|].
    pose proof (round_half_even_near (100 * n) (2 ^ 30)
                  ltac:(apply Z.pow_pos_nonneg; lia)) as Hnear.
    rewrite (Z.mul_comm (round_half_even _ _)). exact Hnear. }
  split; [vm_compute; reflexivity|].
  split; [apply memory_size_fields|].
  split; [apply partition_size_fields | apply disk_entry_rendered].
Qed.

Lemma size_fields_two_decimals_witness :
  byte_count (2 ^ 30)
  /\ (exists whole frac : string,
        gb_field (2 ^ 30) = Ok (whole ++ "." ++ frac ++ " GB")
        /\ decimal_string whole /\ decimal_string frac
        /\ String.length frac = 2%nat
        /\ decimal_value whole * 100 + decimal_value frac = gb_hundredths (2 ^ 30))
  /\ gb_field (2 ^ 30) = Ok "1.00 GB"
  /\ (exists entry : gmap string value,
        get_disk_info healthy_host !! drive "C" = Some (VDict entry)
        /\ partition_entry (Sdiskpart (drive "C") (drive "C") "NTFS")
             (Sdiskusage (2 ^ 38) (3 * 2 ^ 36) (2 ^ 36) (inject_Z 75))
           = Ok entry
        /\ renders_gb entry "Total Size" (2 ^ 38)
        /\ renders_gb entry "Used" (3 * 2 ^ 36)
        /\ renders_gb entry "Free" (2 ^ 36)).
Proof.
  assert (Hcount : byte_count (2 ^ 30)) by (unfold byte_count; lia).
  split; [exact Hcount|].
  split; [apply (size_fields_two_decimals (2 ^ 30) Hcount)|].
  split; [apply (size_fields_two_decimals (2 ^ 30) Hcount)|].
  apply (proj2 (proj2 (proj2 (proj2 (proj2 (proj2
           (size_fields_two_decimals (2 ^ 30) Hcount))))))
           healthy_host []
           [ Sdiskpart (drive "D") (drive "D") "UDF";
             Sdiskpart (drive "E") (drive "E") "NTFS" ]
           (Sdiskpart (drive "C") (drive "C") "NTFS")
           (Sdiskusage (2 ^ 38) (3 * 2 ^ 36) (2 ^ 36) (inject_Z 75))
           (Some (Sdiskio 1200 800 (5 * 2 ^ 20) (2 ^ 19))));
    reflexivity.
Defined.

(** X12. When the partitions are listed and the I/O counters read, the
    disk result has, apart from [IO Statistics], one key for each device
    with a partition whose usage could be read and no other: a partition
    whose usage raises is left out.  The entry of a device is that of its
    last readable partition, with its file system, mount point and sizes;
    the I/O counters, when psutil has them, are under [IO Statistics]. *)
Theorem disk_partitions_listed (h : host) (partitions : list sdiskpart)
    (disk_io : option sdiskio) :
  disk_counts_in_range h = true ->
  disk_partitions h = Ok partitions -> disk_io_counters h = Ok disk_io ->
  (forall dev : string,
     dev <> "IO Statistics" ->
     (is_Some (get_disk_info h !! dev)
      <-> exists p : sdiskpart,
            In p partitions /\ device p = dev /\ usage_answers h p = true))
  /\ (forall (before after : list sdiskpart) (p : sdiskpart) (usage : sdiskusage),
        partitions = (before ++ p :: after)%list ->
        device p <> "IO Statistics" ->
        disk_usage h (mountpoint p) = Ok usage ->
        (forall q : sdiskpart,
           In q after -> device q = device p -> usage_answers h q = false) ->
        exists entry : gmap string value,
          get_disk_info h !! device p = Some (VDict entry)
          /\ partition_entry p usage = Ok entry
          /\ entry !! "File System" = Some (VStr (fstype p))
          /\ entry !! "Mount Point" = Some (VStr (mountpoint p))
          /\ renders_gb entry "Total Size" (du_total usage)
          /\ renders_gb entry "Used" (du_used usage)
          /\ renders_gb entry "Free" (du_free usage))
  /\ (forall io : sdiskio,
        disk_io = Some io ->
        exists stats : gmap string value,
          get_disk_info h !! "IO Statistics" = Some (VDict stats)
          /\ io_statistics io = Ok stats)
  /\ (disk_io = None ->
      get_disk_info h = foldl (add_partition h) ∅ partitions).
Proof.
  intros Hr Hp Hio.
  pose proof (disk_range_partitions h partitions Hr Hp) as Hrange.
  assert (Hlookup : forall dev : string,
             dev <> "IO Statistics" ->
             get_disk_info h !! dev
             = foldl (add_partition h) ∅ partitions !! dev).
  { intros dev Hdev.
    destruct (disk_info_answers h partitions disk_io Hr Hp Hio)
      as [(_ & ->)|(io & stats & _ & _ & ->)]; [reflexivity|].
    apply lookup_insert_ne. congruence. }
  split; [|split; [|split]].
  - intros dev Hdev. rewrite (Hlookup dev Hdev).
    rewrite (partitions_keys h partitions dev Hrange ∅).
    split; [intros [Hempty|Hp']; [|exact Hp'] | auto].
    rewrite lookup_empty in Hempty. destruct Hempty as [? [=]].
  - intros before after p usage -> Hdev Hu Hlater.
    rewrite (Hlookup _ Hdev), foldl_app. cbn [foldl].
    rewrite (partitions_keep h after (device p) Hlater).
    rewrite forallb_app in Hrange. apply andb_true_iff in Hrange as [_ Hrange].
    cbn [forallb] in Hrange. apply andb_true_iff in Hrange as [Hin _].
    destruct (usage_in_range_counts h p usage Hin Hu) as (H1 & H2 & H3).
    destruct (partition_entry_fields p usage H1 H2 H3) as (entry & Hentry & Hfields).
    exists entry. split; [|split; [exact Hentry | exact Hfields]].
    unfold add_partition. rewrite Hu. cbn [mbind result_bind]. rewrite Hentry.
    apply lookup_insert_eq.
  - intros io ->.
    destruct (disk_info_answers h partitions (Some io) Hr Hp Hio)
      as [([=] & _)|(io' & stats & [= <-] & Hstats & ->)].
    exists stats. split; [apply lookup_insert_eq | exact Hstats].
  - intros ->.
    destruct (disk_info_answers h partitions None Hr Hp Hio)
      as [(_ & ->)|(io' & stats & [=] & _)]. reflexivity.
Qed.

Lemma disk_partitions_listed_witness :
  is_Some (get_disk_info healthy_host !! drive "D")
  <-> exists p : sdiskpart,
        In p sample_partitions /\ device p = drive "D"
        /\ usage_answers healthy_host p = true.
Proof.
  apply (proj1 (disk_partitions_listed healthy_host sample_partitions
                  (Some (Sdiskio 1200 800 (5 * 2 ^ 20) (2 ^ 19)))
                  eq_refl eq_refl eq_refl)
           (drive "D")).
  intros Heq. vm_compute in Heq. discriminate Heq.
Defined.

(** ** The memory and CPU probes *)

Lemma list_to_map_keys (l : list (string * value)) (k : string) :
  is_Some ((list_to_map l : gmap string value) !! k) <-> In k l.*1.
Proof.
  rewrite <- elem_of_dom, dom_list_to_map_L, elem_of_list_to_set.
  apply list_elem_of_In.
Qed.

(** X9. The memory result is all or nothing: with 64-bit byte counts it
    is the [Error] dictionary exactly when [virtual_memory] or
    [swap_memory] raises, and otherwise it has the seven memory keys and
    no other; there is no partial result. *)
Theorem memory_all_or_nothing (h : host) :
  memory_counts_in_range h = true ->
  (get_memory_info h = memory_error
   <-> (exists e : exn, virtual_memory h = Raise e)
       \/ (exists e : exn, swap_memory h = Raise e))
  /\ (forall (vm : svmem) (sw : sswap),
        virtual_memory h = Ok vm -> swap_memory h = Ok sw ->
        forall k : string,
          is_Some (get_memory_info h !! k) <-> In k memory_keys).
Proof.
  intros Hr. unfold memory_counts_in_range in Hr.
  destruct (virtual_memory h) as [vm|e] eqn:Hvm.
  2:{ assert (Herr : get_memory_info h = memory_error)
        by (unfold get_memory_info; rewrite Hvm; reflexivity).
      split; [split; [eauto | intros _; exact Herr] | discriminate]. }
  destruct (swap_memory h) as [sw|e] eqn:Hsw.
  2:{ assert (Herr : get_memory_info h = memory_error)
        by (unfold get_memory_info; rewrite Hvm, Hsw; reflexivity).
      split; [split; [eauto | intros _; exact Herr] | discriminate]. }
  apply andb_true_iff in Hr as [Hv Hs].
  apply andb_true_iff in Hv as [Hv H3]. apply andb_true_iff in Hv as [H1 H2].
  apply andb_true_iff in Hs as [H4 H5].
  apply byte_countb_true in H1, H2, H3, H4, H5.
  assert (Hkeys : forall k : string,
             is_Some (get_memory_info h !! k) <-> In k memory_keys).
  { intros k. unfold get_memory_info. rewrite Hvm, Hsw.
    cbn [mbind result_bind].
    rewrite (gb_field_render _ H1), (gb_field_render _ H2),
      (gb_field_render _ H3), (gb_field_render _ H4), (gb_field_render _ H5).
    cbn [mbind result_bind]. apply list_to_map_keys. }
  split; [|intros _ _ _ _; exact Hkeys].
  split.
  - intros Herr. exfalso.
    assert (Hk : is_Some (get_memory_info h !! "Error")).
    { rewrite Herr. unfold memory_error. rewrite lookup_singleton_eq. eauto. }
    apply Hkeys in Hk. unfold memory_keys in Hk. cbn [In] in Hk.
    decompose [or] Hk; try discriminate; contradiction.
  - intros [[e He]|[e He]]; discriminate He.
Qed.

Lemma memory_all_or_nothing_witness :
  is_Some (get_memory_info healthy_host !! "Used Swap")
  <-> In "Used Swap" memory_keys.
Proof.
  apply (proj2 (memory_all_or_nothing healthy_host eq_refl)
           (Svmem (2 ^ 30) (2 ^ 29) (2 ^ 29) (inject_Z 50))
           (Sswap (2 ^ 31) 0 (inject_Z 0)) eq_refl eq_refl "Used Swap").
Defined.

Lemma query_cpu_name_lookup (h : host) (d : gmap string value) (k : string) :
  query_cpu_name h d !! k
  = if String.eqb k "Name"
    then match cpu_name h with
         | Some line => Some (VStr line)
         | None => d !! k
         end
    else d !! k.
Proof.
  unfold query_cpu_name, cpu_name.
  destruct (subprocess_run h "wmic cpu get name") as [result|e];
    [|destruct (String.eqb k "Name"); reflexivity].
  destruct (returncode result =? 0);
    [|destruct (String.eqb k "Name"); reflexivity].
  destruct (split_on newline (strip (stdout result))) as [|first [|line rest]];
    cbn [length lookup list_lookup];
    try (destruct (String.eqb k "Name"); reflexivity).
  change (1 <? S (S (length rest)))%nat with true. cbv iota.
  destruct (String.eqb_spec k "Name") as [->|Hne].
  - apply lookup_insert_eq.
  - apply lookup_insert_ne. congruence.
Qed.

(** X10. The CPU result is the [Error] dictionary exactly when one of
    the four psutil calls raises ([cpu_freq] answering alike each time
    the display asks it).  Otherwise it holds the two core
    counts as psutil gave them ([None] included), both frequencies, or
    [N/A] for both when psutil has none, and the usage; the name utility
    adds [Name], the second line of its output, when it ends with
    status 0 and prints one, and takes nothing away when it does not. *)
Theorem cpu_error_iff (h : host) :
  (get_cpu_info h = cpu_error
   <-> (exists e : exn, cpu_count_physical h = Raise e)
       \/ (exists e : exn, cpu_count_logical h = Raise e)
       \/ (exists e : exn, cpu_freq h = Raise e)
       \/ (exists e : exn, psutil_cpu_percent h = Raise e))
  /\ (forall (physical logical : option Z) (freq : option scpufreq) (usage : Q),
        cpu_count_physical h = Ok physical ->
        cpu_count_logical h = Ok logical ->
        cpu_freq h = Ok freq ->
        psutil_cpu_percent h = Ok usage ->
        get_cpu_info h !! "Physical Cores" = Some (opt_value VInt physical)
        /\ get_cpu_info h !! "Total Cores" = Some (opt_value VInt logical)
        /\ get_cpu_info h !! "Max Frequency"
           = Some (VStr (match freq with
                         | Some f => format_2f (freq_max f) ++ " MHz"
                         | None => "N/A"
                         end))
        /\ get_cpu_info h !! "Current Frequency"
           = Some (VStr (match freq with
                         | Some f => format_2f (freq_current f) ++ " MHz"
                         | None => "N/A"
                         end))
        /\ get_cpu_info h !! "CPU Usage" = Some (VStr (repr_1 usage ++ "%"))
        /\ get_cpu_info h !! "Name" = VStr <$> cpu_name h
        /\ get_cpu_info h !! "Error" = None).
Proof.
  assert (Hfields : forall physical logical freq usage,
             cpu_count_physical h = Ok physical ->
             cpu_count_logical h = Ok logical ->
             cpu_freq h = Ok freq ->
             psutil_cpu_percent h = Ok usage ->
             get_cpu_info h !! "Physical Cores" = Some (opt_value VInt physical)
             /\ get_cpu_info h !! "Total Cores" = Some (opt_value VInt logical)
             /\ get_cpu_info h !! "Max Frequency"
                = Some (VStr (match freq with
                              | Some f => format_2f (freq_max f) ++ " MHz"
                              | None => "N/A"
                              end))
             /\ get_cpu_info h !! "Current Frequency"
                = Some (VStr (match freq with
                              | Some f => format_2f (freq_current f) ++ " MHz"
                              | None => "N/A"
                              end))
             /\ get_cpu_info h !! "CPU Usage" = Some (VStr (repr_1 usage ++ "%"))
             /\ get_cpu_info h !! "Name" = VStr <$> cpu_name h
             /\ get_cpu_info h !! "Error" = None).
  { intros physical logical freq usage Hp Hl Hf Hu.
    unfold get_cpu_info. rewrite Hp, Hl, Hf, Hu. cbn [mbind result_bind].
    rewrite !query_cpu_name_lookup.
    repeat match goal with
           | |- context [String.eqb ?a ?b] =>
               let r := eval vm_compute in (String.eqb a b) in
               change (String.eqb a b) with r
           end.
    cbv iota.
    split; [lookup_display|]. split; [lookup_display|].
    split; [destruct freq; lookup_display|].
    split; [destruct freq; lookup_display|].
    split; [lookup_display|].
    split; [destruct (cpu_name h); reflexivity | reflexivity]. }
  split; [|exact Hfields].
  split.
  - intros Herr.
    destruct (cpu_count_physical h) as [physical|e] eqn:Hp; [|eauto].
    destruct (cpu_count_logical h) as [logical|e] eqn:Hl; [|eauto].
    destruct (cpu_freq h) as [freq|e] eqn:Hf; [|eauto 6].
    destruct (psutil_cpu_percent h) as [usage|e] eqn:Hu; [|eauto 6].
    destruct (Hfields physical logical freq usage eq_refl eq_refl eq_refl eq_refl)
      as (_ & _ & _ & _ & _ & _ & Hnone).
    rewrite Herr in Hnone. discriminate Hnone.
  - unfold get_cpu_info.
    intros [[e He]|[[e He]|[[e He]|[e He]]]].
    + rewrite He. reflexivity.
    + rewrite He. destruct (cpu_count_physical h); reflexivity.
    + rewrite He. destruct (cpu_count_physical h); [|reflexivity].
      destruct (cpu_count_logical h); reflexivity.
    + rewrite He. destruct (cpu_count_physical h); [|reflexivity].
      destruct (cpu_count_logical h); [|reflexivity].
      destruct (cpu_freq h); reflexivity.
Qed.

(** ** The network probe, interface by interface *)

Lemma interfaces_keys (stats : gmap string snicstats)
    (addresses : list (string * list snicaddr)) (name : string) :
  forall d : gmap string value,
    is_Some (foldl (fun network_info '(interface, addrs) =>
                      <[interface := VDict (interface_entry stats interface addrs)]>
                        network_info)
                   d addresses !! name)
    <-> is_Some (d !! name) \/ In name addresses.*1.
Proof.
  induction addresses as [|[interface addrs] addresses IH]; intros d;
    cbn [foldl fmap list_fmap fst In].
  - split; [auto | intros [Hd|[]]; exact Hd].
  - rewrite IH. destruct (decide (interface = name)) as [->|Hne].
    + rewrite lookup_insert_eq. split; [auto | eauto].
    + rewrite lookup_insert_ne by exact Hne.
      split; [intros [Hd|Hin]; auto | intros [Hd|[Heq|Hin]]; auto; contradiction].
Qed.

Lemma interfaces_keep (stats : gmap string snicstats)
    (addresses : list (string * list snicaddr)) (name : string) :
  ~ In name addresses.*1 ->
  forall d : gmap string value,
    foldl (fun network_info '(interface, addrs) =>
             <[interface := VDict (interface_entry stats interface addrs)]>
               network_info)
          d addresses !! name
    = d !! name.
Proof.
  induction addresses as [|[interface addrs] addresses IH]; intros Hout d;
    cbn [foldl fmap list_fmap fst In] in *; [reflexivity|].
  rewrite IH by tauto. apply lookup_insert_ne. tauto.
Qed.

Lemma interfaces_dicts (stats : gmap string snicstats)
    (addresses : list (string * list snicaddr)) :
  forall d : gmap string value,
    map_Forall (fun _ v => is_dict v = true) d ->
    map_Forall (fun _ v => is_dict v = true)
      (foldl (fun network_info '(interface, addrs) =>
                <[interface := VDict (interface_entry stats interface addrs)]>
                  network_info)
             d addresses).
Proof.
  induction addresses as [|[interface addrs] addresses IH]; intros d Hd;
    cbn [foldl]; [exact Hd|].
  apply IH, map_Forall_insert_2; [reflexivity | exact Hd].
Qed.

(** The table of the interface counters: one row for each interface,
    the last counters of an interface in it. *)
Lemma add_interface_io_table (io_counters : list (string * snetio)) :
  forallb (fun '(_, io) =>
             byte_countb (bytes_sent io) && byte_countb (bytes_recv io))
          io_counters = true ->
  forall acc : gmap string value,
  exists table : gmap string value,
    add_interface_io io_counters acc = Ok table
    /\ (forall name : string,
          is_Some (table !! name)
          <-> is_Some (acc !! name) \/ In name io_counters.*1)
    /\ (forall name : string,
          ~ In name io_counters.*1 -> table !! name = acc !! name)
    /\ (forall (before after : list (string * snetio)) (name : string)
               (io : snetio),
          io_counters = (before ++ (name, io) :: after)%list ->
          ~ In name after.*1 ->
          exists entry : gmap string value,
            table !! name = Some (VDict entry) /\ interface_io io = Ok entry).
Proof.
  induction io_counters as [|[interface io] io_counters IH]; intros Hrange acc;
    cbn [add_interface_io fmap list_fmap fst In].
  - exists acc. split; [reflexivity|]. split; [|split].
    + intros name. split; [auto | intros [Hd|[]]; exact Hd].
    + reflexivity.
    + intros [|? ?] after name io' Heq; discriminate Heq.
  - cbn [forallb] in Hrange. apply andb_true_iff in Hrange as [Hio Hrange].
    apply andb_true_iff in Hio as [H1 H2]. apply byte_countb_true in H1, H2.
    destruct (interface_io_fields io H1 H2) as (entry & Hentry & _).
    rewrite Hentry. cbn [mbind result_bind].
    destruct (IH Hrange (<[interface := VDict entry]> acc))
      as (table & Hrun & Hkeys & Hkeep & Hlast).
    exists table. split; [exact Hrun|]. split; [|split].
    + intros name. rewrite Hkeys.
      destruct (decide (interface = name)) as [->|Hne].
      * rewrite lookup_insert_eq. split; [auto | eauto].
      * rewrite lookup_insert_ne by exact Hne.
        split; [intros [Hd|Hin]; auto
               | intros [Hd|[Heq|Hin]]; auto; contradiction].
    + intros name Hout. rewrite Hkeep by tauto.
      apply lookup_insert_ne. tauto.
    + intros before after name io' Heq Hout.
      destruct before as [|first before]; cbn [app] in Heq.
      * injection Heq as -> -> ->.
        exists entry. split; [|exact Hentry].
        rewrite (Hkeep name Hout). apply lookup_insert_eq.
      * injection Heq as _ ->. apply (Hlast before after name io' eq_refl Hout).
Qed.

(** What the probe returns once its three psutil calls answer. *)
Lemma network_info_answers (h : host) (addresses : list (string * list snicaddr))
    (stats : gmap string snicstats) (io_counters : list (string * snetio)) :
  net_if_addrs h = Ok addresses -> net_if_stats h = Ok stats ->
  net_io_counters h = Ok io_counters ->
  network_counts_in_range h = true ->
  let interfaces :=
    foldl (fun network_info '(interface, addrs) =>
             <[interface := VDict (interface_entry stats interface addrs)]>
               network_info)
          ∅ addresses in
  (io_counters = [] /\ get_network_info h = interfaces)
  \/ (io_counters <> []
      /\ exists table : gmap string value,
           add_interface_io io_counters ∅ = Ok table
           /\ get_network_info h
              = <["IO Statistics" := VDict table]> interfaces).
Proof.
  intros Ha Hs Hio Hr interfaces. unfold network_counts_in_range in Hr.
  rewrite Hio in Hr. unfold get_network_info. cbv zeta.
  rewrite Ha, Hs, Hio. cbn [mbind result_bind].
  destruct io_counters as [|counter io_counters]; [left; split; reflexivity|].
  right. split; [discriminate|].
  destruct (add_interface_io_table (counter :: io_counters) Hr ∅)
    as (table & Hrun & _).
  exists table. rewrite Hrun. split; reflexivity.
Qed.

Lemma speed_not_missing (n : Z) : VStr (str_of_int n ++ " Mbps") <> VStr "N/A".
Proof.
  intros [= Heq]. apply (f_equal String.length) in Heq.
  rewrite str_length_app in Heq. cbn [String.length] in Heq. lia.
Qed.

(** X13. With 64-bit byte counts, the network probe degrades to its
    [Error] dictionary exactly when one of its three psutil calls
    raises. *)
Theorem network_error_iff (h : host) :
  network_counts_in_range h = true ->
  (get_network_info h = network_error
   <-> (exists e : exn, net_if_addrs h = Raise e)
       \/ (exists e : exn, net_if_stats h = Raise e)
       \/ (exists e : exn, net_io_counters h = Raise e)).
Proof.
  intros Hr. split.
  - intros Herr.
    destruct (net_if_addrs h) as [addresses|e] eqn:Ha; [|eauto].
    destruct (net_if_stats h) as [stats|e] eqn:Hs; [|eauto].
    destruct (net_io_counters h) as [io_counters|e] eqn:Hio; [|eauto].
    exfalso.
    assert (Hdicts : map_Forall (fun _ v => is_dict v = true) (get_network_info h)).
    { destruct (network_info_answers h addresses stats io_counters Ha Hs Hio Hr)
        as [(_ & ->)|(_ & table & _ & ->)].
      - apply interfaces_dicts, map_Forall_empty.
      - apply map_Forall_insert_2; [reflexivity|].
        apply interfaces_dicts, map_Forall_empty. }
    rewrite Herr in Hdicts.
    specialize (Hdicts "Error" _ (lookup_singleton_eq _ _)). discriminate Hdicts.
  - intros [[e He]|[[e He]|[e He]]]; apply (network_info_faults h e); auto.
Qed.

Lemma network_error_iff_witness :
  get_network_info healthy_host = network_error
  <-> (exists e : exn, net_if_addrs healthy_host = Raise e)
      \/ (exists e : exn, net_if_stats healthy_host = Raise e)
      \/ (exists e : exn, net_io_counters healthy_host = Raise e).
Proof. apply (network_error_iff healthy_host). reflexivity. Defined.

(** X16. When its three psutil calls answer, the network result has,
    apart from [IO Statistics], one entry for each interface with
    addresses and no other.  The entry lists one line per address, in
    order; [Is Up] is the flag of the interface's statistics and [Speed]
    its speed in Mbps, each [N/A] when the interface has no statistics,
    and [Speed] also when the speed is 0.  [IO Statistics] is added when
    there are counters, with a row for each interface that has some. *)
Theorem network_interfaces_listed (h : host)
    (addresses : list (string * list snicaddr)) (stats : gmap string snicstats)
    (io_counters : list (string * snetio)) :
  net_if_addrs h = Ok addresses -> net_if_stats h = Ok stats ->
  net_io_counters h = Ok io_counters ->
  network_counts_in_range h = true ->
  (forall name : string,
     name <> "IO Statistics" ->
     (is_Some (get_network_info h !! name) <-> In name addresses.*1))
  /\ (forall (before after : list (string * list snicaddr)) (name : string)
             (addrs : list snicaddr),
        addresses = (before ++ (name, addrs) :: after)%list ->
        ~ In name after.*1 ->
        name <> "IO Statistics" ->
        exists entry : gmap string value,
          get_network_info h !! name = Some (VDict entry)
          /\ entry !! "Addresses"
             = Some (VList (map (fun addr => VStr (address_line addr)) addrs))
          /\ entry !! "Is Up"
             = Some (match stats !! name with
                     | Some st => VBool (isup st)
                     | None => VStr "N/A"
                     end)
          /\ (entry !! "Speed" = Some (VStr "N/A")
              <-> forall st : snicstats, stats !! name = Some st -> speed st = 0)
          /\ (forall st : snicstats,
                stats !! name = Some st -> speed st <> 0 ->
                entry !! "Speed" = Some (VStr (str_of_int (speed st) ++ " Mbps"))))
  /\ (io_counters = [] ->
      (is_Some (get_network_info h !! "IO Statistics")
       <-> In "IO Statistics" addresses.*1))
  /\ (io_counters <> [] ->
      exists table : gmap string value,
        get_network_info h !! "IO Statistics" = Some (VDict table)
        /\ (forall name : string,
              is_Some (table !! name) <-> In name io_counters.*1)
        /\ (forall (before after : list (string * snetio)) (name : string)
                   (io : snetio),
              io_counters = (before ++ (name, io) :: after)%list ->
              ~ In name after.*1 ->
              exists entry : gmap string value,
                table !! name = Some (VDict entry)
                /\ interface_io io = Ok entry)).
Proof.
  intros Ha Hs Hio Hr.
  pose proof (network_info_answers h addresses stats io_counters Ha Hs Hio Hr)
    as Hanswer. cbv zeta in Hanswer.
  assert (Hlookup : forall name : string,
             name <> "IO Statistics" ->
             get_network_info h !! name
             = foldl (fun network_info '(interface, addrs) =>
                        <[interface := VDict (interface_entry stats interface addrs)]>
                          network_info)
                     (∅ : gmap string value) addresses !! name).
  { intros name Hname.
    destruct Hanswer as [(_ & ->)|(_ & table & _ & ->)]; [reflexivity|].
    apply lookup_insert_ne. congruence. }
  split; [|split; [|split]].
  - intros name Hname. rewrite (Hlookup name Hname), interfaces_keys.
    split; [intros [Hempty|Hin]; [|exact Hin] | auto].
    rewrite lookup_empty in Hempty. destruct Hempty as [? [=]].
  - intros before after name addrs -> Hout Hname.
    rewrite (Hlookup name Hname), foldl_app. cbn [foldl].
    rewrite (interfaces_keep stats after name Hout), lookup_insert_eq.
    eexists. split; [reflexivity|].
    split; [unfold interface_entry; lookup_display|].
    split; [unfold interface_entry; lookup_display|].
    split; [split|].
    + intros Hspeed st Hst.
      unfold interface_entry, list_to_map in Hspeed. cbn [foldr fst snd] in Hspeed.
      rewrite lookup_insert_ne, lookup_insert_ne, lookup_insert_eq in Hspeed
        by discriminate.
      rewrite Hst in Hspeed.
      destruct (Z.eqb_spec (speed st) 0) as [Hzero|Hfast]; [exact Hzero|].
      exfalso. apply (speed_not_missing (speed st)). congruence.
    + intros Hzero. unfold interface_entry, list_to_map. cbn [foldr fst snd].
      rewrite lookup_insert_ne, lookup_insert_ne, lookup_insert_eq by discriminate.
      destruct (stats !! name) as [st|] eqn:Hst; [|reflexivity].
      rewrite (Hzero st eq_refl). reflexivity.
    + intros st Hst Hfast. unfold interface_entry, list_to_map. cbn [foldr fst snd].
      rewrite lookup_insert_ne, lookup_insert_ne, lookup_insert_eq by discriminate.
      rewrite Hst. rewrite (proj2 (Z.eqb_neq _ _) Hfast). reflexivity.
  - intros ->. destruct Hanswer as [(_ & ->)|(Hne & _)]; [|contradiction].
    rewrite interfaces_keys.
    split; [intros [Hempty|Hin]; [|exact Hin] | auto].
    rewrite lookup_empty in Hempty. destruct Hempty as [? [=]].
  - intros Hne. destruct Hanswer as [(-> & _)|(_ & table & Hrun & ->)];
      [contradiction|].
    exists table. split; [apply lookup_insert_eq|].
    assert (Hrange : forallb (fun '(_, io) =>
                                byte_countb (bytes_sent io)
                                && byte_countb (bytes_recv io))
                             io_counters = true).
    { unfold network_counts_in_range in Hr. rewrite Hio in Hr. exact Hr. }
    destruct (add_interface_io_table io_counters Hrange ∅)
      as (table' & Hrun' & Hkeys & _ & Hlast).
    rewrite Hrun in Hrun'. injection Hrun' as <-.
    split; [|exact Hlast].
    intros name. rewrite Hkeys.
    split; [intros [Hempty|Hin]; [|exact Hin] | auto].
    rewrite lookup_empty in Hempty. destruct Hempty as [? [=]].
Qed.

Lemma network_interfaces_listed_witness :
  is_Some (get_network_info healthy_host !! "Loopback")
  <-> In "Loopback" sample_addresses.*1.
Proof.
  apply (proj1 (network_interfaces_listed healthy_host sample_addresses
                  sample_stats sample_net_io eq_refl eq_refl eq_refl eq_refl)
           "Loopback").
  discriminate.
Defined.

(** ** The Windows section *)

(** X20. The Windows section is the [Error] dictionary only when
    [win32_ver] raises; otherwise it has its seven keys whatever the
    registry and the utilities do: a registry key that does not open
    gives [Not available] for the product id and the product key, and a
    utility that raises or ends with a status other than 0 gives
    [Unknown] for the last update and for the installation date. *)
Theorem windows_info_placeholders (h : host) :
  (is_Some (get_windows_info h !! "Error")
   <-> exists e : exn, platform_win32_ver h = Raise e)
  /\ (forall win_ver : string * string * string * string,
        platform_win32_ver h = Ok win_ver ->
        (forall k : string,
           is_Some (get_windows_info h !! k) <-> In k windows_keys)
        /\ get_windows_info h !! "Windows Edition" = Some (VStr win_ver.1.1.1)
        /\ get_windows_info h !! "Windows Version" = Some (VStr win_ver.1.1.2)
        /\ get_windows_info h !! "Windows Build" = Some (VStr win_ver.1.2)
        /\ ((exists e : exn, OpenKey h current_version = Raise e) ->
            get_windows_info h !! "Product ID" = Some (VStr "Not available")
            /\ get_windows_info h !! "Product Key" = Some (VStr "Not available"))
        /\ ((forall result : completed,
               subprocess_run h last_update_cmd = Ok result ->
               returncode result <> 0) ->
            get_windows_info h !! "Last Update" = Some (VStr "Unknown"))
        /\ ((forall result : completed,
               subprocess_run h install_date_cmd = Ok result ->
               returncode result <> 0) ->
            get_windows_info h !! "Installation Date" = Some (VStr "Unknown"))).
Proof.
  split.
  - unfold get_windows_info.
    destruct (platform_win32_ver h) as [[[[release version] csd] ptype]|e].
    + split; [|intros [e He]; discriminate He].
      intros Hsome. apply list_to_map_keys in Hsome. cbn in Hsome.
      decompose [or] Hsome; try discriminate; contradiction.
    + split; [eauto|]. intros _. rewrite lookup_singleton_eq. eauto.
  - intros win_ver Hver. unfold get_windows_info. rewrite Hver.
    destruct win_ver as [[[release version] csd] ptype]. cbv zeta.
    split; [intros k; apply list_to_map_keys|].
    split; [lookup_display|]. split; [lookup_display|]. split; [lookup_display|].
    split; [|split].
    + intros [e He].
      assert (Hid : get_windows_product_id h = VStr "Not available").
      { unfold get_windows_product_id, query_value. rewrite He. reflexivity. }
      assert (Hkey : get_windows_product_key h = None).
      { unfold get_windows_product_key, query_value. rewrite He. reflexivity. }
      rewrite Hid, Hkey. split; lookup_display.
    + intros Hfail.
      assert (Hlast : get_last_update_time h = "Unknown").
      { unfold get_last_update_time.
        destruct (subprocess_run h last_update_cmd) as [result|e]; [|reflexivity].
        rewrite (proj2 (Z.eqb_neq _ _) (Hfail result eq_refl)). reflexivity. }
      rewrite Hlast. lookup_display.
    + intros Hfail.
      assert (Hdate : get_windows_install_date h = "Unknown").
      { unfold get_windows_install_date.
        destruct (subprocess_run h install_date_cmd) as [result|e]; [|reflexivity].
        rewrite (proj2 (Z.eqb_neq _ _) (Hfail result eq_refl)). reflexivity. }
      rewrite Hdate. lookup_display.
Qed.

Lemma list_ascii_app (a b : string) :
  list_ascii_of_string (a ++ b)
  = (list_ascii_of_string a ++ list_ascii_of_string b)%list.
Proof.
  induction a as [|c a IH]; [reflexivity|].
  change (c :: list_ascii_of_string (a ++ b)
          = c :: (list_ascii_of_string a ++ list_ascii_of_string b)%list).
  f_equal. exact IH.
Qed.

Lemma split_once_first (sep : ascii) (label rest : list ascii) :
  existsb (Ascii.eqb sep) label = false ->
  forall cur : list ascii,
    split_once_aux sep cur (label ++ sep :: rest)%list
    = [ string_of_list_ascii (rev cur ++ label)%list; string_of_list_ascii rest ].
Proof.
  induction label as [|c label IH]; intros Hout cur; cbn [app split_once_aux].
  - rewrite Ascii.eqb_refl, app_nil_r. reflexivity.
  - cbn [existsb] in Hout. apply orb_false_iff in Hout as [Hc Hout].
    rewrite Ascii.eqb_sym, Hc, (IH Hout). cbn [rev].
    rewrite <- app_assoc. reflexivity.
Qed.

Lemma split_once_none (sep : ascii) (cs : list ascii) :
  existsb (Ascii.eqb sep) cs = false ->
  forall cur : list ascii,
    split_once_aux sep cur cs = [ string_of_list_ascii (rev cur ++ cs)%list ].
Proof.
  induction cs as [|c cs IH]; intros Hout cur; cbn [split_once_aux].
  - rewrite app_nil_r. reflexivity.
  - cbn [existsb] in Hout. apply orb_false_iff in Hout as [Hc Hout].
    rewrite Ascii.eqb_sym, Hc, (IH Hout). cbn [rev].
    rewrite <- app_assoc. reflexivity.
Qed.

(** X3. When the utility ends with status 0, the installation date is
    what its output holds after the first colon, stripped: the colons of
    a time of day stay in it.  An output without a colon gives
    [Unknown]. *)
Theorem install_date_after_first_colon (h : host) (result : completed) :
  subprocess_run h install_date_cmd = Ok result ->
  returncode result = 0 ->
  (forall label rest : string,
     stdout result = label ++ ":" ++ rest ->
     has_char ":" label = false ->
     get_windows_install_date h = strip rest)
  /\ (has_char ":" (stdout result) = false ->
      get_windows_install_date h = "Unknown").
Proof.
  intros Hrun Hstatus. unfold get_windows_install_date.
  rewrite Hrun, Hstatus. change (0 =? 0) with true. cbv iota.
  unfold split_once, has_char. split.
  - intros label rest -> Hout.
    rewrite list_ascii_app.
    change (list_ascii_of_string (":" ++ rest))
      with (":"%char :: list_ascii_of_string rest).
    rewrite (split_once_first _ _ _ Hout). cbn [lookup list_lookup].
    rewrite string_of_list_ascii_of_string. reflexivity.
  - intros Hout. rewrite (split_once_none _ _ Hout). reflexivity.
Qed.

Lemma install_date_after_first_colon_witness :
  get_windows_install_date dated_host
  = strip ("     1/2/2024, 10:30:00 AM" ++ line_break).
Proof.
  apply (proj1 (install_date_after_first_colon dated_host
                  (Completed 0 ("Original Install Date:     1/2/2024, 10:30:00 AM"
                                ++ line_break))
                  eq_refl eq_refl)
           "Original Install Date" ("     1/2/2024, 10:30:00 AM" ++ line_break));
    reflexivity.
Defined.

(** ** The words of the inventory *)

Lemma word_of_chars (cur : list ascii) :
  cur <> [] ->
  forallb (fun c => negb (is_space c)) cur = true ->
  word (string_of_list_ascii (rev cur)).
Proof.
  intros Hne Hall. split.
  - intros Hempty. apply (f_equal list_ascii_of_string) in Hempty.
    rewrite list_ascii_of_string_of_list_ascii in Hempty.
    apply (f_equal (@rev ascii)) in Hempty. rewrite rev_involutive in Hempty.
    exact (Hne Hempty).
  - rewrite list_ascii_of_string_of_list_ascii.
    apply forallb_forall. intros c Hc. apply in_rev in Hc.
    exact (proj1 (forallb_forall _ _) Hall c Hc).
Qed.

Lemma split_ws_aux_words (cs : list ascii) :
  forall cur : list ascii,
    forallb (fun c => negb (is_space c)) cur = true ->
    Forall word (split_ws_aux cur cs).
Proof.
  induction cs as [|c cs IH]; intros cur Hcur; cbn [split_ws_aux].
  - destruct cur as [|c' cur]; [constructor|].
    constructor; [|constructor]. apply word_of_chars; [discriminate | exact Hcur].
  - destruct (is_space c) eqn:Hc.
    + destruct cur as [|c' cur]; [apply IH; reflexivity|].
      constructor; [|apply IH; reflexivity].
      apply word_of_chars; [discriminate | exact Hcur].
    + apply IH. cbn [forallb]. rewrite Hc. exact Hcur.
Qed.

Lemma split_ws_words (s : string) : Forall word (split_ws s).
Proof. apply split_ws_aux_words. reflexivity. Qed.

Lemma concat_words (words : list string) :
  words <> [] -> Forall word words -> String.concat " " words <> EmptyString.
Proof.
  intros Hne Hwords. destruct Hwords as [|first rest [Hfirst _] _];
    [contradiction|].
  destruct first as [|c first]; [contradiction|].
  destruct rest; discriminate.
Qed.

Lemma maker_and_model (parts : list string) (manufacturer : string) :
  Forall word parts -> (2 <=? length parts)%nat = true ->
  parts !! 0%nat = Some manufacturer ->
  word manufacturer /\ String.concat " " (drop 1 parts) <> EmptyString.
Proof.
  intros Hwords Hlen Hfirst. apply Nat.leb_le in Hlen.
  destruct parts as [|first [|second rest]]; cbn [length] in Hlen; try lia.
  injection Hfirst as ->. inversion Hwords as [|? ? Hfirst Hrest]; subst.
  split; [exact Hfirst|]. apply concat_words; [discriminate | exact Hrest].
Qed.

Lemma enclosure_fields_words (h : host) :
  enclosure_fields h = ∅
  \/ exists manufacturer model : string,
       word manufacturer /\ model <> EmptyString
       /\ enclosure_fields h
          = <["Model" := VStr model]> {[ "Manufacturer" := VStr manufacturer ]}.
Proof.
  unfold enclosure_fields, query_computersystem. cbv zeta.
  repeat case_match; auto. right. rewrite insert_empty.
  match goal with
  | Hlen : (2 <=? length (split_ws ?line))%nat = true,
    Hfirst : split_ws ?line !! 0%nat = Some ?m |- _ =>
      destruct (maker_and_model _ _ (split_ws_words line) Hlen Hfirst)
        as [Hword Hmodel]
  end.
  eauto.
Qed.

Lemma baseboard_fields_words (h : host) :
  baseboard_fields h = ∅
  \/ exists manufacturer model : string,
       word manufacturer /\ model <> EmptyString
       /\ baseboard_fields h
          = <["Motherboard Model" := VStr model]>
              {[ "Motherboard Manufacturer" := VStr manufacturer ]}.
Proof.
  unfold baseboard_fields, query_baseboard. cbv zeta.
  repeat case_match; auto. right. rewrite insert_empty.
  match goal with
  | Hlen : (2 <=? length (split_ws ?line))%nat = true,
    Hfirst : split_ws ?line !! 0%nat = Some ?m |- _ =>
      destruct (maker_and_model _ _ (split_ws_words line) Hlen Hfirst)
        as [Hword Hmodel]
  end.
  eauto.
Qed.

Lemma enclosure_lookups (h : host) :
  (enclosure_fields h !! "Manufacturer" = None
   /\ enclosure_fields h !! "Model" = None
   \/ exists manufacturer model : string,
        word manufacturer /\ model <> EmptyString
        /\ enclosure_fields h !! "Manufacturer" = Some (VStr manufacturer)
        /\ enclosure_fields h !! "Model" = Some (VStr model))
  /\ enclosure_fields h !! "Motherboard Manufacturer" = None
  /\ enclosure_fields h !! "Motherboard Model" = None.
Proof.
  destruct (enclosure_fields_words h) as [->|(m & d & Hm & Hd & ->)].
  - split; [left; split; apply lookup_empty|]. split; apply lookup_empty.
  - split.
    + right. exists m, d. split; [exact Hm|]. split; [exact Hd|].
      split; [|apply lookup_insert_eq].
      rewrite lookup_insert_ne by discriminate. apply lookup_singleton_eq.
    + split; (rewrite lookup_insert_ne by discriminate;
              apply lookup_singleton_ne; discriminate).
Qed.

Lemma baseboard_lookups (h : host) :
  (baseboard_fields h !! "Motherboard Manufacturer" = None
   /\ baseboard_fields h !! "Motherboard Model" = None
   \/ exists manufacturer model : string,
        word manufacturer /\ model <> EmptyString
        /\ baseboard_fields h !! "Motherboard Manufacturer"
           = Some (VStr manufacturer)
        /\ baseboard_fields h !! "Motherboard Model" = Some (VStr model))
  /\ baseboard_fields h !! "Manufacturer" = None
  /\ baseboard_fields h !! "Model" = None.
Proof.
  destruct (baseboard_fields_words h) as [->|(m & d & Hm & Hd & ->)].
  - split; [left; split; apply lookup_empty|]. split; apply lookup_empty.
  - split.
    + right. exists m, d. split; [exact Hm|]. split; [exact Hd|].
      split; [|apply lookup_insert_eq].
      rewrite lookup_insert_ne by discriminate. apply lookup_singleton_eq.
    + split; (rewrite lookup_insert_ne by discriminate;
              apply lookup_singleton_ne; discriminate).
Qed.

Lemma bios_lookups (h : host) (k : string) :
  k <> "Serial Number" -> bios_fields h !! k = None.
Proof.
  intros Hk. destruct (bios_fields_shape h) as [->|(serial & ->)].
  - apply lookup_empty.
  - apply lookup_singleton_ne. congruence.
Qed.

(** X5. A manufacturer in the hardware result is always a single word,
    the first of the utility's second line, and it never comes without a
    model, the rest of the line and not empty: of a maker's name of two
    words the second goes to the model.  The same holds of the
    motherboard fields. *)
Theorem hardware_manufacturer_word (h : host) :
  (is_Some (get_hardware_info h !! "Manufacturer")
   <-> is_Some (get_hardware_info h !! "Model"))
  /\ (is_Some (get_hardware_info h !! "Motherboard Manufacturer")
      <-> is_Some (get_hardware_info h !! "Motherboard Model"))
  /\ (forall v : value,
        get_hardware_info h !! "Manufacturer" = Some v
        \/ get_hardware_info h !! "Motherboard Manufacturer" = Some v ->
        exists s : string, v = VStr s /\ word s)
  /\ (forall v : value,
        get_hardware_info h !! "Model" = Some v
        \/ get_hardware_info h !! "Motherboard Model" = Some v ->
        exists s : string, v = VStr s /\ s <> EmptyString).
Proof.
  assert (Hcases : get_hardware_info h = hardware_error
                   \/ get_hardware_info h
                      = baseboard_fields h ∪ (bios_fields h ∪ enclosure_fields h)).
  { unfold get_hardware_info. cbv zeta. rewrite hardware_fields_union.
    destruct (dict_is_empty _); [left | right]; reflexivity. }
  destruct Hcases as [-> | ->].
  { unfold hardware_error.
    rewrite !lookup_singleton_ne by discriminate.
    split; [split; intros [? [=]]|]. split; [split; intros [? [=]]|].
    split; intros v [[=]|[=]]. }
  destruct (enclosure_lookups h) as (Henc & He1 & He2).
  destruct (baseboard_lookups h) as (Hbase & Hb1 & Hb2).
  assert (Hs1 : bios_fields h !! "Manufacturer" = None)
    by (apply bios_lookups; discriminate).
  assert (Hs2 : bios_fields h !! "Model" = None)
    by (apply bios_lookups; discriminate).
  rewrite (lookup_union_r _ _ "Manufacturer" Hb1),
    (lookup_union_r _ _ "Model" Hb2),
    (lookup_union_r _ _ "Manufacturer" Hs1), (lookup_union_r _ _ "Model" Hs2).
  assert (Hinner : forall k : string,
             k <> "Serial Number" -> enclosure_fields h !! k = None ->
             (bios_fields h ∪ enclosure_fields h) !! k = None).
  { intros k Hk Hnone. apply lookup_union_None. split; [|exact Hnone].
    apply bios_lookups, Hk. }
  rewrite (lookup_union_l _ _ "Motherboard Manufacturer"
             (Hinner "Motherboard Manufacturer" ltac:(discriminate) He1)),
    (lookup_union_l _ _ "Motherboard Model"
       (Hinner "Motherboard Model" ltac:(discriminate) He2)).
  destruct Henc as [(-> & ->)|(m1 & d1 & Hm1 & Hd1 & -> & ->)];
    destruct Hbase as [(-> & ->)|(m2 & d2 & Hm2 & Hd2 & -> & ->)];
    (split; [split; intros Hs; eauto; destruct Hs as [? [=]]|]);
    (split; [split; intros Hs; eauto; destruct Hs as [? [=]]|]);
    (split; intros v [[=]|[=]]; subst; eauto).
Qed.
